(** * Resource allocation engine of the inventory management system

    A shallow embedding of [src/optimization/resource_allocator.py]
    (class [ResourceAllocator]) together with the session context manager
    of [src/database/connection.py] and the tables of
    [src/database/models.py] it reads and writes.

    Conventions of the embedding.
    - Python [int] is [Z].  The floats the program computes itself (the
      efficiencies of a utilization pass, the requirement estimates) are
      IEEE binary64 numbers, Rocq's primitive [float]; the numbers exchanged
      with the LP solver (unit costs, variable values, objective values) are
      idealised as exact rationals [Q].
    - A Python [dict] with integer keys is an insertion-ordered association
      list whose keys are pairwise distinct ([PyDict]).
    - Exceptions are an explicit result type; database access threads a
      [World] holding the tables, the open session and a fault plan.
    - PuLP's modelling objects are records; the CBC solver is a parameter of
      the functions that call it, constrained only through the contracts
      [Pulp.solver_feasible_on] and [Pulp.solver_sound_on], and only on the
      model the call builds. *)

From Stdlib Require Import List ZArith QArith Qround Lia Lqa Bool String FinFun.
From Stdlib Require Import Floats.
Import ListNotations.

Set Implicit Arguments.
Local Open Scope Z_scope.

(* ------------------------------------------------------------------ *)
(** ** Exceptions and fallible pure code *)

Inductive exn : Type :=
| KeyError          (* d[k] with k missing *)
| SQLAlchemyError.  (* a session operation failed *)

Inductive res (A : Type) : Type :=
| Ok (a : A)
| Raise (e : exn).
Arguments Ok {A} a.
Arguments Raise {A} e.

Definition res_bind {A B} (m : res A) (k : A -> res B) : res B :=
  match m with
  | Ok a => k a
  | Raise e => Raise e
  end.

Notation "'try!' x := m 'in' k" := (res_bind m (fun x => k))
  (at level 10, x pattern, m at level 100, k at level 200, only parsing).

(** A [for] loop threading an accumulator, whose body may raise. *)
Fixpoint foldM {A B} (f : B -> A -> res B) (l : list A) (b : B) : res B :=
  match l with
  | [] => Ok b
  | a :: l' => try! b' := f b a in foldM f l' b'
  end.

(** A list comprehension whose element expression may raise. *)
Fixpoint mapM {A B} (f : A -> res B) (l : list A) : res (list B) :=
  match l with
  | [] => Ok []
  | a :: l' => try! b := f a in try! bs := mapM f l' in Ok (b :: bs)
  end.

(* ------------------------------------------------------------------ *)
(** ** Python numbers *)

Module PyNum.

(** [int(x)] on a value of the solver: truncation toward zero. *)
Definition int (x : Q) : Z := Z.quot (Qnum x) (Zpos (Qden x)).

(** [x < y] on values of the solver, as a boolean. *)
Definition Qlt_bool (x y : Q) : bool := negb (Qle_bool y x).

(** [sum(xs)] for integers and for floats. *)
Definition sumZ (xs : list Z) : Z := fold_right Z.add 0%Z xs.
Definition sumQ (xs : list Q) : Q := fold_right Qplus 0%Q xs.

(** *** Binary64 arithmetic

    [x * y], [x - y] and [x < y] on two floats are [PrimFloat.mul],
    [PrimFloat.sub] and [PrimFloat.ltb]; an [int] operand of such an
    operation is converted first, which is exact for the literals [0] and
    [100] the program uses. *)

(** The float literals of the program, each the binary64 number nearest to
    the decimal Python reads. *)
Definition lit_0_9 : float := 0x1.ccccccccccccdp-1%float.   (* 0.9 *)
Definition lit_0_8 : float := 0x1.999999999999ap-1%float.   (* 0.8 *)
Definition lit_0_6 : float := 0x1.3333333333333p-1%float.   (* 0.6 *)

(** An integer as an unrounded binary number. *)
Definition Z2SF (z : Z) : spec_float :=
  match z with
  | Z0 => S754_zero false
  | Zpos p => S754_finite false p 0
  | Zneg p => S754_finite true p 0
  end.

(** [a / b] on two integers: the quotient of the integers themselves,
    rounded once to the nearest binary64 number, ties to even.  (Python
    raises [ZeroDivisionError] for [b = 0]; the program divides only by a
    positive count or total.) *)
Definition truediv (a b : Z) : float :=
  SF2Prim (SFdiv prec emax (Z2SF a) (Z2SF b)).

(** [int(x)] on a binary64 float: truncation toward zero.  (Python raises for
    an infinity or a NaN; the program passes the product of a quotient of
    database integers and a literal below one.) *)
Definition int_float (x : float) : Z :=
  match Prim2SF x with
  | S754_finite s m e =>
      let n := match e with
               | Zneg p => Z.shiftr (Zpos m) (Zpos p)
               | _ => Z.shiftl (Zpos m) e
               end in
      if s then (- n)%Z else n
  | _ => 0%Z
  end.

(** The binary numbers above zero: the positive finite ones and [+inf]. *)
Definition SFpositive (x : spec_float) : Prop :=
  match x with
  | S754_infinity false | S754_finite false _ _ => True
  | _ => False
  end.

End PyNum.

(* ------------------------------------------------------------------ *)
(** ** Python dictionaries keyed by integers

    Insertion-ordered, one entry per key.  [for k in d] visits [keys d] in
    order; a loop that iterates over [d] and only indexes [d] itself with the
    loop key is written as a loop over [d]'s entries. *)

Module PyDict.

Definition dict (V : Type) : Type := list (Z * V).

Section Ops.
Context {V : Type}.

(** [d.get(k)] *)
Fixpoint get (d : dict V) (k : Z) : option V :=
  match d with
  | [] => None
  | (k', v) :: d' => if Z.eqb k k' then Some v else get d' k
  end.

(** [d[k]] *)
Definition getitem (d : dict V) (k : Z) : res V :=
  match get d k with
  | Some v => Ok v
  | None => Raise KeyError
  end.

(** [d[k] = v]: replaces in place, or appends a new key at the end. *)
Fixpoint setitem (d : dict V) (k : Z) (v : V) : dict V :=
  match d with
  | [] => [(k, v)]
  | (k', v') :: d' =>
      if Z.eqb k k' then (k, v) :: d' else (k', v') :: setitem d' k v
  end.

Definition keys (d : dict V) : list Z := map fst d.
Definition values (d : dict V) : list V := map snd d.

(** [k in d] *)
Definition contains (d : dict V) (k : Z) : bool :=
  match get d k with Some _ => true | None => false end.

(** [not d] *)
Definition is_empty (d : dict V) : bool :=
  match d with [] => true | _ :: _ => false end.

(** The representation invariant: no key twice. *)
Definition wf (d : dict V) : Prop := NoDup (keys d).
End Ops.

End PyDict.
Import PyDict.

(* ------------------------------------------------------------------ *)
(** ** PuLP modelling objects *)

Module Pulp.

(** Variable names: [f"alloc_{item_id}_{line_id}"] and
    [f"sched_{job_id}_{line_id}_{slot}"].  The formatted strings are
    distinct for distinct index tuples, so the tuple stands for the
    string. *)
Inductive VarName : Type :=
| alloc_ (item_id line_id : Z)
| sched_ (job_id line_id slot : Z).

Definition VarName_eqb (a b : VarName) : bool :=
  match a, b with
  | alloc_ i l, alloc_ i' l' => Z.eqb i i' && Z.eqb l l'
  | sched_ j l s, sched_ j' l' s' => Z.eqb j j' && Z.eqb l l' && Z.eqb s s'
  | _, _ => false
  end.

Inductive LpCategory : Type := LpContinuous | LpInteger | LpBinary.

Record LpVariable : Type := {
  name : VarName;
  lowBound : option Q;
  upBound : option Q;
  cat : LpCategory
}.

(** [LpVariable(name, lowBound, upBound, cat)]: a binary variable is stored
    as an integer variable with bounds 0 and 1. *)
Definition mkLpVariable (n : VarName) (lo up : option Q) (c : LpCategory)
  : LpVariable :=
  match c with
  | LpBinary => {| name := n; lowBound := Some 0%Q; upBound := Some 1%Q;
                   cat := LpInteger |}
  | _ => {| name := n; lowBound := lo; upBound := up; cat := c |}
  end.

(** An affine expression: a coefficient per variable and a constant. *)
Record LpAffineExpression : Type := {
  terms : list (LpVariable * Q);
  constant : Q
}.

(** The number [0] an accumulator starts from. *)
Definition expr_zero : LpAffineExpression :=
  {| terms := []; constant := 0%Q |}.

(** [LpAffineExpression(v)] *)
Definition expr_of_var (v : LpVariable) : LpAffineExpression :=
  {| terms := [(v, 1%Q)]; constant := 0%Q |}.

(** [addterm]: coefficients of one variable are merged. *)
Fixpoint addterm (ts : list (LpVariable * Q)) (v : LpVariable) (c : Q)
  : list (LpVariable * Q) :=
  match ts with
  | [] => [(v, c)]
  | (v', c') :: ts' =>
      if VarName_eqb (name v) (name v')
      then (v', (c' + c)%Q) :: ts'
      else (v', c') :: addterm ts' v c
  end.

(** [e1 + e2] and [e1 += e2] *)
Definition expr_add (e1 e2 : LpAffineExpression) : LpAffineExpression :=
  {| terms := fold_left (fun ts vc => addterm ts (fst vc) (snd vc))
                        (terms e2) (terms e1);
     constant := (constant e1 + constant e2)%Q |}.

(** [c * e]: multiplying by zero leaves no terms. *)
Definition expr_scale (c : Q) (e : LpAffineExpression) : LpAffineExpression :=
  if Qeq_bool c 0
  then expr_zero
  else {| terms := map (fun vc => (fst vc, (c * snd vc)%Q)) (terms e);
          constant := (c * constant e)%Q |}.

(** [c * v] for a variable [v] *)
Definition var_scale (c : Q) (v : LpVariable) : LpAffineExpression :=
  expr_scale c (expr_of_var v).

(** [lpSum(vector)] *)
Definition lpSum (es : list LpAffineExpression) : LpAffineExpression :=
  fold_left expr_add es expr_zero.

Inductive LpSense : Type := LpConstraintLE | LpConstraintEQ | LpConstraintGE.

(** [e <= rhs], [e == rhs], [e >= rhs] *)
Record LpConstraint : Type := {
  lhs : LpAffineExpression;
  sense : LpSense;
  rhs : Q
}.

Inductive LpObjSense : Type := LpMinimize | LpMaximize.

Record LpProblem : Type := {
  prob_name : string;
  prob_sense : LpObjSense;
  objective : LpAffineExpression;
  constraints : list LpConstraint
}.

(** [LpProblem(name, sense)] *)
Definition mkLpProblem (n : string) (s : LpObjSense) : LpProblem :=
  {| prob_name := n; prob_sense := s; objective := expr_zero;
     constraints := [] |}.

(** [prob += objective] *)
Definition set_objective (p : LpProblem) (e : LpAffineExpression) : LpProblem :=
  {| prob_name := prob_name p; prob_sense := prob_sense p; objective := e;
     constraints := constraints p |}.

(** [prob += constraint] *)
Definition add_constraint (p : LpProblem) (c : LpConstraint) : LpProblem :=
  {| prob_name := prob_name p; prob_sense := prob_sense p;
     objective := objective p; constraints := constraints p ++ [c] |}.

(** *** Meaning of a model *)

(** The values the solver leaves in the variables ([varValue]). *)
Definition Valuation : Type := VarName -> Q.

(** [value(v)] *)
Definition value_var (vals : Valuation) (v : LpVariable) : Q := vals (name v).

(** [value(e)], as a number.  (PuLP reports [None] instead when solving
    left the expression with a placeholder term that has no value, which it
    does to an objective without any term of its own; such an objective is
    valued by its constant here.) *)
Definition value (vals : Valuation) (e : LpAffineExpression) : Q :=
  (PyNum.sumQ (map (fun vc => snd vc * value_var vals (fst vc)) (terms e))
   + constant e)%Q.

Definition holds (vals : Valuation) (c : LpConstraint) : Prop :=
  match sense c with
  | LpConstraintLE => (value vals (lhs c) <= rhs c)%Q
  | LpConstraintEQ => (value vals (lhs c) == rhs c)%Q
  | LpConstraintGE => (rhs c <= value vals (lhs c))%Q
  end.

Definition var_ok (vals : Valuation) (v : LpVariable) : Prop :=
  match lowBound v with Some lo => (lo <= value_var vals v)%Q | None => True end
  /\ match upBound v with Some up => (value_var vals v <= up)%Q | None => True end
  /\ match cat v with
     | LpInteger => exists z : Z, (value_var vals v == inject_Z z)%Q
     | _ => True
     end.

(** [prob.variables()]: the variables of the objective and constraints. *)
Definition variables (p : LpProblem) : list LpVariable :=
  map fst (terms (objective p))
  ++ flat_map (fun c => map fst (terms (lhs c))) (constraints p).

Definition feasible (p : LpProblem) (vals : Valuation) : Prop :=
  Forall (holds vals) (constraints p) /\ Forall (var_ok vals) (variables p).

Definition better (s : LpObjSense) (a b : Q) : Prop :=
  match s with LpMinimize => (a <= b)%Q | LpMaximize => (b <= a)%Q end.

Definition optimal (p : LpProblem) (vals : Valuation) : Prop :=
  feasible p vals
  /\ forall vals', feasible p vals' ->
       better (prob_sense p) (value vals (objective p))
                             (value vals' (objective p)).

(** *** The solver *)

Inductive LpStatus : Type :=
| LpStatusOptimal | LpStatusNotSolved | LpStatusInfeasible
| LpStatusUnbounded | LpStatusUndefined.

Definition is_optimal (s : LpStatus) : bool :=
  match s with LpStatusOptimal => true | _ => false end.

(** [prob.solve(PULP_CBC_CMD(msg=0, timeLimit=t))]: the status it sets and
    the values it assigns.  The time limit shows only through the status. *)
Definition Solver : Type := LpProblem -> LpStatus * Valuation.

(** What the code relies on: status [Optimal] on [p] comes with an optimal
    assignment of [p]. *)
Definition solver_sound_on (cbc : Solver) (p : LpProblem) : Prop :=
  fst (cbc p) = LpStatusOptimal -> optimal p (snd (cbc p)).

(** The weaker half of the contract: status [Optimal] on [p] comes with
    values that satisfy the constraints and bounds of [p]. *)
Definition solver_feasible_on (cbc : Solver) (p : LpProblem) : Prop :=
  fst (cbc p) = LpStatusOptimal -> feasible p (snd (cbc p)).

(** *** A checker for feasibility *)

Definition holdsb (vals : Valuation) (c : LpConstraint) : bool :=
  match sense c with
  | LpConstraintLE => Qle_bool (value vals (lhs c)) (rhs c)
  | LpConstraintEQ => Qeq_bool (value vals (lhs c)) (rhs c)
  | LpConstraintGE => Qle_bool (rhs c) (value vals (lhs c))
  end.

Definition var_okb (vals : Valuation) (v : LpVariable) : bool :=
  match lowBound v with Some lo => Qle_bool lo (value_var vals v) | None => true end
  && match upBound v with Some up => Qle_bool (value_var vals v) up | None => true end
  && match cat v with
     | LpInteger =>
         Qeq_bool (value_var vals v) (inject_Z (Qfloor (value_var vals v)))
     | _ => true
     end.

Definition feasibleb (p : LpProblem) (vals : Valuation) : bool :=
  forallb (holdsb vals) (constraints p) && forallb (var_okb vals) (variables p).

End Pulp.
Import Pulp.

(* ------------------------------------------------------------------ *)
(** ** Tables ([database/models.py]) *)

Module Models.

Record InventoryItem : Type := {
  item_id : Z;
  part_number : string;
  unit_cost : Q;
  current_stock : Z;
  reorder_point : Z;
  item_is_active : bool
}.

Record ProductionLine : Type := {
  line_id : Z;
  line_name : string;
  capacity_per_hour : Z;
  efficiency_target : float;
  line_is_active : bool
}.

Record ProductionRecord : Type := {
  production_line_id : Z;
  planned_quantity : Z;
  actual_quantity : Z;
  created_at : Z            (* seconds *)
}.

Inductive ResourceType : Type := LABOR | EQUIPMENT | MATERIAL.
Inductive AllocationStatus : Type := PLANNED | ACTIVE | DONE.

(** [resource_id]: [str(item_id)] or [f'job_{job_id}']. *)
Inductive ResourceId : Type := str_ (item_id : Z) | job_ (job_id : Z).

Record ResourceAllocation : Type := {
  ra_production_line_id : Z;
  resource_type : ResourceType;
  resource_id : ResourceId;
  ra_allocated_quantity : Z;
  allocation_date : Z;
  ra_status : AllocationStatus
}.

Inductive OptimizationType : Type := INVENTORY | PRODUCTION | RESOURCE.
Inductive RunStatus : Type := RUNNING | COMPLETED | FAILED.

End Models.
Import Models.

(* ------------------------------------------------------------------ *)
(** ** The dictionaries the allocator passes around *)

Module Data.

(** Entries of [inventory_data]. *)
Record ItemInfo : Type := {
  ii_part_number : string;
  ii_current_stock : Z;
  ii_unit_cost : Q;
  ii_reorder_point : Z
}.

(** Entries of [production_data]. *)
Record LineReq : Type := {
  lr_name : string;
  lr_capacity_per_hour : Z;
  required_items : dict Z
}.

(** Entries of [lines_data]. *)
Record LineInfo : Type := {
  li_name : string;
  li_capacity_per_hour : Z;
  li_efficiency_target : float;
  setup_cost : Z
}.

(** Entries of [jobs_data]. *)
Record JobInfo : Type := {
  quantity : Z;
  priority : Z;
  due_date : Z
}.

(** Entries of the allocation result, [results[item_id][line_id]]. *)
Record AllocEntry : Type := {
  allocated_quantity : Z;
  item_info : ItemInfo;
  line_info : LineReq
}.

(** Entries of the schedule result, [results[job_id]]. *)
Record SchedEntry : Type := {
  assigned_line : Z;
  assigned_slot : Z;
  job_info : JobInfo;
  se_line_info : LineInfo;
  scheduled_time : Z
}.

(** Entries of [utilization_data['lines']] and [['inventory']]. *)
Record LineUtil : Type := {
  lu_line_id : Z;
  lu_line_name : string;
  current_efficiency : float;
  target_efficiency : float
}.

Record ItemUtil : Type := {
  iu_item_id : Z;
  iu_part_number : string;
  iu_current_stock : Z;
  turnover_rate : Z
}.

Record UtilizationData : Type := {
  lines : list LineUtil;
  inventory : list ItemUtil
}.

(** A recommendation; the constructor is its ['type']. *)
Inductive Recommendation : Type :=
| efficiency_improvement
    (line_id : Z) (line_name : string)
    (current_efficiency target_efficiency improvement_potential : float)
    (recommended_actions : list string)
| inventory_optimization
    (item_id : Z) (part_number : string) (current_stock : Z)
    (turnover_rate : Z) (recommended_actions : list string).

Record UtilizationResult : Type := {
  recommendations : list Recommendation;
  total_recommendations : Z;
  utilization_metrics : UtilizationData
}.

(** The [results] column of an optimization run. *)
Inductive ResultsBlob : Type :=
| allocation_blob (r : dict (dict AllocEntry))
| schedule_blob (r : dict SchedEntry)
| utilization_blob (r : UtilizationResult).

Record OptimizationResult : Type := {
  optimization_type : OptimizationType;
  results : ResultsBlob;
  objective_value : Q;
  status : RunStatus
}.

End Data.
Import Data.

(* ------------------------------------------------------------------ *)
(** ** The database session ([database/connection.py])

    [World] is everything a call can observe or change: the committed
    tables, the objects added to the open session and not yet committed,
    the clock, the record of solver invocations, and a fault plan.  Each
    [session.add] and [session.commit] consumes one entry of the plan and
    raises when it is [true]; an exhausted plan means no further fault.

    The plan stands for every reason such a call can fail: the database
    itself, a session that an earlier failed commit left inactive until it
    is rolled back, and a [results] value that the JSON column cannot
    serialise (the datetime values of a schedule), which fails the commit
    that saves the run and, with it, the commit that follows.  The model
    does not decide which plans occur: what is stated for every plan holds
    for those the program meets. *)

Module Session.

Inductive Row : Type :=
| row_allocation (r : ResourceAllocation)
| row_optimization (r : OptimizationResult).

Record World : Type := {
  inventory_items : list InventoryItem;
  production_lines : list ProductionLine;
  production_records : list ProductionRecord;
  resource_allocations : list ResourceAllocation;
  optimization_results : list OptimizationResult;
  pending : list Row;
  faults : list bool;
  utcnow : Z;
  solver_calls : list LpProblem
}.

Definition set_pending (p : list Row) (w : World) : World :=
  {| inventory_items := inventory_items w;
     production_lines := production_lines w;
     production_records := production_records w;
     resource_allocations := resource_allocations w;
     optimization_results := optimization_results w;
     pending := p; faults := faults w; utcnow := utcnow w;
     solver_calls := solver_calls w |}.

Definition set_faults (f : list bool) (w : World) : World :=
  {| inventory_items := inventory_items w;
     production_lines := production_lines w;
     production_records := production_records w;
     resource_allocations := resource_allocations w;
     optimization_results := optimization_results w;
     pending := pending w; faults := f; utcnow := utcnow w;
     solver_calls := solver_calls w |}.

Definition log_solver_call (p : LpProblem) (w : World) : World :=
  {| inventory_items := inventory_items w;
     production_lines := production_lines w;
     production_records := production_records w;
     resource_allocations := resource_allocations w;
     optimization_results := optimization_results w;
     pending := pending w; faults := faults w; utcnow := utcnow w;
     solver_calls := solver_calls w ++ [p] |}.

Definition pending_allocations (p : list Row) : list ResourceAllocation :=
  flat_map (fun r => match r with row_allocation a => [a] | _ => [] end) p.

Definition pending_optimizations (p : list Row) : list OptimizationResult :=
  flat_map (fun r => match r with row_optimization o => [o] | _ => [] end) p.

(** Writing the pending objects to their tables. *)
Definition flush (w : World) : World :=
  {| inventory_items := inventory_items w;
     production_lines := production_lines w;
     production_records := production_records w;
     resource_allocations :=
       resource_allocations w ++ pending_allocations (pending w);
     optimization_results :=
       optimization_results w ++ pending_optimizations (pending w);
     pending := []; faults := faults w; utcnow := utcnow w;
     solver_calls := solver_calls w |}.

(** *** State and exception monad *)

Definition M (A : Type) : Type := World -> res A * World.

Definition ret {A} (a : A) : M A := fun w => (Ok a, w).
Definition raise {A} (e : exn) : M A := fun w => (Raise e, w).

Definition bind {A B} (m : M A) (k : A -> M B) : M B :=
  fun w => match m w with
           | (Ok a, w') => k a w'
           | (Raise e, w') => (Raise e, w')
           end.

Definition gets {A} (f : World -> A) : M A := fun w => (Ok (f w), w).
Definition modify (f : World -> World) : M unit := fun w => (Ok tt, f w).

(** A pure computation that may raise. *)
Definition lift {A} (r : res A) : M A := fun w => (r, w).

(** [try: m  except Exception as e: h e] *)
Definition try_except {A} (m : M A) (h : exn -> M A) : M A :=
  fun w => match m w with
           | (Ok a, w') => (Ok a, w')
           | (Raise e, w') => h e w'
           end.

(** [try: m  finally: f] *)
Definition try_finally {A} (m : M A) (f : M unit) : M A :=
  fun w => match m w with
           | (r, w') => match f w' with
                        | (Ok _, w'') => (r, w'')
                        | (Raise e, w'') => (Raise e, w'')
                        end
           end.

Declare Scope m_scope.
Delimit Scope m_scope with M.
Notation "x <- m ;; k" := (bind m (fun x => k))
  (at level 61, m at next level, right associativity) : m_scope.
Notation "m ;; k" := (bind m (fun _ => k))
  (at level 61, right associativity) : m_scope.

(** [for a in l: body a] *)
Fixpoint for_each {A} (l : list A) (body : A -> M unit) : M unit :=
  match l with
  | [] => ret tt
  | a :: l' => (body a ;; for_each l' body)%M
  end.

(** *** Session operations *)

Definition next_fault : M bool :=
  fun w => match faults w with
           | [] => (Ok false, w)
           | b :: fs => (Ok b, set_faults fs w)
           end.

(** [session.add(obj)] *)
Definition session_add (r : Row) : M unit :=
  (b <- next_fault ;;
   if b : bool then raise SQLAlchemyError
   else modify (fun w => set_pending (pending w ++ [r]) w))%M.

(** [session.commit()]: all pending objects are written, or none. *)
Definition session_commit : M unit :=
  (b <- next_fault ;;
   if b : bool then raise SQLAlchemyError else modify flush)%M.

(** [session.rollback()] *)
Definition session_rollback : M unit := modify (set_pending []).

(** [session.close()] *)
Definition session_close : M unit := modify (set_pending []).

(** [with get_db_session() as session: body]
<<
    session = self.SessionLocal()
    try:
        yield session
        session.commit()
    except Exception as e:
        session.rollback()
        raise
    finally:
        session.close()
>> *)
Definition get_db_session {A} (body : M A) : M A :=
  (modify (set_pending []) ;;
   try_finally
     (try_except (a <- body ;; session_commit ;; ret a)
                 (fun e => session_rollback ;; raise e))
     session_close)%M.

End Session.
Import Session.
Local Open Scope m_scope.

(* ------------------------------------------------------------------ *)
(** ** [class ResourceAllocator] ([optimization/resource_allocator.py])

    Wall-clock measurements ([start_time], [execution_time]) and logging
    are left out; they influence no decision of the code. *)

Module ResourceAllocator.

Inductive FailReason : Type :=
| insufficient_data | no_optimal_solution | no_data.

(** The dictionary an entry point returns: [{'status': 'failed', 'reason':
    r}] or [{'status': 'success', ...}]. *)
Inductive Outcome (A : Type) : Type :=
| failed (reason : FailReason)
| success (payload : A).
Arguments failed {A} reason.
Arguments success {A} payload.

Record AllocationSuccess : Type := {
  as_objective_value : Q;
  allocations : dict (dict AllocEntry)
}.

Record ScheduleSuccess : Type := {
  ss_objective_value : Q;
  schedule : dict SchedEntry
}.

Record UtilizationSuccess : Type := {
  us_recommendations : list Recommendation;
  metrics : UtilizationData
}.

Definition seconds_per_hour : Z := 3600.
Definition seconds_per_day : Z := 86400.

(** *** Readers *)

(** [_get_inventory_data] *)
Definition _get_inventory_data (w : World) : dict ItemInfo :=
  let items := filter item_is_active (inventory_items w) in
  fold_left
    (fun inventory_data item =>
       setitem inventory_data (item_id item)
         {| ii_part_number := part_number item;
            ii_current_stock := current_stock item;
            ii_unit_cost := unit_cost item;
            ii_reorder_point := reorder_point item |})
    items [].

(** The records of one line created in the last [days] days. *)
Definition recent_records_of (w : World) (line : ProductionLine) (days : Z)
  : list ProductionRecord :=
  filter (fun r => Z.eqb (production_line_id r) (line_id line)
                   && Z.leb (utcnow w - days * seconds_per_day) (created_at r))
         (production_records w).

(** [_get_production_requirements] *)
Definition _get_production_requirements (w : World) : dict LineReq :=
  let lines := filter line_is_active (production_lines w) in
  fold_left
    (fun production_data line =>
       let recent_records := recent_records_of w line 7 in
       let required_items :=
         match recent_records with
         | [] => []
         | _ :: _ =>
             let avg_production :=
               PyNum.truediv
                 (PyNum.sumZ (map actual_quantity recent_records))
                 (Z.of_nat (List.length recent_records)) in
             setitem
               (setitem [] 1
                  (PyNum.int_float (avg_production * PyNum.lit_0_8)%float))
               2 (PyNum.int_float (avg_production * PyNum.lit_0_6)%float)
         end in
       setitem production_data (line_id line)
         {| lr_name := line_name line;
            lr_capacity_per_hour := capacity_per_hour line;
            required_items := required_items |})
    lines [].

(** [_get_production_lines_data] *)
Definition _get_production_lines_data (w : World) : dict LineInfo :=
  let lines := filter line_is_active (production_lines w) in
  fold_left
    (fun lines_data line =>
       setitem lines_data (line_id line)
         {| li_name := line_name line;
            li_capacity_per_hour := capacity_per_hour line;
            li_efficiency_target := efficiency_target line;
            setup_cost := 10 |})
    lines [].

(** [_get_pending_jobs_data]: three sample jobs. *)
Definition _get_pending_jobs_data (w : World) : dict JobInfo :=
  setitem
    (setitem
       (setitem []
          1 {| quantity := 100; priority := 1;
               due_date := utcnow w + 8 * seconds_per_hour |})
       2 {| quantity := 150; priority := 2;
            due_date := utcnow w + 12 * seconds_per_hour |})
    3 {| quantity := 75; priority := 1;
         due_date := utcnow w + 6 * seconds_per_hour |}.

(** [_get_resource_utilization_data] *)
Definition _get_resource_utilization_data (w : World) : UtilizationData :=
  let lines := filter line_is_active (production_lines w) in
  let lines_utilization :=
    fold_left
      (fun acc line =>
         let recent_records := recent_records_of w line 1 in
         let current_efficiency :=
           match recent_records with
           | [] => 0%float
           | _ :: _ =>
               let total_planned :=
                 PyNum.sumZ (map planned_quantity recent_records) in
               let total_actual :=
                 PyNum.sumZ (map actual_quantity recent_records) in
               if Z.ltb 0 total_planned
               then (PyNum.truediv total_actual total_planned * 100)%float
               else 0%float
           end in
         acc ++ [ {| lu_line_id := line_id line;
                     lu_line_name := line_name line;
                     current_efficiency := current_efficiency;
                     target_efficiency :=
                       (efficiency_target line * 100)%float |} ])
      lines [] in
  let items := filter item_is_active (inventory_items w) in
  let inventory_utilization :=
    fold_left
      (fun acc item =>
         let turnover_rate := 4%Z in   (* Placeholder *)
         acc ++ [ {| iu_item_id := item_id item;
                     iu_part_number := part_number item;
                     iu_current_stock := current_stock item;
                     turnover_rate := turnover_rate |} ])
      items [] in
  {| lines := lines_utilization; inventory := inventory_utilization |}.

(** *** Inventory allocation model (lines 81-122) *)

(** [allocation_vars[item_id][line_id]] *)
Definition getitem2 {V} (d : dict (dict V)) (i l : Z) : res V :=
  try! row := getitem d i in getitem row l.

(** Decision variables. *)
Definition allocation_variables
           (inventory_data : dict ItemInfo) (production_data : dict LineReq)
  : dict (dict LpVariable) :=
  fold_left
    (fun allocation_vars item_id =>
       setitem allocation_vars item_id
         (fold_left
            (fun row line_id =>
               setitem row line_id
                 (mkLpVariable (alloc_ item_id line_id)
                               (Some 0%Q) None LpInteger))
            (keys production_data) []))
    (keys inventory_data) [].

(** Objective: allocation cost plus the waste penalty. *)
Definition allocation_objective
           (inventory_data : dict ItemInfo) (production_data : dict LineReq)
           (allocation_vars : dict (dict LpVariable))
  : res LpAffineExpression :=
  foldM
    (fun objective '(item_id, info) =>
       let item_cost := ii_unit_cost info in
       foldM
         (fun objective line_id =>
            try! v := getitem2 allocation_vars item_id line_id in
            Ok (expr_add objective
                  (expr_add (var_scale item_cost v)
                            (var_scale ((1 # 10) * item_cost) v))))
         (keys production_data) objective)
    inventory_data expr_zero.

(** Constraint 1: don't allocate more than available stock. *)
Definition stock_constraints
           (inventory_data : dict ItemInfo) (production_data : dict LineReq)
           (allocation_vars : dict (dict LpVariable)) (prob : LpProblem)
  : res LpProblem :=
  foldM
    (fun prob '(item_id, info) =>
       let available_stock := ii_current_stock info in
       try! vs := mapM (fun line_id => getitem2 allocation_vars item_id line_id)
                       (keys production_data) in
       let total_allocated := lpSum (map expr_of_var vs) in
       Ok (add_constraint prob
             {| lhs := total_allocated; sense := LpConstraintLE;
                rhs := inject_Z available_stock |}))
    inventory_data prob.

(** Constraint 2: meet minimum production requirements. *)
Definition requirement_constraints
           (production_data : dict LineReq)
           (allocation_vars : dict (dict LpVariable)) (prob : LpProblem)
  : res LpProblem :=
  foldM
    (fun prob '(line_id, line) =>
       foldM
         (fun prob '(item_id, min_required) =>
            if contains allocation_vars item_id
            then
              try! v := getitem2 allocation_vars item_id line_id in
              Ok (add_constraint prob
                    {| lhs := expr_of_var v; sense := LpConstraintGE;
                       rhs := inject_Z min_required |})
            else Ok prob)
         (required_items line) prob)
    production_data prob.

Definition inventory_allocation_model
           (inventory_data : dict ItemInfo) (production_data : dict LineReq)
  : res (LpProblem * dict (dict LpVariable)) :=
  let prob := mkLpProblem "Inventory_Allocation" LpMinimize in
  let allocation_vars :=
    allocation_variables inventory_data production_data in
  try! objective :=
    allocation_objective inventory_data production_data allocation_vars in
  let prob := set_objective prob objective in
  try! prob :=
    stock_constraints inventory_data production_data allocation_vars prob in
  try! prob := requirement_constraints production_data allocation_vars prob in
  Ok (prob, allocation_vars).

(** [_extract_allocation_results] *)
Definition _extract_allocation_results
           (vals : Valuation) (allocation_vars : dict (dict LpVariable))
           (inventory_data : dict ItemInfo) (production_data : dict LineReq)
  : res (dict (dict AllocEntry)) :=
  foldM
    (fun results '(item_id, row) =>
       try! by_line :=
         foldM
           (fun by_line '(line_id, v) =>
              let allocated_qty := value_var vals v in
              if PyNum.Qlt_bool 0 allocated_qty
              then
                try! item := getitem inventory_data item_id in
                try! line := getitem production_data line_id in
                Ok (setitem by_line line_id
                      {| allocated_quantity := PyNum.int allocated_qty;
                         item_info := item;
                         line_info := line |})
              else Ok by_line)
           row [] in
       Ok (setitem results item_id by_line))
    allocation_vars [].

(** *** Persistence helpers *)

(** [prob.solve(...)]: the call is recorded, then the solver's answer is
    returned. *)
Definition solve (cbc : Solver) (prob : LpProblem) : M (LpStatus * Valuation) :=
  modify (log_solver_call prob) ;; ret (cbc prob).

(** [_save_optimization_result]: a failure is logged and swallowed. *)
Definition _save_optimization_result
           (opt_type : OptimizationType) (prob : option (LpProblem * Valuation))
           (results : ResultsBlob) : M unit :=
  try_except
    (let objective_value :=
       match prob with
       | Some (p, vals) => value vals (objective p)
       | None => 0%Q
       end in
     session_add
       (row_optimization
          {| optimization_type := opt_type;
             results := results;
             objective_value := objective_value;
             status := COMPLETED |}) ;;
     session_commit)
    (fun e => ret tt).

(** The [try] block of [_apply_inventory_allocations]: one row per
    allocation, then one commit. *)
Definition inventory_allocation_writes
           (allocation_results : dict (dict AllocEntry)) : M unit :=
  for_each allocation_results
    (fun '(item_id, by_line) =>
       for_each by_line
         (fun '(line_id, allocation_data) =>
            let allocated_qty := allocated_quantity allocation_data in
            now <- gets utcnow ;;
            session_add
              (row_allocation
                 {| ra_production_line_id := line_id;
                    resource_type := MATERIAL;
                    resource_id := str_ item_id;
                    ra_allocated_quantity := allocated_qty;
                    allocation_date := now;
                    ra_status := PLANNED |}))) ;;
  session_commit.

(** [_apply_inventory_allocations]: on a failure the exception is logged and
    the session is rolled back; nothing is raised again. *)
Definition _apply_inventory_allocations
           (allocation_results : dict (dict AllocEntry)) : M unit :=
  try_except (inventory_allocation_writes allocation_results)
             (fun e => session_rollback).

(** The [try] block of [_apply_production_schedule]. *)
Definition production_schedule_writes
           (schedule_results : dict SchedEntry) : M unit :=
  for_each schedule_results
    (fun '(job_id, schedule_data) =>
       let line_id := assigned_line schedule_data in
       let scheduled_time := scheduled_time schedule_data in
       session_add
         (row_allocation
            {| ra_production_line_id := line_id;
               resource_type := LABOR;
               resource_id := job_ job_id;
               ra_allocated_quantity := 1;
               allocation_date := scheduled_time;
               ra_status := PLANNED |})) ;;
  session_commit.

(** [_apply_production_schedule] *)
Definition _apply_production_schedule
           (schedule_results : dict SchedEntry) : M unit :=
  try_except (production_schedule_writes schedule_results)
             (fun e => session_rollback).

(** *** [optimize_inventory_allocation] *)

Definition optimize_inventory_allocation (cbc : Solver)
  : M (Outcome AllocationSuccess) :=
  try_except
    (get_db_session
       (inventory_data <- gets _get_inventory_data ;;
        production_data <- gets _get_production_requirements ;;
        if is_empty inventory_data || is_empty production_data
        then ret (failed insufficient_data)
        else
          model <- lift (inventory_allocation_model
                           inventory_data production_data) ;;
          let '(prob, allocation_vars) := model in
          solved <- solve cbc prob ;;
          let '(prob_status, vals) := solved in
          if is_optimal prob_status
          then
            allocation_results <-
              lift (_extract_allocation_results
                      vals allocation_vars inventory_data production_data) ;;
            _save_optimization_result
              INVENTORY (Some (prob, vals))
              (allocation_blob allocation_results) ;;
            _apply_inventory_allocations allocation_results ;;
            ret (success
                   {| as_objective_value := value vals (objective prob);
                      allocations := allocation_results |})
          else ret (failed no_optimal_solution)))
    (fun e => raise e).

(** *** Production schedule model (lines 173-235) *)

(** [list(range(24))] *)
Definition time_slots : list Z := map Z.of_nat (seq 0 24).

(** [schedule_vars[job_id][line_id][slot]] *)
Definition getitem3 {V} (d : dict (dict (dict V))) (j l s : Z) : res V :=
  try! by_line := getitem d j in
  try! by_slot := getitem by_line l in
  getitem by_slot s.

(** Decision variables. *)
Definition schedule_variables
           (jobs_data : dict JobInfo) (lines_data : dict LineInfo)
  : dict (dict (dict LpVariable)) :=
  fold_left
    (fun schedule_vars job_id =>
       setitem schedule_vars job_id
         (fold_left
            (fun by_line line_id =>
               setitem by_line line_id
                 (fold_left
                    (fun by_slot slot =>
                       setitem by_slot slot
                         (mkLpVariable (sched_ job_id line_id slot)
                                       None None LpBinary))
                    time_slots []))
            (keys lines_data) []))
    (keys jobs_data) [].

(** Objective: completion time and setup costs. *)
Definition schedule_objective
           (jobs_data : dict JobInfo) (lines_data : dict LineInfo)
           (schedule_vars : dict (dict (dict LpVariable)))
  : res LpAffineExpression :=
  foldM
    (fun objective '(job_id, job) =>
       let job_priority := priority job in
       foldM
         (fun objective '(line_id, line) =>
            let setup_cost := setup_cost line in
            foldM
              (fun objective slot =>
                 let time_cost := slot * (2 - job_priority) in
                 try! v := getitem3 schedule_vars job_id line_id slot in
                 Ok (expr_add objective
                       (var_scale (inject_Z (time_cost + setup_cost)) v)))
              time_slots objective)
         lines_data objective)
    jobs_data expr_zero.

(** [[(line_id, slot) for line_id in lines_data for slot in time_slots]] *)
Definition line_slot_pairs (lines_data : dict LineInfo) : list (Z * Z) :=
  flat_map (fun line_id => map (fun slot => (line_id, slot)) time_slots)
           (keys lines_data).

(** Constraint 1: each job on exactly one line and time slot. *)
Definition assignment_constraints
           (jobs_data : dict JobInfo) (lines_data : dict LineInfo)
           (schedule_vars : dict (dict (dict LpVariable))) (prob : LpProblem)
  : res LpProblem :=
  foldM
    (fun prob job_id =>
       try! vs := mapM (fun '(line_id, slot) =>
                          getitem3 schedule_vars job_id line_id slot)
                       (line_slot_pairs lines_data) in
       let total_assignments := lpSum (map expr_of_var vs) in
       Ok (add_constraint prob
             {| lhs := total_assignments; sense := LpConstraintEQ;
                rhs := 1%Q |}))
    (keys jobs_data) prob.

(** Constraint 2: each line handles only one job per time slot. *)
Definition exclusivity_constraints
           (jobs_data : dict JobInfo) (lines_data : dict LineInfo)
           (schedule_vars : dict (dict (dict LpVariable))) (prob : LpProblem)
  : res LpProblem :=
  foldM
    (fun prob line_id =>
       foldM
         (fun prob slot =>
            try! vs := mapM (fun job_id =>
                               getitem3 schedule_vars job_id line_id slot)
                            (keys jobs_data) in
            let slot_assignments := lpSum (map expr_of_var vs) in
            Ok (add_constraint prob
                  {| lhs := slot_assignments; sense := LpConstraintLE;
                     rhs := 1%Q |}))
         time_slots prob)
    (keys lines_data) prob.

(** Constraint 3: line capacity. *)
Definition capacity_constraints
           (jobs_data : dict JobInfo) (lines_data : dict LineInfo)
           (schedule_vars : dict (dict (dict LpVariable))) (prob : LpProblem)
  : res LpProblem :=
  foldM
    (fun prob '(line_id, line) =>
       let line_capacity := li_capacity_per_hour line in
       foldM
         (fun prob slot =>
            try! es := mapM (fun '(job_id, job) =>
                               try! v := getitem3 schedule_vars
                                                  job_id line_id slot in
                               Ok (var_scale (inject_Z (quantity job)) v))
                            jobs_data in
            let slot_demand := lpSum es in
            Ok (add_constraint prob
                  {| lhs := slot_demand; sense := LpConstraintLE;
                     rhs := inject_Z line_capacity |}))
         time_slots prob)
    lines_data prob.

Definition production_schedule_model
           (jobs_data : dict JobInfo) (lines_data : dict LineInfo)
  : res (LpProblem * dict (dict (dict LpVariable))) :=
  let prob := mkLpProblem "Production_Schedule" LpMinimize in
  let schedule_vars := schedule_variables jobs_data lines_data in
  try! objective := schedule_objective jobs_data lines_data schedule_vars in
  let prob := set_objective prob objective in
  try! prob := assignment_constraints jobs_data lines_data schedule_vars prob in
  try! prob := exclusivity_constraints jobs_data lines_data schedule_vars prob in
  try! prob := capacity_constraints jobs_data lines_data schedule_vars prob in
  Ok (prob, schedule_vars).

(** The innermost loop of [_extract_schedule_results]: the first slot whose
    variable has value 1 sets [results[job_id]] and leaves the loop.  (The
    empty placeholder stored just before is overwritten at once.) *)
Fixpoint extract_first_slot
         (vals : Valuation) (jobs_data : dict JobInfo)
         (lines_data : dict LineInfo) (now : Z) (job_id line_id : Z)
         (by_slot : dict LpVariable) (results : dict SchedEntry)
  : res (dict SchedEntry) :=
  match by_slot with
  | [] => Ok results
  | (slot, v) :: rest =>
      if Qeq_bool (value_var vals v) 1
      then
        try! job := getitem jobs_data job_id in
        try! line := getitem lines_data line_id in
        Ok (setitem results job_id
              {| assigned_line := line_id;
                 assigned_slot := slot;
                 job_info := job;
                 se_line_info := line;
                 scheduled_time := now + slot * seconds_per_hour |})
      else extract_first_slot vals jobs_data lines_data now job_id line_id
                              rest results
  end.

(** [_extract_schedule_results] *)
Definition _extract_schedule_results
           (vals : Valuation) (schedule_vars : dict (dict (dict LpVariable)))
           (jobs_data : dict JobInfo) (lines_data : dict LineInfo) (now : Z)
  : res (dict SchedEntry) :=
  foldM
    (fun results '(job_id, by_line) =>
       foldM
         (fun results '(line_id, by_slot) =>
            extract_first_slot vals jobs_data lines_data now job_id line_id
                               by_slot results)
         by_line results)
    schedule_vars [].

(** *** [optimize_production_schedule] *)

Definition optimize_production_schedule (cbc : Solver)
  : M (Outcome ScheduleSuccess) :=
  try_except
    (get_db_session
       (lines_data <- gets _get_production_lines_data ;;
        jobs_data <- gets _get_pending_jobs_data ;;
        if is_empty lines_data || is_empty jobs_data
        then ret (failed insufficient_data)
        else
          model <- lift (production_schedule_model jobs_data lines_data) ;;
          let '(prob, schedule_vars) := model in
          solved <- solve cbc prob ;;
          let '(prob_status, vals) := solved in
          if is_optimal prob_status
          then
            now <- gets utcnow ;;
            schedule_results <-
              lift (_extract_schedule_results
                      vals schedule_vars jobs_data lines_data now) ;;
            _save_optimization_result
              PRODUCTION (Some (prob, vals))
              (schedule_blob schedule_results) ;;
            _apply_production_schedule schedule_results ;;
            ret (success
                   {| ss_objective_value := value vals (objective prob);
                      schedule := schedule_results |})
          else ret (failed no_optimal_solution)))
    (fun e => raise e).

(** *** [optimize_resource_utilization] *)

(** Lines 287-305: analyse line efficiency. *)
Definition analyze_line_efficiency
           (utilization_lines : list LineUtil) (recs : list Recommendation)
  : list Recommendation :=
  fold_left
    (fun recs line_data =>
       let current_efficiency := current_efficiency line_data in
       let target_efficiency := target_efficiency line_data in
       if (current_efficiency <? target_efficiency * PyNum.lit_0_9)%float
       then
         recs ++ [ efficiency_improvement
                     (lu_line_id line_data) (lu_line_name line_data)
                     current_efficiency target_efficiency
                     (target_efficiency - current_efficiency)%float
                     [ "Review maintenance schedule"%string;
                       "Optimize material flow"%string;
                       "Training for operators"%string ] ]
       else recs)
    utilization_lines recs.

(** Lines 307-323: analyse inventory turnover. *)
Definition analyze_inventory_turnover
           (utilization_inventory : list ItemUtil) (recs : list Recommendation)
  : list Recommendation :=
  fold_left
    (fun recs item_data =>
       let turnover_rate := turnover_rate item_data in
       if Z.ltb turnover_rate 4
       then
         recs ++ [ inventory_optimization
                     (iu_item_id item_data) (iu_part_number item_data)
                     (iu_current_stock item_data) turnover_rate
                     [ "Reduce stock levels"%string;
                       "Review reorder points"%string;
                       "Consider just-in-time delivery"%string ] ]
       else recs)
    utilization_inventory recs.

(** [utilization_data] is a dictionary with the two keys ['lines'] and
    ['inventory'], so [not utilization_data] never holds and the [no_data]
    return is unreachable. *)
Definition optimize_resource_utilization : M (Outcome UtilizationSuccess) :=
  try_except
    (get_db_session
       (utilization_data <- gets _get_resource_utilization_data ;;
        let recommendations :=
          analyze_inventory_turnover (inventory utilization_data)
            (analyze_line_efficiency (lines utilization_data) []) in
        let optimization_result :=
          {| recommendations := recommendations;
             total_recommendations :=
               Z.of_nat (List.length recommendations);
             utilization_metrics := utilization_data |} in
        _save_optimization_result
          RESOURCE None (utilization_blob optimization_result) ;;
        ret (success {| us_recommendations := recommendations;
                        metrics := utilization_data |})))
    (fun e => raise e).

End ResourceAllocator.
Import ResourceAllocator.

(* ------------------------------------------------------------------ *)
(** ** Reading the models and the results

    Closed forms of what the loops above build, and the quantities the
    properties below speak about. *)

Module Reading.

(** The variable [allocation_vars[item_id][line_id]]. *)
Definition alloc_var (item_id line_id : Z) : LpVariable :=
  mkLpVariable (alloc_ item_id line_id) (Some 0%Q) None LpInteger.

(** The stock constraint of one entry of [inventory_data]. *)
Definition stock_constraint (production_data : dict LineReq)
           (entry : Z * ItemInfo) : LpConstraint :=
  {| lhs := lpSum (map expr_of_var
                       (map (alloc_var (fst entry)) (keys production_data)));
     sense := LpConstraintLE;
     rhs := inject_Z (ii_current_stock (snd entry)) |}.

(** The requirement constraint of one entry of a line's [required_items]. *)
Definition requirement_constraint (item_id line_id min_required : Z)
  : LpConstraint :=
  {| lhs := expr_of_var (alloc_var item_id line_id);
     sense := LpConstraintGE;
     rhs := inject_Z min_required |}.

(** The requirement constraints of one entry of [production_data]: those of
    its required items that are keys of [inventory_data]. *)
Definition line_requirement_constraints (inventory_data : dict ItemInfo)
           (entry : Z * LineReq) : list LpConstraint :=
  flat_map
    (fun req : Z * Z =>
       if contains inventory_data (fst req)
       then [requirement_constraint (fst req) (fst entry) (snd req)]
       else [])
    (required_items (snd entry)).

Definition inventory_constraints (inventory_data : dict ItemInfo)
           (production_data : dict LineReq) : list LpConstraint :=
  map (stock_constraint production_data) inventory_data
  ++ flat_map (line_requirement_constraints inventory_data) production_data.

(** [prob += c] for each [c] of a list. *)
Definition add_constraints (p : LpProblem) (cs : list LpConstraint) : LpProblem :=
  fold_left add_constraint cs p.

(** The row [results[item_id]] of the extracted allocation. *)
Definition extracted_row (vals : Valuation) (item : ItemInfo)
           (production_data : dict LineReq) (item_id : Z) : dict AllocEntry :=
  flat_map
    (fun entry : Z * LineReq =>
       if PyNum.Qlt_bool 0 (vals (alloc_ item_id (fst entry)))
       then [(fst entry,
              {| allocated_quantity :=
                   PyNum.int (vals (alloc_ item_id (fst entry)));
                 item_info := item;
                 line_info := snd entry |})]
       else [])
    production_data.

(** Quantity of an item allocated to a line in a result; an absent entry is
    no allocation. *)
Definition allocated_to (allocs : dict (dict AllocEntry)) (item_id line_id : Z) : Z :=
  match get allocs item_id with
  | Some by_line =>
      match get by_line line_id with
      | Some e => allocated_quantity e
      | None => 0
      end
  | None => 0
  end.

(** Sum over all lines of the quantities of an item in a result. *)
Definition total_allocated (allocs : dict (dict AllocEntry)) (item_id : Z) : Z :=
  match get allocs item_id with
  | Some by_line => PyNum.sumZ (map allocated_quantity (values by_line))
  | None => 0
  end.

(** Cost the objective charges for one entry of [inventory_data]: the unit
    cost plus a tenth of it, per allocated unit, over all lines. *)
Definition item_allocation_cost (production_data : dict LineReq)
           (vals : Valuation) (entry : Z * ItemInfo) : Q :=
  PyNum.sumQ
    (map (fun l =>
            (ii_unit_cost (snd entry) * vals (alloc_ (fst entry) l)
             + (1 # 10) * ii_unit_cost (snd entry)
               * vals (alloc_ (fst entry) l))%Q)
         (keys production_data)).

Definition allocation_cost (inventory_data : dict ItemInfo)
           (production_data : dict LineReq) (vals : Valuation) : Q :=
  PyNum.sumQ (map (item_allocation_cost production_data vals) inventory_data).

(** The tables a call can write to hold the same rows in both worlds. *)
Definition same_tables (w w' : World) : Prop :=
  resource_allocations w' = resource_allocations w
  /\ optimization_results w' = optimization_results w.

(** The condition under which a line gets a recommendation. *)
Definition below_target (line_data : LineUtil) : bool :=
  (current_efficiency line_data
   <? target_efficiency line_data * PyNum.lit_0_9)%float.

(** The recommendation emitted for a line. *)
Definition efficiency_recommendation (line_data : LineUtil) : Recommendation :=
  efficiency_improvement
    (lu_line_id line_data) (lu_line_name line_data)
    (current_efficiency line_data) (target_efficiency line_data)
    (target_efficiency line_data - current_efficiency line_data)%float
    [ "Review maintenance schedule"%string;
      "Optimize material flow"%string;
      "Training for operators"%string ].

(** The recommendation emitted for an item. *)
Definition inventory_recommendation (item_data : ItemUtil) : Recommendation :=
  inventory_optimization
    (iu_item_id item_data) (iu_part_number item_data)
    (iu_current_stock item_data) (turnover_rate item_data)
    [ "Reduce stock levels"%string;
      "Review reorder points"%string;
      "Consider just-in-time delivery"%string ].

Definition is_efficiency_improvement (r : Recommendation) : bool :=
  match r with efficiency_improvement _ _ _ _ _ _ => true | _ => false end.

Definition is_inventory_optimization (r : Recommendation) : bool :=
  match r with inventory_optimization _ _ _ _ _ => true | _ => false end.

(** An action that never changes the tables, whether it returns or raises. *)
Definition preserves_tables {A} (m : M A) : Prop :=
  forall w r w', m w = (r, w') -> same_tables w w'.

(** An optimization run recorded with status [FAILED]. *)
Definition is_failed_run (r : OptimizationResult) : bool :=
  match status r with FAILED => true | _ => false end.

(** *** The production schedule *)

(** The variable [schedule_vars[job_id][line_id][slot]]. *)
Definition sched_var (job_id line_id slot : Z) : LpVariable :=
  mkLpVariable (sched_ job_id line_id slot) None None LpBinary.

(** Constraint 1 of one job. *)
Definition assignment_constraint (lines_data : dict LineInfo) (job_id : Z)
  : LpConstraint :=
  {| lhs := lpSum (map expr_of_var
                       (map (fun ls : Z * Z => sched_var job_id (fst ls) (snd ls))
                            (line_slot_pairs lines_data)));
     sense := LpConstraintEQ;
     rhs := 1%Q |}.

(** Constraint 2 of one line and slot. *)
Definition exclusivity_constraint (jobs_data : dict JobInfo) (line_id slot : Z)
  : LpConstraint :=
  {| lhs := lpSum (map expr_of_var
                       (map (fun job_id => sched_var job_id line_id slot)
                            (keys jobs_data)));
     sense := LpConstraintLE;
     rhs := 1%Q |}.

(** Constraint 3 of one line and slot. *)
Definition capacity_constraint (jobs_data : dict JobInfo)
           (entry : Z * LineInfo) (slot : Z) : LpConstraint :=
  {| lhs := lpSum (map (fun job : Z * JobInfo =>
                          var_scale (inject_Z (quantity (snd job)))
                                    (sched_var (fst job) (fst entry) slot))
                       jobs_data);
     sense := LpConstraintLE;
     rhs := inject_Z (li_capacity_per_hour (snd entry)) |}.

Definition schedule_constraints (jobs_data : dict JobInfo)
           (lines_data : dict LineInfo) : list LpConstraint :=
  map (assignment_constraint lines_data) (keys jobs_data)
  ++ flat_map (fun line_id => map (exclusivity_constraint jobs_data line_id)
                                  time_slots)
              (keys lines_data)
  ++ flat_map (fun entry => map (capacity_constraint jobs_data entry) time_slots)
              lines_data.

(** The solver put the job on the line at the slot. *)
Definition assigned (vals : Valuation) (job_id line_id slot : Z) : bool :=
  Qeq_bool (vals (sched_ job_id line_id slot)) 1.

(** The line, its data and the slot the extraction loops end up with for a
    job: on every line with an assigned slot the first such slot replaces
    what earlier lines gave. *)
Definition job_assignment (vals : Valuation) (lines_data : dict LineInfo)
           (job_id : Z) : option (Z * LineInfo * Z) :=
  fold_left
    (fun acc (entry : Z * LineInfo) =>
       match find (assigned vals job_id (fst entry)) time_slots with
       | Some slot => Some (fst entry, snd entry, slot)
       | None => acc
       end)
    lines_data None.

Definition schedule_entry (now : Z) (job : JobInfo) (a : Z * LineInfo * Z)
  : SchedEntry :=
  {| assigned_line := fst (fst a);
     assigned_slot := snd a;
     job_info := job;
     se_line_info := snd (fst a);
     scheduled_time := now + snd a * seconds_per_hour |}.

(** What the loop over the lines has set for a job so far. *)
Definition set_assignment (now : Z) (job : JobInfo) (j : Z)
           (results : dict SchedEntry) (a : option (Z * LineInfo * Z))
  : dict SchedEntry :=
  match a with
  | Some x => setitem results j (schedule_entry now job x)
  | None => results
  end.

(** The schedule the extraction returns. *)
Definition extracted_schedule (vals : Valuation) (jobs_data : dict JobInfo)
           (lines_data : dict LineInfo) (now : Z) : dict SchedEntry :=
  flat_map
    (fun job : Z * JobInfo =>
       match job_assignment vals lines_data (fst job) with
       | Some a => [(fst job, schedule_entry now (snd job) a)]
       | None => []
       end)
    jobs_data.

(** Total quantity of the jobs a schedule puts on a line at a slot. *)
Definition slot_load (sched : dict SchedEntry) (line_id slot : Z) : Z :=
  PyNum.sumZ
    (map (fun e : Z * SchedEntry => quantity (job_info (snd e)))
         (filter (fun e : Z * SchedEntry =>
                    Z.eqb (assigned_line (snd e)) line_id
                    && Z.eqb (assigned_slot (snd e)) slot)
                 sched)).

End Reading.
Import Reading.

(* ------------------------------------------------------------------ *)
(** ** Sample data *)

Module Examples.

Definition seat_frame : InventoryItem :=
  {| item_id := 1; part_number := "SEAT-001"; unit_cost := 10%Q;
     current_stock := 100; reorder_point := 50; item_is_active := true |}.

Definition assembly_line : ProductionLine :=
  {| line_id := 7; line_name := "Assembly Line 1"; capacity_per_hour := 200;
     efficiency_target := PyNum.lit_0_9; line_is_active := true |}.

(** Two recent records of line 7 with 37 and 38 units produced: the
    estimated requirements are 30 of item 1 and 22 of item 2. *)
Definition recent_production : list ProductionRecord :=
  [ {| production_line_id := 7; planned_quantity := 40;
       actual_quantity := 37; created_at := 1000 |};
    {| production_line_id := 7; planned_quantity := 40;
       actual_quantity := 38; created_at := 1000 |} ].

(** One active item with id 1, stock 100 and unit cost 10; one active line. *)
Definition world_one_item : World :=
  {| inventory_items := [seat_frame];
     production_lines := [assembly_line];
     production_records := recent_production;
     resource_allocations := [];
     optimization_results := [];
     pending := [];
     faults := [];
     utcnow := 2000;
     solver_calls := [] |}.

(** The same world with three recent records of line 7, of 10, 12 and 13
    units produced. *)
Definition world_uneven_records : World :=
  {| inventory_items := [seat_frame];
     production_lines := [assembly_line];
     production_records :=
       [ {| production_line_id := 7; planned_quantity := 15;
            actual_quantity := 10; created_at := 1000 |};
         {| production_line_id := 7; planned_quantity := 15;
            actual_quantity := 12; created_at := 1000 |};
         {| production_line_id := 7; planned_quantity := 15;
            actual_quantity := 13; created_at := 1000 |} ];
     resource_allocations := [];
     optimization_results := [];
     pending := [];
     faults := [];
     utcnow := 2000;
     solver_calls := [] |}.

(** The same world without any active inventory item. *)
Definition world_no_items : World :=
  {| inventory_items := [];
     production_lines := [assembly_line];
     production_records := recent_production;
     resource_allocations := [];
     optimization_results := [];
     pending := [];
     faults := [];
     utcnow := 2000;
     solver_calls := [] |}.

(** A world whose models have no solution: item 1 has a stock of 10 while
    line 7 requires 30 units of it, and line 7 takes 20 units per hour
    while the smallest job has 75. *)
Definition world_short_stock : World :=
  {| inventory_items :=
       [ {| item_id := 1; part_number := "SEAT-001"; unit_cost := 10%Q;
            current_stock := 10; reorder_point := 50; item_is_active := true |} ];
     production_lines :=
       [ {| line_id := 7; line_name := "Assembly Line 1";
            capacity_per_hour := 20; efficiency_target := PyNum.lit_0_9;
            line_is_active := true |} ];
     production_records := recent_production;
     resource_allocations := [];
     optimization_results := [];
     pending := [];
     faults := [];
     utcnow := 2000;
     solver_calls := [] |}.

(** A solver run that reports an optimum with every variable at 30. *)
Definition cbc_thirty : Solver := fun _ => (LpStatusOptimal, fun _ => 30%Q).

(** A solver run that reports infeasibility. *)
Definition cbc_infeasible : Solver := fun _ => (LpStatusInfeasible, fun _ => 0%Q).

(** Two active lines with target efficiency 0.9: line 1 produced 50 of 100
    planned units in the last day, line 2 produced 85 of 100. *)
Definition world_two_lines : World :=
  {| inventory_items := [seat_frame];
     production_lines :=
       [ {| line_id := 1; line_name := "Line A"; capacity_per_hour := 25;
            efficiency_target := PyNum.lit_0_9; line_is_active := true |};
         {| line_id := 2; line_name := "Line B"; capacity_per_hour := 25;
            efficiency_target := PyNum.lit_0_9; line_is_active := true |} ];
     production_records :=
       [ {| production_line_id := 1; planned_quantity := 100;
            actual_quantity := 50; created_at := 1000 |};
         {| production_line_id := 2; planned_quantity := 100;
            actual_quantity := 85; created_at := 1000 |} ];
     resource_allocations := [];
     optimization_results := [];
     pending := [];
     faults := [];
     utcnow := 2000;
     solver_calls := [] |}.

Definition line_A_utilization : LineUtil :=
  {| lu_line_id := 1; lu_line_name := "Line A";
     current_efficiency := 50%float;
     target_efficiency := 90%float |}.

Definition line_B_utilization : LineUtil :=
  {| lu_line_id := 2; lu_line_name := "Line B";
     current_efficiency := 85%float;
     target_efficiency := 90%float |}.

(** One active line with the given efficiency target and one record of the
    last day, of [actual] units produced out of [planned]. *)
Definition world_one_record (target : float) (planned actual : Z) : World :=
  {| inventory_items := [seat_frame];
     production_lines :=
       [ {| line_id := 1; line_name := "Line A"; capacity_per_hour := 25;
            efficiency_target := target; line_is_active := true |} ];
     production_records :=
       [ {| production_line_id := 1; planned_quantity := planned;
            actual_quantity := actual; created_at := 1000 |} ];
     resource_allocations := [];
     optimization_results := [];
     pending := [];
     faults := [];
     utcnow := 2000;
     solver_calls := [] |}.

(** The sample world before any production was recorded. *)
Definition world_idle_line : World :=
  {| inventory_items := [seat_frame];
     production_lines := [assembly_line];
     production_records := [];
     resource_allocations := [];
     optimization_results := [];
     pending := [];
     faults := [];
     utcnow := 2000;
     solver_calls := [] |}.

(** The sample world with a fault plan. *)
Definition world_with_faults (plan : list bool) : World :=
  set_faults plan world_one_item.

(** The allocation the sample call extracts: 30 units of item 1 to line 7. *)
Definition sample_allocation : dict (dict AllocEntry) :=
  [(1, [(7, {| allocated_quantity := 30;
               item_info := {| ii_part_number := "SEAT-001";
                               ii_current_stock := 100;
                               ii_unit_cost := 10%Q;
                               ii_reorder_point := 50 |};
               line_info := {| lr_name := "Assembly Line 1";
                               lr_capacity_per_hour := 200;
                               required_items := [(1, 30); (2, 22)] |} |})])].

(** A solver run that reports an optimum with job 1 at slot 0, job 2 at
    slot 1 and job 3 at slot 2 of line 7. *)
Definition cbc_three_slots : Solver :=
  fun _ =>
    (LpStatusOptimal,
     fun v => match v with
              | sched_ 1 7 0 => 1%Q
              | sched_ 2 7 1 => 1%Q
              | sched_ 3 7 2 => 1%Q
              | _ => 0%Q
              end).

End Examples.
Import Examples.

(* ------------------------------------------------------------------ *)
(** ** The periodic loop and its switch (lines 28-64)

    The allocator object carries the switch [is_running] and the handle of
    the loop thread.  Threads are not modelled: starting the thread is
    counted, and the loop is run on the list of values its own reads of
    [self.is_running] return, which another thread decides. *)

Module Periodic.

Definition set_utcnow (t : Z) (w : World) : World :=
  {| inventory_items := inventory_items w;
     production_lines := production_lines w;
     production_records := production_records w;
     resource_allocations := resource_allocations w;
     optimization_results := optimization_results w;
     pending := pending w; faults := faults w; utcnow := t;
     solver_calls := solver_calls w |}.

(** [time.sleep(seconds)]: the clock moves on. *)
Definition sleep (seconds : Z) : M unit :=
  modify (fun w => set_utcnow (utcnow w + seconds) w).

Record Allocator : Type := {
  optimization_interval : Z;
  is_running : bool;
  optimization_thread : option nat;   (* the thread object, by its number *)
  threads_started : nat               (* threads created and started so far *)
}.

(** [__init__] *)
Definition new_allocator (interval : Z) : Allocator :=
  {| optimization_interval := interval;
     is_running := false;
     optimization_thread := None;
     threads_started := 0 |}.

(** [run_periodic_optimization] *)
Definition run_periodic_optimization (a : Allocator) : Allocator :=
  if is_running a
  then a     (* "Optimization already running" *)
  else {| optimization_interval := optimization_interval a;
          is_running := true;
          optimization_thread := Some (threads_started a);
          threads_started := S (threads_started a) |}.

(** [stop_optimization]: the flag is cleared; the join waits at most ten
    seconds and changes nothing. *)
Definition stop_optimization (a : Allocator) : Allocator :=
  {| optimization_interval := optimization_interval a;
     is_running := false;
     optimization_thread := optimization_thread a;
     threads_started := threads_started a |}.

(** One pass of the body of [while self.is_running]. *)
Definition optimization_pass (cbc : Solver) (interval : Z) : M unit :=
  try_except
    (optimize_inventory_allocation cbc ;;
     optimize_production_schedule cbc ;;
     sleep interval)
    (fun e => sleep interval).

(** [_optimization_loop], on the values read from [self.is_running] at the
    head of the loop; the loop is left at the first [false] (or when the
    list of readings ends). *)
Fixpoint _optimization_loop (cbc : Solver) (interval : Z) (readings : list bool)
  : M unit :=
  match readings with
  | true :: rest =>
      optimization_pass cbc interval ;; _optimization_loop cbc interval rest
  | _ => ret tt
  end.

(** The passes the loop makes on a list of readings: the readings [true]
    before the first [false]. *)
Fixpoint passes (readings : list bool) : nat :=
  match readings with
  | true :: rest => S (passes rest)
  | _ => O
  end.

(** Calls a client makes on the allocator object. *)
Inductive Call : Type := call_run | call_stop.

Definition is_run (c : Call) : bool :=
  match c with call_run => true | call_stop => false end.

Definition is_stop (c : Call) : bool :=
  match c with call_stop => true | call_run => false end.

Definition do_call (a : Allocator) (c : Call) : Allocator :=
  match c with
  | call_run => run_periodic_optimization a
  | call_stop => stop_optimization a
  end.

End Periodic.
Import Periodic.

(* ------------------------------------------------------------------ *)
(** ** What a call writes

    Closed forms of the rows the persistence helpers add, and further
    quantities the properties of the second part speak about. *)

Module Effects.

(** The rows [_apply_inventory_allocations] adds for an allocation. *)
Definition allocation_records (now : Z) (allocs : dict (dict AllocEntry))
  : list ResourceAllocation :=
  flat_map
    (fun row : Z * dict AllocEntry =>
       map (fun e : Z * AllocEntry =>
              {| ra_production_line_id := fst e;
                 resource_type := MATERIAL;
                 resource_id := str_ (fst row);
                 ra_allocated_quantity := allocated_quantity (snd e);
                 allocation_date := now;
                 ra_status := PLANNED |})
           (snd row))
    allocs.

(** The rows [_apply_production_schedule] adds for a schedule. *)
Definition schedule_records (sched : dict SchedEntry) : list ResourceAllocation :=
  map (fun e : Z * SchedEntry =>
         {| ra_production_line_id := assigned_line (snd e);
            resource_type := LABOR;
            resource_id := job_ (fst e);
            ra_allocated_quantity := 1;
            allocation_date := scheduled_time (snd e);
            ra_status := PLANNED |})
      sched.

(** The run [_save_optimization_result] records. *)
Definition completed_run (opt_type : OptimizationType) (blob : ResultsBlob)
           (objective_value : Q) : OptimizationResult :=
  {| optimization_type := opt_type;
     results := blob;
     objective_value := objective_value;
     status := COMPLETED |}.

(** What a call may not touch: the tables it reads and the clock. *)
Definition same_inputs (w w' : World) : Prop :=
  inventory_items w' = inventory_items w
  /\ production_lines w' = production_lines w
  /\ production_records w' = production_records w
  /\ utcnow w' = utcnow w.

(** The entry [_get_inventory_data] stores for an inventory item. *)
Definition item_data (item : InventoryItem) : ItemInfo :=
  {| ii_part_number := part_number item;
     ii_current_stock := current_stock item;
     ii_unit_cost := unit_cost item;
     ii_reorder_point := reorder_point item |}.

(** The entry [_get_resource_utilization_data] appends for a line that has
    no production to show for the last day. *)
Definition idle_line_utilization (line : ProductionLine) : LineUtil :=
  {| lu_line_id := line_id line;
     lu_line_name := line_name line;
     current_efficiency := 0%float;
     target_efficiency := (efficiency_target line * 100)%float |}.

(** The requirement of a line for an item; none counts as zero. *)
Definition requirement_of (line : LineReq) (item_id : Z) : Z :=
  match get (required_items line) item_id with
  | Some m => m
  | None => 0
  end.

(** Cost of a schedule, as the objective charges it. *)
Definition schedule_value (sched : dict SchedEntry) : Q :=
  PyNum.sumQ
    (map (fun e : Z * SchedEntry =>
            inject_Z (assigned_slot (snd e) * (2 - priority (job_info (snd e)))
                      + setup_cost (se_line_info (snd e))))
         sched).

(** The value of the scheduling objective: every (job, line, slot) variable
    weighted with its time cost and the setup cost of the line. *)
Definition schedule_cost (jobs_data : dict JobInfo) (lines_data : dict LineInfo)
           (vals : Valuation) : Q :=
  PyNum.sumQ
    (map (fun job : Z * JobInfo =>
            PyNum.sumQ
              (map (fun line : Z * LineInfo =>
                      PyNum.sumQ
                        (map (fun slot =>
                                (inject_Z (slot * (2 - priority (snd job))
                                           + setup_cost (snd line))
                                 * vals (sched_ (fst job) (fst line) slot))%Q)
                             time_slots))
                   lines_data))
         jobs_data).

(** A valuation changed at one variable. *)
Definition set_value (vals : Valuation) (n : VarName) (v : Q) : Valuation :=
  fun n' => if VarName_eqb n' n then v else vals n'.

(** An action that leaves a projection of the world as it found it, whether
    it returns or raises. *)
Definition keeps {X A} (f : World -> X) (m : M A) : Prop :=
  forall w r w', m w = (r, w') -> f w' = f w.

(** A projection of the world that no session operation changes. *)
Definition session_field {X} (f : World -> X) : Prop :=
  (forall p w, f (set_pending p w) = f w)
  /\ (forall fs w, f (set_faults fs w) = f w)
  /\ (forall w, f (flush w) = f w).

(** A projection that a solver call does not change either. *)
Definition input_field {X} (f : World -> X) : Prop :=
  session_field f /\ forall p w, f (log_solver_call p w) = f w.

(** A block of [session.add] calls: it leaves the tables and the clock alone
    and, unless an [add] fails, appends the rows [rows now] to the pending
    objects of the session. *)
Definition adds_only (m : M unit) (rows : Z -> list Row) : Prop :=
  forall w r w',
    m w = (r, w') ->
    same_tables w w' /\ utcnow w' = utcnow w
    /\ ((r = Ok tt /\ pending w' = pending w ++ rows (utcnow w))
        \/ r = Raise SQLAlchemyError).

(** The run [optimize_resource_utilization] records. *)
Definition utilization_run (w : World) : OptimizationResult :=
  let utilization_data := _get_resource_utilization_data w in
  let recommendations :=
    analyze_inventory_turnover (inventory utilization_data)
      (analyze_line_efficiency (lines utilization_data) []) in
  completed_run RESOURCE
    (utilization_blob
       {| recommendations := recommendations;
          total_recommendations := Z.of_nat (List.length recommendations);
          utilization_metrics := utilization_data |})
    0.

End Effects.
Import Effects.

(* ================================================================== *)
(** * Properties *)

Unset Implicit Arguments.

(** ** Loops that cannot raise *)

Section FallibleLoops.
Context {A B : Type}.

Lemma foldM_pure (f : B -> A -> res B) (g : B -> A -> B) (l : list A) :
  (forall a b, In a l -> f b a = Ok (g b a)) ->
  forall b, foldM f l b = Ok (fold_left g l b).
Proof.
  induction l as [|a l IH]; intros Hf b; simpl.
  - reflexivity.
  - rewrite Hf by (left; reflexivity). simpl.
    apply IH. intros a' b' Hin. apply Hf. right; exact Hin.
Qed.

Lemma mapM_pure (f : A -> res B) (g : A -> B) (l : list A) :
  (forall a, In a l -> f a = Ok (g a)) ->
  mapM f l = Ok (map g l).
Proof.
  induction l as [|a l IH]; intros Hf; simpl.
  - reflexivity.
  - rewrite Hf by (left; reflexivity). simpl.
    rewrite IH; [reflexivity|]. intros a' Hin. apply Hf. right; exact Hin.
Qed.
End FallibleLoops.

(** ** Dictionaries *)

Section DictFacts.
Context {V : Type}.
Implicit Types (d : dict V) (k : Z) (v : V).

Lemma get_setitem_same d k v : get (setitem d k v) k = Some v.
Proof.
  induction d as [|[k' v'] d IH]; simpl.
  - rewrite Z.eqb_refl. reflexivity.
  - destruct (Z.eqb k k') eqn:E; simpl.
    + rewrite Z.eqb_refl. reflexivity.
    + rewrite E. exact IH.
Qed.

Lemma get_setitem_other d k k' v :
  k' <> k -> get (setitem d k v) k' = get d k'.
Proof.
  intros Hne. induction d as [|[k0 v0] d IH]; simpl.
  - apply Z.eqb_neq in Hne. rewrite Hne. reflexivity.
  - destruct (Z.eqb k k0) eqn:E; simpl.
    + apply Z.eqb_eq in E. subst k0.
      apply Z.eqb_neq in Hne. rewrite Hne. reflexivity.
    + rewrite IH. reflexivity.
Qed.

Lemma get_None_notin d k : get d k = None <-> ~ In k (keys d).
Proof.
  induction d as [|[k' v'] d IH]; simpl.
  - tauto.
  - destruct (Z.eqb k k') eqn:E.
    + apply Z.eqb_eq in E. subst. split; [discriminate | tauto].
    + apply Z.eqb_neq in E. rewrite IH. split.
      * intros Hn [Hk|Hk]; [congruence | tauto].
      * tauto.
Qed.

Lemma get_Some_In d k v : get d k = Some v -> In (k, v) d.
Proof.
  induction d as [|[k' v'] d IH]; simpl; [discriminate|].
  destruct (Z.eqb k k') eqn:E.
  - apply Z.eqb_eq in E. subst. intros [= ->]. left; reflexivity.
  - intros H. right. apply IH, H.
Qed.

Lemma In_get d k v : wf d -> In (k, v) d -> get d k = Some v.
Proof.
  unfold wf. induction d as [|[k' v'] d IH]; simpl; [tauto|].
  intros Hnd [Heq|Hin].
  - inversion Heq; subst. rewrite Z.eqb_refl. reflexivity.
  - inversion Hnd as [|? ? Hni Hnd']; subst.
    destruct (Z.eqb k k') eqn:E.
    + apply Z.eqb_eq in E. subst. exfalso. apply Hni.
      change k' with (fst (k', v)). apply in_map. exact Hin.
    + apply IH; assumption.
Qed.

Lemma contains_In d k : contains d k = true <-> In k (keys d).
Proof.
  unfold contains. destruct (get d k) eqn:E.
  - split; [intros _|reflexivity].
    apply get_Some_In in E. change k with (fst (k, v)). apply in_map, E.
  - split; [discriminate|]. intros Hin. apply get_None_notin in E. tauto.
Qed.

Lemma contains_false d k : contains d k = false <-> ~ In k (keys d).
Proof.
  rewrite <- contains_In. destruct (contains d k); split; congruence.
Qed.

Lemma keys_setitem_new d k v :
  ~ In k (keys d) -> setitem d k v = d ++ [(k, v)].
Proof.
  induction d as [|[k' v'] d IH]; simpl; intros Hni.
  - reflexivity.
  - destruct (Z.eqb k k') eqn:E.
    + apply Z.eqb_eq in E. subst. tauto.
    + rewrite IH by tauto. reflexivity.
Qed.

Lemma keys_setitem_incl d k v k' :
  In k' (keys (setitem d k v)) <-> k' = k \/ In k' (keys d).
Proof.
  induction d as [|[k0 v0] d IH]; simpl.
  - intuition.
  - destruct (Z.eqb k k0) eqn:E; simpl.
    + apply Z.eqb_eq in E. subst. intuition.
    + rewrite IH. intuition.
Qed.

Lemma wf_setitem d k v : wf d -> wf (setitem d k v).
Proof.
  unfold wf. induction d as [|[k' v'] d IH]; simpl; intros Hnd.
  - constructor; [simpl; tauto | constructor].
  - inversion Hnd as [|? ? Hni Hnd']; subst.
    destruct (Z.eqb k k') eqn:E; simpl.
    + apply Z.eqb_eq in E. subst. constructor; assumption.
    + apply Z.eqb_neq in E. constructor.
      * rewrite keys_setitem_incl. intros [Heq|Hin]; [congruence|tauto].
      * apply IH, Hnd'.
Qed.

(** A dictionary filled by assignments is well formed. *)
Lemma wf_fold_setitem {X} (key : X -> Z) (val : X -> V) (l : list X) d :
  wf d -> wf (fold_left (fun d x => setitem d (key x) (val x)) l d).
Proof.
  revert d. induction l as [|x l IH]; simpl; intros d Hd.
  - exact Hd.
  - apply IH, wf_setitem, Hd.
Qed.

(** Filling a dictionary from a duplicate-free key list. *)
Lemma fold_setitem_keys (f : Z -> V) (ks : list Z) d :
  NoDup (keys d ++ ks) ->
  fold_left (fun d k => setitem d k (f k)) ks d
  = d ++ map (fun k => (k, f k)) ks.
Proof.
  revert d. induction ks as [|k ks IH]; simpl; intros d Hnd.
  - rewrite app_nil_r. reflexivity.
  - assert (Hni : ~ In k (keys d)).
    { apply NoDup_remove_2 in Hnd. intros Hin. apply Hnd.
      apply in_or_app. left; exact Hin. }
    rewrite (keys_setitem_new d k (f k) Hni).
    rewrite IH.
    + rewrite <- app_assoc. reflexivity.
    + unfold keys in *. rewrite map_app. simpl. rewrite <- app_assoc.
      exact Hnd.
Qed.

Lemma build_from_keys (f : Z -> V) (ks : list Z) :
  NoDup ks ->
  fold_left (fun d k => setitem d k (f k)) ks []
  = map (fun k => (k, f k)) ks.
Proof. intros Hnd. rewrite fold_setitem_keys; [reflexivity | exact Hnd]. Qed.

Lemma keys_map_keys (f : Z -> V) (ks : list Z) :
  keys (map (fun k => (k, f k)) ks) = ks.
Proof.
  unfold keys. rewrite map_map. simpl. apply map_id.
Qed.

Lemma get_map_keys (f : Z -> V) (ks : list Z) k :
  In k ks -> get (map (fun k => (k, f k)) ks) k = Some (f k).
Proof.
  induction ks as [|k' ks IH]; simpl; [tauto|].
  intros Hin. destruct (Z.eqb k k') eqn:E.
  - apply Z.eqb_eq in E. subst. reflexivity.
  - apply Z.eqb_neq in E. apply IH. destruct Hin; [congruence|assumption].
Qed.

Lemma getitem_In d k v : wf d -> In (k, v) d -> getitem d k = Ok v.
Proof. intros Hwf Hin. unfold getitem. rewrite (In_get d k v Hwf Hin). reflexivity. Qed.

Lemma In_keys d k : In k (keys d) -> exists v, In (k, v) d.
Proof.
  unfold keys. rewrite in_map_iff. intros [[k' v] [Heq Hin]].
  simpl in Heq. subst. exists v. exact Hin.
Qed.
End DictFacts.

(** ** Sums *)

Section SumFacts.

Lemma sumQ_nil : PyNum.sumQ [] = 0%Q.
Proof. reflexivity. Qed.

Lemma sumQ_cons (x : Q) (l : list Q) : PyNum.sumQ (x :: l) = (x + PyNum.sumQ l)%Q.
Proof. reflexivity. Qed.

Lemma sumQ_app (l1 l2 : list Q) :
  (PyNum.sumQ (l1 ++ l2) == PyNum.sumQ l1 + PyNum.sumQ l2)%Q.
Proof.
  induction l1 as [|x l1 IH].
  - simpl app. rewrite sumQ_nil. ring.
  - simpl app. rewrite !sumQ_cons, IH. ring.
Qed.

Lemma sumQ_nonneg (l : list Q) :
  Forall (fun x => (0 <= x)%Q) l -> (0 <= PyNum.sumQ l)%Q.
Proof.
  induction 1 as [|x l Hx Hl IH].
  - rewrite sumQ_nil. lra.
  - rewrite sumQ_cons. lra.
Qed.

Lemma sumQ_le {A} (f g : A -> Q) (l : list A) :
  (forall a, In a l -> (f a <= g a)%Q) ->
  (PyNum.sumQ (map f l) <= PyNum.sumQ (map g l))%Q.
Proof.
  induction l as [|a l IH]; intros H.
  - simpl map. lra.
  - simpl map. rewrite !sumQ_cons.
    assert (f a <= g a)%Q by (apply H; left; reflexivity).
    assert (PyNum.sumQ (map f l) <= PyNum.sumQ (map g l))%Q
      by (apply IH; intros; apply H; right; assumption).
    lra.
Qed.

Lemma sumQ_ext {A} (f g : A -> Q) (l : list A) :
  (forall a, In a l -> (f a == g a)%Q) ->
  (PyNum.sumQ (map f l) == PyNum.sumQ (map g l))%Q.
Proof.
  induction l as [|a l IH]; intros H.
  - simpl map. reflexivity.
  - simpl map. rewrite !sumQ_cons.
    rewrite (H a) by (left; reflexivity).
    rewrite IH by (intros; apply H; right; assumption).
    reflexivity.
Qed.

Lemma sumQ_inject_Z (l : list Z) :
  (PyNum.sumQ (map inject_Z l) == inject_Z (PyNum.sumZ l))%Q.
Proof.
  induction l as [|x l IH].
  - reflexivity.
  - simpl map. rewrite sumQ_cons, IH. simpl PyNum.sumZ.
    rewrite inject_Z_plus. reflexivity.
Qed.

(** One member of a sum of non-negative numbers is at most the sum. *)
Lemma sumQ_member {A} (f : A -> Q) (l : list A) (a : A) :
  (forall x, In x l -> (0 <= f x)%Q) ->
  In a l -> (f a <= PyNum.sumQ (map f l))%Q.
Proof.
  induction l as [|x l IH]; intros Hpos Hin; [destruct Hin|].
  simpl map. rewrite sumQ_cons.
  assert (Hl : (0 <= PyNum.sumQ (map f l))%Q).
  { apply sumQ_nonneg. apply Forall_forall. intros q Hq.
    apply in_map_iff in Hq. destruct Hq as [y [<- Hy]].
    apply Hpos. right; exact Hy. }
  destruct Hin as [->|Hin].
  - lra.
  - assert (0 <= f x)%Q by (apply Hpos; left; reflexivity).
    assert (f a <= PyNum.sumQ (map f l))%Q
      by (apply IH; [intros; apply Hpos; right; assumption | exact Hin]).
    lra.
Qed.

End SumFacts.

(** ** Python [int] on non-negative values of the solver *)

Section IntFacts.

Lemma int_floor (x : Q) : (0 <= x)%Q -> PyNum.int x = Qfloor x.
Proof.
  destruct x as [n d]. unfold Qle, PyNum.int, Qfloor. simpl.
  intros H. rewrite Z.mul_1_r in H.
  apply Z.quot_div_nonneg; lia.
Qed.

Lemma int_le (x : Q) : (0 <= x)%Q -> (inject_Z (PyNum.int x) <= x)%Q.
Proof. intros H. rewrite int_floor by exact H. apply Qfloor_le. Qed.

Lemma int_ge (x : Q) (m : Z) :
  (0 <= x)%Q -> (inject_Z m <= x)%Q -> m <= PyNum.int x.
Proof.
  intros H0 Hm. rewrite int_floor by exact H0.
  rewrite <- (Qfloor_Z m). apply Qfloor_resp_le. exact Hm.
Qed.

Lemma int_inject_Z (z : Z) (x : Q) : (x == inject_Z z)%Q -> PyNum.int x = z.
Proof.
  intros H. unfold PyNum.int. destruct x as [n d].
  unfold Qeq in H. simpl in *. rewrite Z.mul_1_r in H. subst n.
  apply Z.quot_mul. discriminate.
Qed.

Lemma Qlt_bool_iff (x y : Q) : PyNum.Qlt_bool x y = true <-> (x < y)%Q.
Proof.
  unfold PyNum.Qlt_bool. rewrite negb_true_iff.
  destruct (Qle_bool y x) eqn:E.
  - apply Qle_bool_iff in E. split; [discriminate | intros; lra].
  - split; [intros _ | reflexivity].
    apply Qnot_le_lt. intros Hle. apply Qle_bool_iff in Hle. congruence.
Qed.

End IntFacts.

(** ** Binary64 products

    A positive float times a constant of at least one half is positive: the
    product of the mantissas keeps more digits than rounding to the format
    shifts out, except for the smallest positive float, whose product is
    computed. *)

Section Binary64.

Import PyNum.

Lemma ltb_zero_positive (x : float) :
  (0 <? x)%float = true <-> SFpositive (Prim2SF x).
Proof.
  rewrite ltb_spec.
  change (Prim2SF 0) with (S754_zero false).
  destruct (Prim2SF x) as [s|s| |s m e]; try destruct s; cbn;
    intuition congruence.
Qed.

Lemma digits2_pos_bounds (p : positive) :
  2 ^ (Z.pos (digits2_pos p) - 1) <= Z.pos p < 2 ^ Z.pos (digits2_pos p).
Proof.
  induction p as [p IH|p IH|]; cbn [digits2_pos].
  - rewrite Pos2Z.inj_succ.
    replace (Z.succ (Z.pos (digits2_pos p)) - 1)
      with (Z.succ (Z.pos (digits2_pos p) - 1)) by lia.
    rewrite !Z.pow_succ_r by lia. lia.
  - rewrite Pos2Z.inj_succ.
    replace (Z.succ (Z.pos (digits2_pos p)) - 1)
      with (Z.succ (Z.pos (digits2_pos p) - 1)) by lia.
    rewrite !Z.pow_succ_r by lia. lia.
  - cbn. lia.
Qed.

Lemma digits2_pos_lower (p : positive) (k : Z) :
  2 ^ k <= Z.pos p -> k < Z.pos (digits2_pos p).
Proof.
  intros H. destruct (digits2_pos_bounds p) as [_ Hu].
  destruct (Z.lt_ge_cases k (Z.pos (digits2_pos p))) as [|Hge]; [assumption|].
  assert (2 ^ Z.pos (digits2_pos p) <= 2 ^ k) by (apply Z.pow_le_mono_r; lia).
  lia.
Qed.

Lemma shr_1_m (mrs : shr_record) (j : Z) :
  0 <= j -> 2 ^ (1 + j) <= shr_m mrs -> 2 ^ j <= shr_m (shr_1 mrs).
Proof.
  intros Hj H. replace (1 + j) with (Z.succ j) in H by lia.
  rewrite Z.pow_succ_r in H by lia.
  assert (0 < 2 ^ j) by (apply Z.pow_pos_nonneg; lia).
  destruct mrs as [m r s]. cbn [shr_m] in H.
  destruct m as [|[p|p|]|p]; cbn; lia.
Qed.

Lemma iter_shr_1_m (p : positive) :
  forall (mrs : shr_record) (j : Z),
    0 <= j -> 2 ^ (Z.pos p + j) <= shr_m mrs ->
    2 ^ j <= shr_m (iter_pos shr_1 p mrs).
Proof.
  induction p as [p IH|p IH|]; intros mrs j Hj H; cbn [iter_pos].
  - apply IH; [assumption|]. apply IH; [lia|]. apply shr_1_m; [lia|].
    replace (1 + (Z.pos p + (Z.pos p + j))) with (Z.pos p~1 + j) by lia. exact H.
  - apply IH; [assumption|]. apply IH; [lia|].
    replace (Z.pos p + (Z.pos p + j)) with (Z.pos p~0 + j) by lia. exact H.
  - apply shr_1_m; assumption.
Qed.

(** The parameters of the format, as numbers. *)
Ltac binary64 :=
  unfold fexp, SpecFloat.emin in *;
  change prec with 53 in *; change emax with 1024 in *.

Lemma shr_fexp_positive (q : positive) (e : Z) (l : location) :
  emin < Z.pos (digits2_pos q) + e ->
  1 <= shr_m (fst (shr_fexp prec emax (Z.pos q) e l))
  /\ ((shr_m (fst (shr_fexp prec emax (Z.pos q) e l)) = Z.pos q
       /\ snd (shr_fexp prec emax (Z.pos q) e l) = e)
      \/ emin <= snd (shr_fexp prec emax (Z.pos q) e l)).
Proof.
  intros Hd. unfold shr_fexp, shr. cbn [Zdigits2].
  assert (Hq : shr_m (shr_record_of_loc (Z.pos q) l) = Z.pos q)
    by (destruct l as [|[]]; reflexivity).
  destruct (fexp prec emax (Z.pos (digits2_pos q) + e) - e) as [|n|n] eqn:En;
    cbn [fst snd].
  - rewrite Hq. split; [lia|]. left. split; reflexivity.
  - split.
    + change 1 with (2 ^ 0). apply iter_shr_1_m; [lia|].
      rewrite Hq. rewrite Z.add_0_r.
      destruct (digits2_pos_bounds q) as [Hl _].
      transitivity (2 ^ (Z.pos (digits2_pos q) - 1)); [|exact Hl].
      apply Z.pow_le_mono_r; [lia|].
      binary64. lia.
    + right. binary64. lia.
  - rewrite Hq. split; [lia|]. left. split; reflexivity.
Qed.

Lemma round_nearest_even_bounds (m : Z) (l : location) :
  m <= round_nearest_even m l.
Proof.
  unfold round_nearest_even. destruct l as [|[]]; try lia.
  destruct (Z.even m); lia.
Qed.

Lemma binary_round_aux_positive (M : positive) (E : Z) (l : location) :
  emin < Z.pos (digits2_pos M) + E ->
  SFpositive (binary_round_aux prec emax false (Z.pos M) E l).
Proof.
  intros Hd. unfold binary_round_aux.
  destruct (shr_fexp_positive M E l Hd) as [H1 H2].
  destruct (shr_fexp prec emax (Z.pos M) E l) as [mrs' e'] eqn:E1.
  cbn [fst snd] in H1, H2.
  pose proof (round_nearest_even_bounds (shr_m mrs') (loc_of_shr_record mrs'))
    as Hr.
  destruct (round_nearest_even (shr_m mrs') (loc_of_shr_record mrs'))
    as [|q|q] eqn:Eq; try lia.
  assert (Hd2 : emin < Z.pos (digits2_pos q) + e').
  { destruct H2 as [[Hm He]|He].
    - subst e'. rewrite Hm in Hr.
      assert (Z.pos (digits2_pos M) - 1 < Z.pos (digits2_pos q)).
      { apply digits2_pos_lower. destruct (digits2_pos_bounds M). lia. }
      lia.
    - binary64. lia. }
  destruct (shr_fexp_positive q e' loc_Exact Hd2) as [H3 _].
  destruct (shr_fexp prec emax (Z.pos q) e' loc_Exact) as [mrs'' e''].
  cbn [fst] in H3.
  destruct (shr_m mrs'') as [|m|m]; try lia.
  destruct (e'' <=? emax - prec); exact I.
Qed.

Lemma valid_binary_canonical (s : bool) (m : positive) (e : Z) :
  valid_binary (S754_finite s m e) = true ->
  (m = 1%positive /\ e = emin)
  \/ emin + 1 < Z.pos (digits2_pos m) + e.
Proof.
  cbn [valid_binary]. unfold bounded, canonical_mantissa, fexp.
  rewrite andb_true_iff, Z.eqb_eq. intros [Hc _].
  destruct m as [p|p|]; cbn [digits2_pos] in *;
    rewrite ?Pos2Z.inj_succ in *; binary64.
  - right. lia.
  - right. lia.
  - left. split; [reflexivity|]. lia.
Qed.

Lemma mul_positive (x c : float) (mc : positive) (ec : Z) :
  Prim2SF c = S754_finite false mc ec ->
  2 ^ 52 <= Z.pos mc -> -53 <= ec ->
  SFpositive (SFmul prec emax (S754_finite false 1 emin) (Prim2SF c)) ->
  (0 <? x)%float = true -> (0 <? x * c)%float = true.
Proof.
  intros Hc Hmc Hec Hsmall Hx.
  apply ltb_zero_positive in Hx. apply ltb_zero_positive.
  rewrite mul_spec. unfold SF64mul.
  pose proof (Prim2SF_valid x) as Hv.
  destruct (Prim2SF x) as [s|s| |s m e]; try destruct s; try destruct Hx.
  - rewrite Hc. exact I.
  - destruct (valid_binary_canonical _ _ _ Hv) as [[-> ->]|Hbig].
    + exact Hsmall.
    + rewrite Hc. cbn [SFmul xorb]. apply binary_round_aux_positive.
      assert (Z.pos (digits2_pos m) + 51 < Z.pos (digits2_pos (m * mc))).
      { apply digits2_pos_lower. rewrite Pos2Z.inj_mul.
        destruct (digits2_pos_bounds m) as [Hl _].
        replace (Z.pos (digits2_pos m) + 51)
          with ((Z.pos (digits2_pos m) - 1) + 52) by lia.
        rewrite Z.pow_add_r by lia.
        assert (0 <= 2 ^ (Z.pos (digits2_pos m) - 1))
          by (apply Z.pow_nonneg; lia).
        nia. }
      binary64. lia.
Qed.

Lemma mul_hundred_positive (x : float) :
  (0 <? x)%float = true -> (0 <? x * 100)%float = true.
Proof.
  apply (mul_positive x 100%float 7036874417766400 (-46)).
  - reflexivity.
  - vm_compute. discriminate.
  - lia.
  - vm_compute. exact I.
Qed.

Lemma mul_lit_0_9_positive (x : float) :
  (0 <? x)%float = true -> (0 <? x * PyNum.lit_0_9)%float = true.
Proof.
  apply (mul_positive x PyNum.lit_0_9 8106479329266893 (-53)).
  - reflexivity.
  - vm_compute. discriminate.
  - lia.
  - vm_compute. exact I.
Qed.

End Binary64.

(** ** Values of affine expressions *)

Section PulpFacts.
Variable vals : Valuation.

Lemma VarName_eqb_eq (a b : VarName) : VarName_eqb a b = true <-> a = b.
Proof.
  destruct a, b; simpl; try (split; discriminate).
  - rewrite andb_true_iff, !Z.eqb_eq. split; [intros [-> ->] | intros [= -> ->]]; auto.
  - rewrite !andb_true_iff, !Z.eqb_eq.
    split; [intros [[-> ->] ->] | intros [= -> -> ->]]; auto.
Qed.

Lemma VarName_eqb_refl (a : VarName) : VarName_eqb a a = true.
Proof. apply VarName_eqb_eq. reflexivity. Qed.

Lemma value_unfold (e : LpAffineExpression) :
  value vals e
  = (PyNum.sumQ (map (fun vc => snd vc * value_var vals (fst vc)) (terms e))
     + constant e)%Q.
Proof. reflexivity. Qed.

Lemma terms_value_addterm (ts : list (LpVariable * Q)) (v : LpVariable) (c : Q) :
  (PyNum.sumQ (map (fun vc => snd vc * value_var vals (fst vc)) (addterm ts v c))
   == PyNum.sumQ (map (fun vc => snd vc * value_var vals (fst vc)) ts)
      + c * value_var vals v)%Q.
Proof.
  induction ts as [|[v' c'] ts IH].
  - simpl. ring.
  - cbn [addterm]. destruct (VarName_eqb (name v) (name v')) eqn:E.
    + apply VarName_eqb_eq in E.
      cbn [map fst snd]. rewrite !sumQ_cons.
      unfold value_var. rewrite E. ring.
    + cbn [map fst snd]. rewrite !sumQ_cons.
      cbn [map fst snd] in IH. rewrite IH. ring.
Qed.

Lemma terms_value_fold_addterm (l ts : list (LpVariable * Q)) :
  (PyNum.sumQ (map (fun vc => snd vc * value_var vals (fst vc))
                   (fold_left (fun ts vc => addterm ts (fst vc) (snd vc)) l ts))
   == PyNum.sumQ (map (fun vc => snd vc * value_var vals (fst vc)) ts)
      + PyNum.sumQ (map (fun vc => snd vc * value_var vals (fst vc)) l))%Q.
Proof.
  revert ts. induction l as [|[v c] l IH]; intros ts.
  - simpl. ring.
  - cbn [fold_left map fst snd]. rewrite IH, terms_value_addterm, sumQ_cons.
    ring.
Qed.

Lemma value_expr_add (e1 e2 : LpAffineExpression) :
  (value vals (expr_add e1 e2) == value vals e1 + value vals e2)%Q.
Proof.
  rewrite !value_unfold. unfold expr_add. cbn [terms constant].
  rewrite terms_value_fold_addterm. ring.
Qed.

Lemma value_expr_zero : (value vals expr_zero == 0)%Q.
Proof. rewrite value_unfold. simpl. ring. Qed.

Lemma value_expr_of_var (v : LpVariable) :
  (value vals (expr_of_var v) == value_var vals v)%Q.
Proof. rewrite value_unfold. simpl. ring. Qed.

Lemma value_expr_scale (c : Q) (e : LpAffineExpression) :
  (value vals (expr_scale c e) == c * value vals e)%Q.
Proof.
  unfold expr_scale. destruct (Qeq_bool c 0) eqn:E.
  - apply Qeq_bool_iff in E. rewrite value_expr_zero, E. ring.
  - rewrite !value_unfold. cbn [terms constant].
    induction (terms e) as [|[v x] ts IH].
    + simpl. ring.
    + cbn [map fst snd]. rewrite !sumQ_cons.
      cbn [map fst snd] in IH.
      setoid_replace
        (c * x * value_var vals v
         + PyNum.sumQ (map (fun vc => snd vc * value_var vals (fst vc))
                           (map (fun vc => (fst vc, c * snd vc)) ts))
         + c * constant e)%Q
        with
        (c * x * value_var vals v
         + (PyNum.sumQ (map (fun vc => snd vc * value_var vals (fst vc))
                            (map (fun vc => (fst vc, c * snd vc)) ts))
            + c * constant e))%Q by ring.
      rewrite IH. ring.
Qed.

Lemma value_var_scale (c : Q) (v : LpVariable) :
  (value vals (var_scale c v) == c * value_var vals v)%Q.
Proof.
  unfold var_scale. rewrite value_expr_scale, value_expr_of_var. reflexivity.
Qed.

Lemma value_fold_expr_add (es : list LpAffineExpression) (acc : LpAffineExpression) :
  (value vals (fold_left expr_add es acc)
   == value vals acc + PyNum.sumQ (map (value vals) es))%Q.
Proof.
  revert acc. induction es as [|e es IH]; intros acc.
  - simpl. ring.
  - cbn [fold_left map]. rewrite IH, value_expr_add, sumQ_cons. ring.
Qed.

Lemma value_lpSum (es : list LpAffineExpression) :
  (value vals (lpSum es) == PyNum.sumQ (map (value vals) es))%Q.
Proof.
  unfold lpSum. rewrite value_fold_expr_add, value_expr_zero. ring.
Qed.

Lemma value_lpSum_vars (vs : list LpVariable) :
  (value vals (lpSum (map expr_of_var vs))
   == PyNum.sumQ (map (value_var vals) vs))%Q.
Proof.
  rewrite value_lpSum, map_map. apply sumQ_ext.
  intros v _. apply value_expr_of_var.
Qed.

End PulpFacts.

(** ** Variables of a sum of variables *)

Section LpSumVars.

Lemma addterm_In (ts : list (LpVariable * Q)) (v : LpVariable) (c : Q) (u : LpVariable) :
  In u (map fst ts) -> In u (map fst (addterm ts v c)).
Proof.
  induction ts as [|[v' c'] ts IH]; simpl; [tauto|].
  destruct (VarName_eqb (name v) (name v')); simpl; tauto.
Qed.

Lemma addterm_new (ts : list (LpVariable * Q)) (v : LpVariable) (c : Q) :
  exists u, In u (map fst (addterm ts v c)) /\ name u = name v
            /\ (u = v \/ In u (map fst ts)).
Proof.
  induction ts as [|[v' c'] ts IH]; simpl.
  - exists v. auto.
  - destruct (VarName_eqb (name v) (name v')) eqn:E; simpl.
    + apply VarName_eqb_eq in E. exists v'. auto.
    + destruct IH as [u [Hin [Hn Hor]]]. exists u. tauto.
Qed.

Lemma expr_add_In_left (e1 e2 : LpAffineExpression) (u : LpVariable) :
  In u (map fst (terms e1)) -> In u (map fst (terms (expr_add e1 e2))).
Proof.
  unfold expr_add. cbn [terms]. generalize (terms e1).
  induction (terms e2) as [|[v c] l IH]; intros ts Hin; simpl.
  - exact Hin.
  - apply IH. apply addterm_In. exact Hin.
Qed.

Lemma addterm_In_inv (ts : list (LpVariable * Q)) (v : LpVariable) (c : Q) (u : LpVariable) :
  In u (map fst (addterm ts v c)) -> u = v \/ In u (map fst ts).
Proof.
  induction ts as [|[v' c'] ts IH]; simpl.
  - intros [H|[]]; auto.
  - destruct (VarName_eqb (name v) (name v')); simpl; tauto.
Qed.

Lemma fold_expr_add_In (es : list LpAffineExpression) (a : LpAffineExpression) (u : LpVariable) :
  In u (map fst (terms a)) ->
  In u (map fst (terms (fold_left expr_add es a))).
Proof.
  revert a. induction es as [|e es IH]; intros a Ha; simpl; [exact Ha|].
  apply IH. apply expr_add_In_left. exact Ha.
Qed.

Lemma fold_lpSum_vars_In (vs : list LpVariable) (acc : LpAffineExpression) (v : LpVariable) :
  In v vs ->
  exists u, In u (map fst (terms (fold_left expr_add (map expr_of_var vs) acc)))
            /\ name u = name v
            /\ (In u vs \/ In u (map fst (terms acc))).
Proof.
  revert acc. induction vs as [|v0 vs IH]; intros acc Hin; [destruct Hin|].
  cbn [map fold_left].
  destruct Hin as [->|Hin].
  - destruct (addterm_new (terms acc) v 1%Q) as [u [Hu [Hn Hor]]].
    exists u. split; [|split; [exact Hn|]].
    + apply fold_expr_add_In. exact Hu.
    + destruct Hor as [->|Hacc]; [left; left; reflexivity | right; exact Hacc].
  - destruct (IH (expr_add acc (expr_of_var v0)) Hin) as [u [Hu [Hn Hor]]].
    exists u. split; [exact Hu | split; [exact Hn|]].
    destruct Hor as [Hvs|Hacc]; [left; right; exact Hvs|].
    apply (addterm_In_inv (terms acc) v0 1%Q) in Hacc.
    destruct Hacc as [->|Hacc]; [left; left; reflexivity | right; exact Hacc].
Qed.

(** Every variable summed by [lpSum] appears in the sum under its name, as
    one of the summed variables. *)
Lemma lpSum_vars_In (vs : list LpVariable) (v : LpVariable) :
  In v vs ->
  exists u, In u (map fst (terms (lpSum (map expr_of_var vs))))
            /\ name u = name v /\ In u vs.
Proof.
  intros Hin. unfold lpSum.
  destruct (fold_lpSum_vars_In vs expr_zero v Hin) as [u [Hu [Hn Hor]]].
  exists u. split; [exact Hu | split; [exact Hn|]].
  destruct Hor as [H|[]]. exact H.
Qed.

End LpSumVars.

(** ** Adding constraints in a loop *)

Section AddConstraints.

Lemma add_constraints_app (p : LpProblem) (cs1 cs2 : list LpConstraint) :
  add_constraints p (cs1 ++ cs2) = add_constraints (add_constraints p cs1) cs2.
Proof. unfold add_constraints. apply fold_left_app. Qed.

Lemma add_constraints_nil (p : LpProblem) : add_constraints p [] = p.
Proof. reflexivity. Qed.

Lemma add_constraints_one (p : LpProblem) (c : LpConstraint) :
  add_constraints p [c] = add_constraint p c.
Proof. reflexivity. Qed.

Lemma constraints_add_constraints (p : LpProblem) (cs : list LpConstraint) :
  constraints (add_constraints p cs) = constraints p ++ cs.
Proof.
  unfold add_constraints.
  revert p. induction cs as [|c cs IH]; intros p; cbn [fold_left].
  - rewrite app_nil_r. reflexivity.
  - rewrite IH. cbn [add_constraint constraints].
    rewrite <- app_assoc. reflexivity.
Qed.

Lemma objective_add_constraints (p : LpProblem) (cs : list LpConstraint) :
  objective (add_constraints p cs) = objective p.
Proof.
  unfold add_constraints.
  revert p. induction cs as [|c cs IH]; intros p; cbn [fold_left].
  - reflexivity.
  - rewrite IH. reflexivity.
Qed.

Lemma prob_sense_add_constraints (p : LpProblem) (cs : list LpConstraint) :
  prob_sense (add_constraints p cs) = prob_sense p.
Proof.
  unfold add_constraints.
  revert p. induction cs as [|c cs IH]; intros p; cbn [fold_left].
  - reflexivity.
  - rewrite IH. reflexivity.
Qed.

Lemma foldM_add_constraints {A} (f : LpProblem -> A -> res LpProblem)
      (g : A -> list LpConstraint) (l : list A) :
  (forall a p, In a l -> f p a = Ok (add_constraints p (g a))) ->
  forall p, foldM f l p = Ok (add_constraints p (flat_map g l)).
Proof.
  induction l as [|a l IH]; intros Hf p; simpl.
  - reflexivity.
  - rewrite Hf by (left; reflexivity). simpl.
    rewrite IH by (intros; apply Hf; right; assumption).
    rewrite add_constraints_app. reflexivity.
Qed.

Lemma flat_map_singleton {A B} (f : A -> B) (l : list A) :
  flat_map (fun a => [f a]) l = map f l.
Proof. induction l as [|a l IH]; simpl; [|rewrite IH]; reflexivity. Qed.

End AddConstraints.

(** ** The inventory allocation model *)

Section InventoryModel.

Lemma wf_inventory_data (w : World) : wf (_get_inventory_data w).
Proof.
  unfold _get_inventory_data.
  apply (wf_fold_setitem item_id
           (fun item => {| ii_part_number := part_number item;
                           ii_current_stock := current_stock item;
                           ii_unit_cost := unit_cost item;
                           ii_reorder_point := reorder_point item |})).
  constructor.
Qed.

Lemma wf_production_requirements (w : World) : wf (_get_production_requirements w).
Proof.
  unfold _get_production_requirements.
  match goal with
  | |- wf (fold_left (fun d x => setitem d (line_id x) (@?v x)) _ _) =>
      apply (wf_fold_setitem line_id v)
  end.
  constructor.
Qed.

Variable inventory_data : dict ItemInfo.
Variable production_data : dict LineReq.
Hypothesis wf_inv : wf inventory_data.
Hypothesis wf_prod : wf production_data.

Lemma allocation_variables_eq :
  allocation_variables inventory_data production_data
  = map (fun i => (i, map (fun l => (l, alloc_var i l)) (keys production_data)))
        (keys inventory_data).
Proof.
  unfold allocation_variables.
  rewrite (build_from_keys
             (fun item_id =>
                fold_left
                  (fun row line_id => setitem row line_id (alloc_var item_id line_id))
                  (keys production_data) [])) by exact wf_inv.
  apply map_ext. intros i. f_equal.
  apply (build_from_keys (fun l => alloc_var i l)). exact wf_prod.
Qed.

Lemma getitem2_alloc (i l : Z) :
  In i (keys inventory_data) -> In l (keys production_data) ->
  getitem2 (allocation_variables inventory_data production_data) i l
  = Ok (alloc_var i l).
Proof.
  intros Hi Hl. rewrite allocation_variables_eq.
  unfold getitem2, getitem.
  match goal with
  | |- context [@get ?V ?d i] =>
      assert (E : @get V d i
                  = Some (map (fun l => (l, alloc_var i l)) (keys production_data)))
  end.
  { apply (get_map_keys
             (fun i => map (fun l => (l, alloc_var i l)) (keys production_data))).
    exact Hi. }
  rewrite E. cbn [res_bind].
  assert (E' : get (map (fun l => (l, alloc_var i l)) (keys production_data)) l
               = Some (alloc_var i l)).
  { apply (get_map_keys (fun l => alloc_var i l)). exact Hl. }
  rewrite E'. reflexivity.
Qed.

Lemma contains_allocation_vars (i : Z) :
  contains (allocation_variables inventory_data production_data) i
  = contains inventory_data i.
Proof.
  rewrite allocation_variables_eq.
  destruct (contains inventory_data i) eqn:E.
  - apply contains_In. rewrite keys_map_keys. apply contains_In. exact E.
  - apply contains_false. rewrite keys_map_keys. apply contains_false. exact E.
Qed.

Lemma In_fst_keys {V} (d : dict V) (k : Z) (v : V) : In (k, v) d -> In k (keys d).
Proof. intros H. change k with (fst (k, v)). apply in_map. exact H. Qed.

Lemma stock_constraints_ok (p : LpProblem) :
  stock_constraints inventory_data production_data
    (allocation_variables inventory_data production_data) p
  = Ok (add_constraints p (map (stock_constraint production_data) inventory_data)).
Proof.
  unfold stock_constraints.
  rewrite <- flat_map_singleton.
  apply foldM_add_constraints.
  intros [i info] q Hin.
  rewrite (mapM_pure _ (alloc_var i)).
  - reflexivity.
  - intros l Hl. apply getitem2_alloc; [|exact Hl].
    apply (In_fst_keys _ _ _ Hin).
Qed.

Lemma requirement_constraints_ok (p : LpProblem) :
  requirement_constraints production_data
    (allocation_variables inventory_data production_data) p
  = Ok (add_constraints p
          (flat_map (line_requirement_constraints inventory_data) production_data)).
Proof.
  unfold requirement_constraints.
  apply foldM_add_constraints.
  intros [l line] q Hin.
  unfold line_requirement_constraints. cbn [fst snd].
  apply foldM_add_constraints.
  intros [i m] q' Hreq. cbn [fst snd].
  rewrite contains_allocation_vars.
  destruct (contains inventory_data i) eqn:E.
  - rewrite getitem2_alloc.
    + reflexivity.
    + apply contains_In. exact E.
    + apply (In_fst_keys _ _ _ Hin).
  - reflexivity.
Qed.

End InventoryModel.

(** ** Objectives accumulated in a loop *)

Section ObjectiveLoops.

Lemma foldM_value {A} (f : LpAffineExpression -> A -> res LpAffineExpression)
      (h : Valuation -> A -> Q) (l : list A) :
  (forall a acc, In a l ->
     exists r, f acc a = Ok r
               /\ forall vals, (value vals r == value vals acc + h vals a)%Q) ->
  forall acc,
    exists r, foldM f l acc = Ok r
              /\ forall vals,
                   (value vals r
                    == value vals acc
                       + PyNum.sumQ (map (h vals) l))%Q.
Proof.
  induction l as [|a l IH]; intros Hf acc.
  - exists acc. split; [reflexivity|]. intros vals. simpl. ring.
  - destruct (Hf a acc (or_introl eq_refl)) as [r1 [E1 V1]].
    destruct (IH (fun a' acc' Hin => Hf a' acc' (or_intror Hin)) r1)
      as [r [E V]].
    exists r. split.
    + simpl. rewrite E1. simpl. exact E.
    + intros vals. rewrite V, V1. simpl map. rewrite sumQ_cons. ring.
Qed.

End ObjectiveLoops.

Section InventoryModelSpec.

Variable inventory_data : dict ItemInfo.
Variable production_data : dict LineReq.
Hypothesis wf_inv : wf inventory_data.
Hypothesis wf_prod : wf production_data.

Lemma allocation_objective_ok :
  exists obj,
    allocation_objective inventory_data production_data
      (allocation_variables inventory_data production_data) = Ok obj
    /\ forall vals,
         (value vals obj
          == allocation_cost inventory_data production_data vals)%Q.
Proof.
  unfold allocation_objective, allocation_cost.
  match goal with
  | |- exists obj, foldM ?f ?l ?acc = Ok obj /\ _ =>
      assert (H : forall a acc0, In a l ->
                exists r, f acc0 a = Ok r
                          /\ forall vals,
                               (value vals r
                                == value vals acc0
                                   + item_allocation_cost production_data vals a)%Q);
      [ | destruct (foldM_value f (item_allocation_cost production_data) l H acc)
            as [obj [E V]] ]
  end.
  - intros [i info] acc Hin. unfold item_allocation_cost. cbn [fst snd].
    apply (foldM_value _
             (fun vals l => (ii_unit_cost info * vals (alloc_ i l)
                             + (1 # 10) * ii_unit_cost info * vals (alloc_ i l))%Q)).
    intros l acc' Hl.
    rewrite (getitem2_alloc inventory_data production_data wf_inv wf_prod i l
               (In_fst_keys _ _ _ Hin) Hl).
    cbn [res_bind]. eexists. split; [reflexivity|].
    intros vals. rewrite !value_expr_add, !value_var_scale.
    change (value_var vals (alloc_var i l)) with (vals (alloc_ i l)). ring.
  - exists obj. split; [exact E|].
    intros vals. rewrite V, value_expr_zero. ring.
Qed.

Lemma inventory_allocation_model_ok :
  exists p,
    inventory_allocation_model inventory_data production_data
    = Ok (p, allocation_variables inventory_data production_data)
    /\ constraints p = inventory_constraints inventory_data production_data
    /\ prob_sense p = LpMinimize
    /\ forall vals,
         (value vals (objective p)
          == allocation_cost inventory_data production_data vals)%Q.
Proof.
  destruct allocation_objective_ok as [obj [E V]].
  unfold inventory_allocation_model. rewrite E. cbn [res_bind].
  rewrite (stock_constraints_ok inventory_data production_data wf_inv wf_prod).
  cbn [res_bind].
  rewrite (requirement_constraints_ok inventory_data production_data wf_inv wf_prod).
  cbn [res_bind].
  eexists. split; [reflexivity|].
  rewrite !constraints_add_constraints, !objective_add_constraints,
          !prob_sense_add_constraints.
  split; [|split].
  - reflexivity.
  - reflexivity.
  - exact V.
Qed.

End InventoryModelSpec.

(** ** Running monadic code *)

Section MonadFacts.

Lemma bind_ok_inv {A B} (m : M A) (k : A -> M B) (w w' : World) (b : B) :
  bind m k w = (Ok b, w') ->
  exists a w1, m w = (Ok a, w1) /\ k a w1 = (Ok b, w').
Proof.
  unfold bind. destruct (m w) as [[a|e] w1]; intros H.
  - exists a, w1. split; [reflexivity | exact H].
  - discriminate H.
Qed.

Lemma try_except_reraise {A} (m : M A) (w : World) :
  try_except m (fun e => raise e) w = m w.
Proof. unfold try_except, raise. destruct (m w) as [[a|e] w1]; reflexivity. Qed.

Lemma session_commit_cases (w : World) :
  (session_commit w = (Ok tt, flush (set_faults (tl (faults w)) w))
   /\ hd false (faults w) = false)
  \/ (session_commit w = (Raise SQLAlchemyError, set_faults (tl (faults w)) w)
      /\ hd false (faults w) = true).
Proof.
  unfold session_commit, bind, next_fault, modify, raise.
  destruct w as [ii pl pr ra orr pe fs now sc]. cbn [faults].
  destruct fs as [|[|] fs]; cbn [hd tl]; auto.
Qed.

Lemma get_db_session_ok_inv {A} (body : M A) (w w' : World) (a : A) :
  get_db_session body w = (Ok a, w') ->
  exists w1 w2,
    body (set_pending [] w) = (Ok a, w1)
    /\ session_commit w1 = (Ok tt, w2)
    /\ w' = set_pending [] w2.
Proof.
  unfold get_db_session, try_finally, try_except, session_close,
         session_rollback.
  unfold bind at 1. unfold modify at 1. cbn beta iota.
  unfold bind at 1.
  destruct (body (set_pending [] w)) as [[a1|e] w1].
  - unfold bind at 1.
    destruct (session_commit w1) as [[[]|e] w2] eqn:Ec.
    + unfold ret, modify. intros [= <- <-].
      exists w1, w2. auto.
    + unfold bind, modify, raise. intros [=].
  - unfold bind, modify, raise. intros [=].
Qed.

End MonadFacts.

(** ** What a successful inventory optimization went through *)

Section InventoryRun.

Lemma optimize_inventory_allocation_success
      (cbc : Solver) (w w' : World) (s : AllocationSuccess) :
  optimize_inventory_allocation cbc w = (Ok (success s), w') ->
  exists p vars vals,
    is_empty (_get_inventory_data w) = false
    /\ is_empty (_get_production_requirements w) = false
    /\ inventory_allocation_model (_get_inventory_data w)
                                  (_get_production_requirements w)
       = Ok (p, vars)
    /\ cbc p = (LpStatusOptimal, vals)
    /\ _extract_allocation_results vals vars (_get_inventory_data w)
                                   (_get_production_requirements w)
       = Ok (allocations s)
    /\ as_objective_value s = value vals (objective p).
Proof.
  unfold optimize_inventory_allocation. rewrite try_except_reraise.
  intros H. apply get_db_session_ok_inv in H.
  destruct H as [w1 [w2 [Hbody _]]].
  apply bind_ok_inv in Hbody. destruct Hbody as [inv [wa [Hinv Hbody]]].
  unfold gets in Hinv. injection Hinv as <- <-.
  apply bind_ok_inv in Hbody. destruct Hbody as [prod [wb [Hprod Hbody]]].
  unfold gets in Hprod. injection Hprod as <- <-.
  change (_get_inventory_data (set_pending [] w)) with (_get_inventory_data w) in *.
  change (_get_production_requirements (set_pending [] w))
    with (_get_production_requirements w) in *.
  destruct (is_empty (_get_inventory_data w)) eqn:Ei;
    [discriminate Hbody|].
  destruct (is_empty (_get_production_requirements w)) eqn:Ep;
    [discriminate Hbody|].
  cbn [orb] in Hbody.
  apply bind_ok_inv in Hbody. destruct Hbody as [[p vars] [wc [Hmodel Hbody]]].
  unfold lift in Hmodel. injection Hmodel as Hmodel <-.
  apply bind_ok_inv in Hbody. destruct Hbody as [[st vals] [wd [Hsolve Hbody]]].
  unfold solve, bind, modify, ret in Hsolve. injection Hsolve as Hsolve <-.
  destruct st; cbn [is_optimal] in Hbody; try discriminate Hbody.
  apply bind_ok_inv in Hbody. destruct Hbody as [res [we [Hext Hbody]]].
  unfold lift in Hext. injection Hext as Hext <-.
  apply bind_ok_inv in Hbody. destruct Hbody as [[] [wf0 [_ Hbody]]].
  apply bind_ok_inv in Hbody. destruct Hbody as [[] [wg [_ Hbody]]].
  unfold ret in Hbody. injection Hbody as <- <-.
  exists p, vars, vals. cbn [allocations as_objective_value]. auto 10.
Qed.

End InventoryRun.

(** ** Extraction of the allocation *)

Section Extraction.

Lemma get_map_entries {V W} (g : Z * V -> W) (d : dict V) (k : Z) (v : V) :
  wf d -> In (k, v) d ->
  get (map (fun e => (fst e, g e)) d) k = Some (g (k, v)).
Proof.
  unfold wf. induction d as [|[k' v'] d IH]; simpl; [tauto|].
  intros Hnd [Heq|Hin].
  - inversion Heq; subst. rewrite Z.eqb_refl. reflexivity.
  - inversion Hnd as [|? ? Hni Hnd']; subst.
    destruct (Z.eqb k k') eqn:E.
    + apply Z.eqb_eq in E. subst. exfalso. apply Hni.
      apply (In_fst_keys _ _ _ Hin).
    + apply IH; assumption.
Qed.

Lemma keys_map_entries {V W} (g : Z * V -> W) (d : dict V) :
  keys (map (fun e => (fst e, g e)) d) = keys d.
Proof. unfold keys. rewrite map_map. reflexivity. Qed.

Variable vals : Valuation.
Variable inventory_data : dict ItemInfo.
Variable production_data : dict LineReq.
Hypothesis wf_inv : wf inventory_data.
Hypothesis wf_prod : wf production_data.

Lemma keys_extracted_row_incl (item : ItemInfo) (entries : dict LineReq) (i k : Z) :
  In k (keys (extracted_row vals item entries i)) -> In k (keys entries).
Proof.
  unfold extracted_row, keys.
  induction entries as [|[l line] entries IH]; simpl; [tauto|].
  destruct (PyNum.Qlt_bool 0 (vals (alloc_ i l))); simpl; tauto.
Qed.

Lemma extract_row_ok (i : Z) (item : ItemInfo) :
  get inventory_data i = Some item ->
  forall (entries : dict LineReq) (acc : dict AllocEntry),
    (forall e, In e entries -> get production_data (fst e) = Some (snd e)) ->
    NoDup (keys acc ++ keys entries) ->
    foldM
      (fun by_line '(line_id, v) =>
         if PyNum.Qlt_bool 0 (value_var vals v)
         then
           try! item := getitem inventory_data i in
           try! line := getitem production_data line_id in
           Ok (setitem by_line line_id
                 {| allocated_quantity := PyNum.int (value_var vals v);
                    item_info := item;
                    line_info := line |})
         else Ok by_line)
      (map (fun l => (l, alloc_var i l)) (keys entries)) acc
    = Ok (acc ++ extracted_row vals item entries i).
Proof.
  intros Hitem. induction entries as [|[l line] entries IH]; intros acc Hget Hnd.
  - simpl. rewrite app_nil_r. reflexivity.
  - cbn [keys map fst foldM].
    change (value_var vals (alloc_var i l)) with (vals (alloc_ i l)).
    unfold extracted_row. cbn [flat_map fst snd].
    fold (extracted_row vals item entries i).
    assert (Hnd' : forall acc' : dict AllocEntry,
                     keys acc' = keys acc \/ keys acc' = keys acc ++ [l] ->
                     NoDup (keys acc' ++ keys entries)).
    { intros acc' [E|E]; rewrite E.
      - cbn [keys map fst] in Hnd. apply NoDup_remove_1 in Hnd. exact Hnd.
      - cbn [keys map fst] in Hnd. rewrite <- app_assoc. exact Hnd. }
    destruct (PyNum.Qlt_bool 0 (vals (alloc_ i l))) eqn:Epos.
    + unfold getitem at 1. rewrite Hitem. cbn [res_bind].
      unfold getitem at 1.
      pose proof (Hget (l, line) (or_introl eq_refl)) as Hl.
      cbn [fst snd] in Hl. rewrite Hl. cbn [res_bind].
      rewrite keys_setitem_new.
      * rewrite IH.
        -- rewrite <- app_assoc. reflexivity.
        -- intros e He. apply Hget. right; exact He.
        -- apply Hnd'. right. unfold keys. rewrite map_app. reflexivity.
      * cbn [keys map fst] in Hnd. apply NoDup_remove_2 in Hnd.
        intros Hin. apply Hnd. apply in_or_app. left; exact Hin.
    + cbn [res_bind]. rewrite IH.
      * reflexivity.
      * intros e He. apply Hget. right; exact He.
      * apply Hnd'. left; reflexivity.
Qed.

Lemma extract_rows_ok :
  forall (es : dict ItemInfo) (acc : dict (dict AllocEntry)),
    (forall e, In e es -> get inventory_data (fst e) = Some (snd e)) ->
    NoDup (keys acc ++ keys es) ->
    foldM
      (fun results '(item_id, row) =>
         try! by_line :=
           foldM
             (fun by_line '(line_id, v) =>
                if PyNum.Qlt_bool 0 (value_var vals v)
                then
                  try! item := getitem inventory_data item_id in
                  try! line := getitem production_data line_id in
                  Ok (setitem by_line line_id
                        {| allocated_quantity := PyNum.int (value_var vals v);
                           item_info := item;
                           line_info := line |})
                else Ok by_line)
             row [] in
         Ok (setitem results item_id by_line))
      (map (fun i => (i, map (fun l => (l, alloc_var i l)) (keys production_data)))
           (keys es))
      acc
    = Ok (acc ++ map (fun e => (fst e,
                                extracted_row vals (snd e) production_data (fst e)))
                     es).
Proof.
  induction es as [|[i item] es IH]; intros acc Hget Hnd.
  - simpl. rewrite app_nil_r. reflexivity.
  - cbn [keys map fst snd foldM].
    pose proof (Hget (i, item) (or_introl eq_refl)) as Hi. cbn [fst snd] in Hi.
    rewrite (extract_row_ok i item Hi production_data []).
    + cbn [res_bind app].
      rewrite keys_setitem_new.
      * rewrite IH.
        -- rewrite <- app_assoc. reflexivity.
        -- intros e He. apply Hget. right; exact He.
        -- unfold keys. rewrite map_app. cbn [map fst].
           rewrite <- app_assoc. exact Hnd.
      * cbn [keys map fst] in Hnd. apply NoDup_remove_2 in Hnd.
        intros Hin. apply Hnd. apply in_or_app. left; exact Hin.
    + intros [l line] He. apply In_get; [exact wf_prod | exact He].
    + exact wf_prod.
Qed.

Lemma extract_allocation_results_ok :
  _extract_allocation_results
    vals (allocation_variables inventory_data production_data)
    inventory_data production_data
  = Ok (map (fun e => (fst e,
                       extracted_row vals (snd e) production_data (fst e)))
            inventory_data).
Proof.
  unfold _extract_allocation_results. cbv zeta.
  rewrite (allocation_variables_eq inventory_data production_data wf_inv wf_prod).
  rewrite (extract_rows_ok inventory_data []).
  - reflexivity.
  - intros [i item] He. apply In_get; [exact wf_inv | exact He].
  - exact wf_inv.
Qed.

End Extraction.

(** ** Variables of built expressions *)

Section TermVars.

Lemma foldM_invariant {A B} (P : B -> Prop) (f : B -> A -> res B) (l : list A) :
  (forall a b b', In a l -> P b -> f b a = Ok b' -> P b') ->
  forall b r, P b -> foldM f l b = Ok r -> P r.
Proof.
  induction l as [|a l IH]; intros Hf b r Hb; simpl.
  - intros [= <-]. exact Hb.
  - destruct (f b a) as [b'|e] eqn:E; simpl; [|discriminate].
    apply IH.
    + intros a' x x' Hin. apply Hf. right; exact Hin.
    + apply (Hf a b b'); [left; reflexivity | exact Hb | exact E].
Qed.

Lemma termvars_expr_add (e1 e2 : LpAffineExpression) (u : LpVariable) :
  In u (map fst (terms (expr_add e1 e2))) ->
  In u (map fst (terms e1)) \/ In u (map fst (terms e2)).
Proof.
  unfold expr_add. cbn [terms]. generalize (terms e1).
  induction (terms e2) as [|[v c] l IH]; intros ts; cbn [fold_left map fst snd].
  - tauto.
  - intros H. apply IH in H. destruct H as [H|H]; [|right; right; exact H].
    apply addterm_In_inv in H. destruct H as [->|H]; [right; left; reflexivity|].
    left; exact H.
Qed.

Lemma termvars_var_scale (c : Q) (v u : LpVariable) :
  In u (map fst (terms (var_scale c v))) -> u = v.
Proof.
  unfold var_scale, expr_scale. destruct (Qeq_bool c 0); simpl; [tauto|].
  intros [H|[]]. symmetry; exact H.
Qed.

Lemma termvars_fold_expr_add (es : list LpAffineExpression)
      (acc : LpAffineExpression) (u : LpVariable) :
  In u (map fst (terms (fold_left expr_add es acc))) ->
  In u (map fst (terms acc))
  \/ exists e, In e es /\ In u (map fst (terms e)).
Proof.
  revert acc. induction es as [|e es IH]; intros acc; cbn [fold_left].
  - tauto.
  - intros H. apply IH in H. destruct H as [H|[e' [He' Hu]]].
    + apply termvars_expr_add in H. destruct H as [H|H]; [left; exact H|].
      right. exists e. split; [left; reflexivity | exact H].
    + right. exists e'. split; [right; exact He' | exact Hu].
Qed.

Lemma termvars_lpSum (es : list LpAffineExpression) (u : LpVariable) :
  In u (map fst (terms (lpSum es))) ->
  exists e, In e es /\ In u (map fst (terms e)).
Proof.
  unfold lpSum. intros H. apply termvars_fold_expr_add in H.
  destruct H as [[]|H]. exact H.
Qed.

Lemma termvars_lpSum_vars (vs : list LpVariable) (u : LpVariable) :
  In u (map fst (terms (lpSum (map expr_of_var vs)))) -> In u vs.
Proof.
  intros H. apply termvars_lpSum in H. destruct H as [e [He Hu]].
  apply in_map_iff in He. destruct He as [v [<- Hv]].
  simpl in Hu. destruct Hu as [<-|[]]. exact Hv.
Qed.

End TermVars.

(** ** Feasible points of the inventory allocation model *)

Section InventoryFeasibility.

Variable inventory_data : dict ItemInfo.
Variable production_data : dict LineReq.
Hypothesis wf_inv : wf inventory_data.
Hypothesis wf_prod : wf production_data.
Variable p : LpProblem.
Hypothesis Hmodel :
  inventory_allocation_model inventory_data production_data
  = Ok (p, allocation_variables inventory_data production_data).

Lemma model_constraints :
  constraints p = inventory_constraints inventory_data production_data.
Proof.
  destruct (inventory_allocation_model_ok inventory_data production_data
              wf_inv wf_prod) as [p' [E [Hc _]]].
  rewrite Hmodel in E. injection E as <-. exact Hc.
Qed.

Lemma model_objective (vals : Valuation) :
  (value vals (objective p)
   == allocation_cost inventory_data production_data vals)%Q.
Proof.
  destruct (inventory_allocation_model_ok inventory_data production_data
              wf_inv wf_prod) as [p' [E [_ [_ Hv]]]].
  rewrite Hmodel in E. injection E as <-. apply Hv.
Qed.

Lemma model_sense : prob_sense p = LpMinimize.
Proof.
  destruct (inventory_allocation_model_ok inventory_data production_data
              wf_inv wf_prod) as [p' [E [_ [Hs _]]]].
  rewrite Hmodel in E. injection E as <-. exact Hs.
Qed.

Lemma feasible_stock (vals : Valuation) (i : Z) (info : ItemInfo) :
  feasible p vals -> In (i, info) inventory_data ->
  (PyNum.sumQ (map (fun l => vals (alloc_ i l)) (keys production_data))
   <= inject_Z (ii_current_stock info))%Q.
Proof.
  intros [Hc _] Hin.
  assert (Hmem : In (stock_constraint production_data (i, info)) (constraints p)).
  { rewrite model_constraints. unfold inventory_constraints.
    apply in_or_app. left. apply in_map. exact Hin. }
  rewrite Forall_forall in Hc. specialize (Hc _ Hmem).
  unfold holds, stock_constraint in Hc. cbn [sense lhs rhs fst snd] in Hc.
  rewrite value_lpSum_vars, map_map in Hc. exact Hc.
Qed.

Lemma feasible_var_ok (vals : Valuation) (i l : Z) :
  feasible p vals -> In i (keys inventory_data) -> In l (keys production_data) ->
  var_ok vals (alloc_var i l).
Proof.
  intros [_ Hv] Hi Hl. rewrite Forall_forall in Hv. apply Hv.
  unfold variables. apply in_or_app. right.
  destruct (In_keys _ _ Hi) as [info Hinfo].
  apply in_flat_map. exists (stock_constraint production_data (i, info)).
  split.
  - rewrite model_constraints. unfold inventory_constraints.
    apply in_or_app. left. apply in_map. exact Hinfo.
  - unfold stock_constraint. cbn [lhs fst].
    destruct (lpSum_vars_In (map (alloc_var i) (keys production_data))
                            (alloc_var i l)) as [u [Hu [Hn Hvs]]].
    + apply in_map. exact Hl.
    + apply in_map_iff in Hvs. destruct Hvs as [l' [<- Hl']].
      simpl in Hn. injection Hn as ->. exact Hu.
Qed.

Lemma feasible_nonneg (vals : Valuation) (i l : Z) :
  feasible p vals -> In i (keys inventory_data) -> In l (keys production_data) ->
  (0 <= vals (alloc_ i l))%Q.
Proof.
  intros Hf Hi Hl. destruct (feasible_var_ok vals i l Hf Hi Hl) as [H _].
  exact H.
Qed.

Lemma feasible_requirement (vals : Valuation) (l : Z) (line : LineReq) (i m : Z) :
  feasible p vals -> In (l, line) production_data ->
  In (i, m) (required_items line) -> contains inventory_data i = true ->
  (inject_Z m <= vals (alloc_ i l))%Q.
Proof.
  intros [Hc _] Hl Hreq Hi.
  assert (Hmem : In (requirement_constraint i l m) (constraints p)).
  { rewrite model_constraints. unfold inventory_constraints.
    apply in_or_app. right.
    apply in_flat_map. exists (l, line). split; [exact Hl|].
    unfold line_requirement_constraints. apply in_flat_map.
    exists (i, m). split; [exact Hreq|]. cbn [fst snd]. rewrite Hi.
    left; reflexivity. }
  rewrite Forall_forall in Hc. specialize (Hc _ Hmem).
  unfold holds, requirement_constraint in Hc. cbn [sense lhs rhs] in Hc.
  rewrite value_expr_of_var in Hc. exact Hc.
Qed.

(** Every variable of the model is an allocation variable of an inventory
    item and a production line. *)
Lemma model_variables (u : LpVariable) :
  In u (variables p) ->
  exists i l, u = alloc_var i l
              /\ In i (keys inventory_data) /\ In l (keys production_data).
Proof.
  unfold variables. intros H. apply in_app_or in H. destruct H as [H|H].
  - (* objective *)
    revert u H.
    unfold inventory_allocation_model in Hmodel.
    destruct (allocation_objective inventory_data production_data
                (allocation_variables inventory_data production_data))
      as [obj|e] eqn:Eobj; [|discriminate Hmodel].
    cbn [res_bind] in Hmodel.
    rewrite (stock_constraints_ok inventory_data production_data wf_inv wf_prod)
      in Hmodel. cbn [res_bind] in Hmodel.
    rewrite (requirement_constraints_ok inventory_data production_data
               wf_inv wf_prod) in Hmodel. cbn [res_bind] in Hmodel.
    injection Hmodel as <-.
    rewrite !objective_add_constraints. cbn [set_objective objective].
    unfold allocation_objective in Eobj.
    revert Eobj.
    apply (foldM_invariant
             (fun obj => forall u, In u (map fst (terms obj)) ->
                exists i l, u = alloc_var i l /\ In i (keys inventory_data)
                            /\ In l (keys production_data))).
    + intros [i info] b b' Hin Hb. cbn beta iota zeta.
      apply (foldM_invariant
               (fun obj => forall u, In u (map fst (terms obj)) ->
                  exists i l, u = alloc_var i l /\ In i (keys inventory_data)
                              /\ In l (keys production_data))); [|exact Hb].
      intros l c c' Hl Hc.
      rewrite (getitem2_alloc inventory_data production_data wf_inv wf_prod i l
                 (In_fst_keys _ _ _ Hin) Hl).
      cbn [res_bind]. intros [= <-] u Hu.
      apply termvars_expr_add in Hu. destruct Hu as [Hu|Hu]; [apply Hc, Hu|].
      apply termvars_expr_add in Hu.
      destruct Hu as [Hu|Hu]; apply termvars_var_scale in Hu; subst u;
        exists i, l; (split; [reflexivity|]);
        (split; [apply (In_fst_keys _ _ _ Hin) | exact Hl]).
    + intros u [].
  - (* constraints *)
    apply in_flat_map in H. destruct H as [c [Hc Hu]].
    rewrite model_constraints in Hc. unfold inventory_constraints in Hc.
    apply in_app_or in Hc. destruct Hc as [Hc|Hc].
    + apply in_map_iff in Hc. destruct Hc as [[i info] [<- Hin]].
      unfold stock_constraint in Hu. cbn [lhs fst] in Hu.
      apply termvars_lpSum_vars in Hu.
      apply in_map_iff in Hu. destruct Hu as [l [<- Hl]].
      exists i, l. split; [reflexivity|].
      split; [apply (In_fst_keys _ _ _ Hin) | exact Hl].
    + apply in_flat_map in Hc. destruct Hc as [[l line] [Hl Hc]].
      unfold line_requirement_constraints in Hc.
      apply in_flat_map in Hc. destruct Hc as [[i m] [Hreq Hc]].
      cbn [fst snd] in Hc.
      destruct (contains inventory_data i) eqn:Ei; [|destruct Hc].
      destruct Hc as [<-|[]].
      unfold requirement_constraint in Hu. cbn [lhs] in Hu.
      simpl in Hu. destruct Hu as [<-|[]].
      exists i, l. split; [reflexivity|].
      split; [apply contains_In; exact Ei | apply (In_fst_keys _ _ _ Hl)].
Qed.

Lemma feasible_intro (vals : Valuation) :
  (forall i info, In (i, info) inventory_data ->
     (PyNum.sumQ (map (fun l => vals (alloc_ i l)) (keys production_data))
      <= inject_Z (ii_current_stock info))%Q) ->
  (forall l line i m, In (l, line) production_data ->
     In (i, m) (required_items line) -> contains inventory_data i = true ->
     (inject_Z m <= vals (alloc_ i l))%Q) ->
  (forall i l, In i (keys inventory_data) -> In l (keys production_data) ->
     (0 <= vals (alloc_ i l))%Q
     /\ exists z : Z, (vals (alloc_ i l) == inject_Z z)%Q) ->
  feasible p vals.
Proof.
  intros Hstock Hreq Hvar. split.
  - rewrite model_constraints. unfold inventory_constraints.
    apply Forall_app. split; apply Forall_forall; intros c Hc.
    + apply in_map_iff in Hc. destruct Hc as [[i info] [<- Hin]].
      unfold holds, stock_constraint. cbn [sense lhs rhs fst snd].
      rewrite value_lpSum_vars, map_map. apply (Hstock i info Hin).
    + apply in_flat_map in Hc. destruct Hc as [[l line] [Hl Hc]].
      unfold line_requirement_constraints in Hc.
      apply in_flat_map in Hc. destruct Hc as [[i m] [Hr Hc]].
      cbn [fst snd] in Hc.
      destruct (contains inventory_data i) eqn:Ei; [|destruct Hc].
      destruct Hc as [<-|[]].
      unfold holds, requirement_constraint. cbn [sense lhs rhs].
      rewrite value_expr_of_var. apply (Hreq l line i m Hl Hr Ei).
  - apply Forall_forall. intros u Hu.
    destruct (model_variables u Hu) as [i [l [-> [Hi Hl]]]].
    destruct (Hvar i l Hi Hl) as [H0 Hz].
    unfold var_ok, alloc_var. cbn [mkLpVariable lowBound upBound cat].
    split; [exact H0 | split; [exact I | exact Hz]].
Qed.

End InventoryFeasibility.

(** ** Quantities in an extracted row *)

Section RowFacts.

Variable vals : Valuation.

Lemma extracted_row_total (item : ItemInfo) (i : Z) (entries : dict LineReq) :
  (forall e, In e entries -> (0 <= vals (alloc_ i (fst e)))%Q) ->
  (inject_Z (PyNum.sumZ (map allocated_quantity
                             (values (extracted_row vals item entries i))))
   <= PyNum.sumQ (map (fun l => vals (alloc_ i l)) (keys entries)))%Q.
Proof.
  induction entries as [|[l line] entries IH]; intros Hpos.
  - apply Qle_refl.
  - assert (H0 : (0 <= vals (alloc_ i l))%Q)
      by (apply (Hpos (l, line)); left; reflexivity).
    assert (IH' := IH (fun e He => Hpos e (or_intror He))).
    unfold extracted_row in *. cbn [flat_map fst snd keys map].
    rewrite sumQ_cons.
    destruct (PyNum.Qlt_bool 0 (vals (alloc_ i l))).
    + cbn [app values map snd allocated_quantity PyNum.sumZ fold_right].
      rewrite inject_Z_plus.
      pose proof (int_le _ H0).
      unfold values, keys, PyNum.sumZ in IH'. lra.
    + cbn [app]. unfold keys in IH'. lra.
Qed.

Lemma get_extracted_row (item : ItemInfo) (i : Z) (entries : dict LineReq)
      (l : Z) (line : LineReq) :
  wf entries -> In (l, line) entries ->
  get (extracted_row vals item entries i) l
  = if PyNum.Qlt_bool 0 (vals (alloc_ i l))
    then Some {| allocated_quantity := PyNum.int (vals (alloc_ i l));
                 item_info := item; line_info := line |}
    else None.
Proof.
  unfold wf. induction entries as [|[l0 line0] entries IH]; [intros _ []|].
  intros Hnd Hin. inversion Hnd as [|? ? Hni Hnd']; subst.
  unfold extracted_row. cbn [flat_map fst snd].
  fold (extracted_row vals item entries i).
  destruct Hin as [Heq|Hin].
  - inversion Heq; subst l0 line0.
    assert (Hnone : get (extracted_row vals item entries i) l = None).
    { apply get_None_notin. intros Hk. apply Hni.
      apply (keys_extracted_row_incl vals item entries i l Hk). }
    destruct (PyNum.Qlt_bool 0 (vals (alloc_ i l))).
    + cbn [app get]. rewrite Z.eqb_refl. reflexivity.
    + cbn [app]. exact Hnone.
  - assert (Hne : l <> l0).
    { intros ->. apply Hni. apply (In_fst_keys _ _ _ Hin). }
    apply Z.eqb_neq in Hne.
    destruct (PyNum.Qlt_bool 0 (vals (alloc_ i l0))).
    + cbn [app get]. rewrite Hne. apply IH; assumption.
    + cbn [app]. apply IH; assumption.
Qed.

End RowFacts.

(** ** Successful inventory optimizations *)

Section InventorySuccess.

(** What a successful call returns, in closed form. *)
Lemma inventory_success_shape (cbc : Solver) (w w' : World) (s : AllocationSuccess) :
  optimize_inventory_allocation cbc w = (Ok (success s), w') ->
  exists p vals,
    inventory_allocation_model (_get_inventory_data w)
                               (_get_production_requirements w)
    = Ok (p, allocation_variables (_get_inventory_data w)
                                  (_get_production_requirements w))
    /\ cbc p = (LpStatusOptimal, vals)
    /\ allocations s
       = map (fun e => (fst e,
                        extracted_row vals (snd e)
                                      (_get_production_requirements w) (fst e)))
             (_get_inventory_data w).
Proof.
  intros Hrun.
  apply optimize_inventory_allocation_success in Hrun.
  destruct Hrun as [p [vars [vals [_ [_ [Hm [Hs [Hx _]]]]]]]].
  pose proof (wf_inventory_data w) as Hwi.
  pose proof (wf_production_requirements w) as Hwp.
  destruct (inventory_allocation_model_ok _ _ Hwi Hwp) as [p' [E _]].
  rewrite Hm in E. injection E as <- ->.
  exists p, vals. split; [exact Hm|]. split; [exact Hs|].
  rewrite (extract_allocation_results_ok vals _ _ Hwi Hwp) in Hx.
  injection Hx as <-. reflexivity.
Qed.

Lemma optimal_feasible (p : LpProblem) (vals : Valuation) :
  optimal p vals -> feasible p vals.
Proof. intros [H _]. exact H. Qed.

Lemma solver_sound_feasible (cbc : Solver) (p : LpProblem) :
  solver_sound_on cbc p -> solver_feasible_on cbc p.
Proof. intros H E. apply optimal_feasible, H, E. Qed.

Lemma feasibleb_sound (p : LpProblem) (vals : Valuation) :
  feasibleb p vals = true -> feasible p vals.
Proof.
  unfold feasibleb, feasible. rewrite andb_true_iff, !forallb_forall.
  intros [Hc Hv]. split; apply Forall_forall.
  - intros c Hin. specialize (Hc c Hin). unfold holdsb in Hc. unfold holds.
    destruct (sense c).
    + apply Qle_bool_iff, Hc.
    + apply Qeq_bool_iff, Hc.
    + apply Qle_bool_iff, Hc.
  - intros v Hin. specialize (Hv v Hin). unfold var_okb in Hv. unfold var_ok.
    rewrite !andb_true_iff in Hv. destruct Hv as [[Hlo Hup] Hint].
    split; [|split].
    + destruct (lowBound v); [apply Qle_bool_iff, Hlo | exact I].
    + destruct (upBound v); [apply Qle_bool_iff, Hup | exact I].
    + destruct (cat v); try exact I.
      exists (Qfloor (value_var vals v)). apply Qeq_bool_iff, Hint.
Qed.

End InventorySuccess.

(* ================================================================== *)
(** * The claims *)

(** ** C1: allocations stay within stock *)

(** C1.  For every successful result of [optimize_inventory_allocation], and
    for every item of the inventory snapshot read when the model was built,
    the sum over all production lines of the allocated quantities of that
    item in the returned allocations is at most the item's [current_stock]
    in the snapshot.  Of the solver it is only assumed that status
    [Optimal] comes with feasible values of the model that was built. *)
Theorem C1_allocations_within_stock
        (cbc : Solver) (w w' : World) (s : AllocationSuccess) :
  (forall p vars,
     inventory_allocation_model (_get_inventory_data w)
                                (_get_production_requirements w) = Ok (p, vars) ->
     solver_feasible_on cbc p) ->
  optimize_inventory_allocation cbc w = (Ok (success s), w') ->
  forall item_id info,
    get (_get_inventory_data w) item_id = Some info ->
    total_allocated (allocations s) item_id <= ii_current_stock info.
Proof.
  intros Hsolver Hrun i info Hget.
  destruct (inventory_success_shape cbc w w' s Hrun) as [p [vals [Hm [Hs Hx]]]].
  pose proof (wf_inventory_data w) as Hwi.
  pose proof (wf_production_requirements w) as Hwp.
  assert (Hf : feasible p vals).
  { specialize (Hsolver _ _ Hm). unfold solver_feasible_on in Hsolver.
    rewrite Hs in Hsolver. apply Hsolver. reflexivity. }
  pose proof (get_Some_In _ _ _ Hget) as Hin.
  unfold total_allocated. rewrite Hx.
  rewrite (get_map_entries
             (fun e => extracted_row vals (snd e)
                                     (_get_production_requirements w) (fst e))
             _ i info Hwi Hin).
  cbn [fst snd].
  rewrite Zle_Qle.
  eapply Qle_trans.
  - apply extracted_row_total. intros [l line] Hl. cbn [fst].
    apply (feasible_nonneg _ _ Hwi Hwp p Hm vals i l Hf).
    + apply (In_fst_keys _ _ _ Hin).
    + apply (In_fst_keys _ _ _ Hl).
  - apply (feasible_stock _ _ Hwi Hwp p Hm vals i info Hf Hin).
Qed.

(** The sample world: the call succeeds and item 1 stays within its stock
    of 100. *)
Lemma C1_witness :
  exists s w',
    optimize_inventory_allocation cbc_thirty world_one_item = (Ok (success s), w')
    /\ total_allocated (allocations s) 1 <= 100.
Proof.
  eexists. eexists. split.
  - vm_compute. reflexivity.
  - eapply C1_allocations_within_stock
      with (cbc := cbc_thirty) (w := world_one_item)
           (info := {| ii_part_number := "SEAT-001"; ii_current_stock := 100;
                       ii_unit_cost := 10%Q; ii_reorder_point := 50 |}).
    + intros p vars Hm. vm_compute in Hm. injection Hm as <- _.
      intros _. apply feasibleb_sound. vm_compute. reflexivity.
    + vm_compute. reflexivity.
    + vm_compute. reflexivity.
Defined.

(** ** Requirements read from the database *)

Section RequirementShape.

Lemma setitem_Forall {V} (P : Z * V -> Prop) (d : dict V) (k : Z) (v : V) :
  Forall P d -> P (k, v) -> Forall P (setitem d k v).
Proof.
  induction d as [|[k' v'] d IH]; simpl; intros Hd Hv.
  - constructor; [exact Hv | constructor].
  - inversion Hd; subst. destruct (Z.eqb k k').
    + constructor; assumption.
    + constructor; [assumption | apply IH; assumption].
Qed.

Lemma fold_setitem_Forall {V X} (P : Z * V -> Prop) (key : X -> Z) (val : X -> V)
      (l : list X) (d : dict V) :
  Forall P d -> (forall x, In x l -> P (key x, val x)) ->
  Forall P (fold_left (fun d x => setitem d (key x) (val x)) l d).
Proof.
  revert d. induction l as [|x l IH]; simpl; intros d Hd Hl.
  - exact Hd.
  - apply IH.
    + apply setitem_Forall; [exact Hd | apply Hl; left; reflexivity].
    + intros y Hy. apply Hl. right; exact Hy.
Qed.

(** The requirements of a line are empty or name the items 1 and 2. *)
Lemma wf_required_items (w : World) (l : Z) (line : LineReq) :
  In (l, line) (_get_production_requirements w) -> wf (required_items line).
Proof.
  intros Hin.
  assert (H : Forall (fun e : Z * LineReq => wf (required_items (snd e)))
                     (_get_production_requirements w)).
  { unfold _get_production_requirements.
    match goal with
    | |- Forall _ (fold_left (fun d x => setitem d (line_id x) (@?v x)) _ _) =>
        apply (fold_setitem_Forall _ line_id v)
    end.
    - constructor.
    - intros x _. cbn [snd required_items].
      destruct (recent_records_of w x 7).
      + constructor.
      + unfold wf. simpl. constructor; [simpl; intros [H|[]]; discriminate H|].
        constructor; [simpl; tauto | constructor]. }
  rewrite Forall_forall in H. apply (H (l, line) Hin).
Qed.

End RequirementShape.

(** ** One item, one line *)

Section OneItemOneLine.

Variable info : ItemInfo.
Variable l : Z.
Variable line : LineReq.
Hypothesis Hstock : ii_current_stock info = 100.
Hypothesis Hcost : (ii_unit_cost info == 10)%Q.
Hypothesis Hreq : get (required_items line) 1 = Some 30.
Hypothesis Hwf : wf (required_items line).
Variable p : LpProblem.
Hypothesis Hmodel :
  inventory_allocation_model [(1, info)] [(l, line)]
  = Ok (p, allocation_variables [(1, info)] [(l, line)]).

Lemma wf_singleton {V} (k : Z) (v : V) : wf [(k, v)].
Proof. unfold wf. simpl. constructor; [simpl; tauto | constructor]. Qed.

Lemma one_item_objective (vals : Valuation) :
  (value vals (objective p) == 11 * vals (alloc_ 1 l))%Q.
Proof.
  rewrite (model_objective _ _ (wf_singleton 1 info) (wf_singleton l line) p Hmodel).
  unfold allocation_cost, item_allocation_cost.
  cbn [map keys fst snd]. rewrite !sumQ_cons, !sumQ_nil.
  rewrite Hcost. ring.
Qed.

Lemma one_item_lower_bound (vals : Valuation) :
  feasible p vals -> (30 <= vals (alloc_ 1 l))%Q.
Proof.
  intros Hf.
  apply (feasible_requirement _ _ (wf_singleton 1 info) (wf_singleton l line)
           p Hmodel vals l line 1 30 Hf).
  - left; reflexivity.
  - apply get_Some_In. exact Hreq.
  - reflexivity.
Qed.

Lemma one_item_thirty_feasible : feasible p (fun _ => 30%Q).
Proof.
  apply (feasible_intro _ _ (wf_singleton 1 info) (wf_singleton l line) p Hmodel).
  - intros i info' [[= <- <-]|[]]. rewrite Hstock.
    cbn [map keys fst]. rewrite sumQ_cons, sumQ_nil.
    apply Qle_bool_iff. reflexivity.
  - intros l' line' i m [[= <- <-]|[]] Hin Hc.
    assert (i = 1).
    { unfold contains in Hc. simpl in Hc.
      destruct (Z.eqb i 1) eqn:E; [apply Z.eqb_eq; exact E | discriminate Hc]. }
    subst i. rewrite (In_get _ _ _ Hwf Hin) in Hreq. injection Hreq as ->.
    apply Qle_refl.
  - intros i l' _ _. split.
    + apply Qle_bool_iff. reflexivity.
    + exists 30. reflexivity.
Qed.

Lemma one_item_thirty_optimal : optimal p (fun _ => 30%Q).
Proof.
  split; [exact one_item_thirty_feasible|].
  intros vals' Hf.
  rewrite (model_sense _ _ (wf_singleton 1 info) (wf_singleton l line) p Hmodel).
  unfold better. rewrite !one_item_objective.
  pose proof (one_item_lower_bound vals' Hf). lra.
Qed.

Lemma one_item_optimum (vals : Valuation) :
  optimal p vals -> (vals (alloc_ 1 l) == 30)%Q.
Proof.
  intros [Hf Hopt].
  pose proof (one_item_lower_bound vals Hf) as Hlo.
  specialize (Hopt _ one_item_thirty_feasible).
  rewrite (model_sense _ _ (wf_singleton 1 info) (wf_singleton l line) p Hmodel)
    in Hopt.
  unfold better in Hopt. rewrite !one_item_objective in Hopt.
  apply Qle_antisym; lra.
Qed.

End OneItemOneLine.

(** ** C4: the minimal feasible allocation is the optimum *)

(** C4.  When the inventory snapshot is the single item with id 1, stock 100
    and unit cost 10, and there is exactly one production line, whose
    [required_items] demand at least 30 units of item 1, the model is built
    without error, it has an optimal solution, every optimal solution
    allocates exactly 30 units of item 1 to that line, and a successful call
    with a solver that reports an optimum only with an optimal solution
    returns an allocation of exactly 30. *)
Theorem C4_single_item_minimal_allocation
        (w : World) (info : ItemInfo) (l : Z) (line : LineReq) :
  _get_inventory_data w = [(1, info)] ->
  ii_current_stock info = 100 ->
  (ii_unit_cost info == 10)%Q ->
  _get_production_requirements w = [(l, line)] ->
  get (required_items line) 1 = Some 30 ->
  exists p vars,
    inventory_allocation_model (_get_inventory_data w)
                               (_get_production_requirements w) = Ok (p, vars)
    /\ (exists vals, optimal p vals)
    /\ (forall vals, optimal p vals -> (vals (alloc_ 1 l) == 30)%Q)
    /\ (forall cbc s w',
          solver_sound_on cbc p ->
          optimize_inventory_allocation cbc w = (Ok (success s), w') ->
          allocated_to (allocations s) 1 l = 30).
Proof.
  intros Hinv Hstock Hcost Hprod Hreq.
  assert (Hwf : wf (required_items line)).
  { apply (wf_required_items w l). rewrite Hprod. left; reflexivity. }
  destruct (inventory_allocation_model_ok
              _ _ (wf_inventory_data w) (wf_production_requirements w))
    as [p [Hm _]].
  exists p, (allocation_variables (_get_inventory_data w)
                                  (_get_production_requirements w)).
  split; [exact Hm|].
  assert (Hm1 : inventory_allocation_model [(1, info)] [(l, line)]
                = Ok (p, allocation_variables [(1, info)] [(l, line)])).
  { rewrite <- Hinv, <- Hprod. exact Hm. }
  split; [|split].
  - exists (fun _ => 30%Q).
    apply (one_item_thirty_optimal info l line Hstock Hcost Hreq Hwf p Hm1).
  - apply (one_item_optimum info l line Hstock Hcost Hreq Hwf p Hm1).
  - intros cbc s w' Hsound Hrun.
    destruct (inventory_success_shape cbc w w' s Hrun) as [p' [vals [Hm' [Hs Hx]]]].
    rewrite Hm in Hm'. injection Hm' as <-.
    assert (Hopt : optimal p vals).
    { unfold solver_sound_on in Hsound. rewrite Hs in Hsound.
      apply Hsound. reflexivity. }
    pose proof (one_item_optimum info l line Hstock Hcost Hreq Hwf p Hm1 vals Hopt)
      as H30.
    unfold allocated_to. rewrite Hx, Hinv, Hprod. cbn [map fst snd get].
    rewrite Z.eqb_refl.
    rewrite (get_extracted_row vals info 1 [(l, line)] l line
               (wf_singleton l line) (or_introl eq_refl)).
    assert (Hpos : PyNum.Qlt_bool 0 (vals (alloc_ 1 l)) = true).
    { apply Qlt_bool_iff. rewrite H30. reflexivity. }
    rewrite Hpos. cbn [allocated_quantity].
    apply int_inject_Z. exact H30.
Qed.

(** The sample world is an instance: item 1 with stock 100 and cost 10, and
    line 7 requiring 30 units of it. *)
Lemma C4_witness :
  exists p vars,
    inventory_allocation_model (_get_inventory_data world_one_item)
                               (_get_production_requirements world_one_item)
    = Ok (p, vars)
    /\ (exists vals, optimal p vals)
    /\ (forall vals, optimal p vals -> (vals (alloc_ 1 7) == 30)%Q)
    /\ (forall cbc s w',
          solver_sound_on cbc p ->
          optimize_inventory_allocation cbc world_one_item = (Ok (success s), w') ->
          allocated_to (allocations s) 1 7 = 30).
Proof.
  apply (C4_single_item_minimal_allocation
           world_one_item
           {| ii_part_number := "SEAT-001"; ii_current_stock := 100;
              ii_unit_cost := 10%Q; ii_reorder_point := 50 |}
           7
           {| lr_name := "Assembly Line 1"; lr_capacity_per_hour := 200;
              required_items := [(1, 30); (2, 22)] |}).
  - vm_compute. reflexivity.
  - reflexivity.
  - reflexivity.
  - vm_compute. reflexivity.
  - reflexivity.
Defined.

(** ** C2: minimum requirements *)

(** The sample solver answer is an optimum of the sample model. *)
Lemma cbc_thirty_sound (p : LpProblem) (vars : dict (dict LpVariable)) :
  inventory_allocation_model (_get_inventory_data world_one_item)
                             (_get_production_requirements world_one_item)
  = Ok (p, vars) ->
  solver_sound_on cbc_thirty p.
Proof.
  intros Hm _. cbn [cbc_thirty snd].
  destruct (inventory_allocation_model_ok
              _ _ (wf_inventory_data world_one_item)
              (wf_production_requirements world_one_item)) as [p' [Hm' _]].
  rewrite Hm in Hm'. injection Hm' as <- ->.
  refine (one_item_thirty_optimal
            {| ii_part_number := "SEAT-001"; ii_current_stock := 100;
               ii_unit_cost := 10%Q; ii_reorder_point := 50 |}
            7
            {| lr_name := "Assembly Line 1"; lr_capacity_per_hour := 200;
               required_items := [(1, 30); (2, 22)] |}
            eq_refl _ eq_refl _ p Hm).
  - reflexivity.
  - unfold wf. simpl. constructor; [simpl; intros [H|[]]; discriminate H|].
    constructor; [simpl; tauto | constructor].
Qed.

(** C2 as stated fails: in the sample world line 7 requires 22 units of
    item 2, which is not an active inventory item; the call succeeds on an
    optimal solution and allocates nothing of item 2 to line 7. *)
Lemma C2_counterexample :
  exists s w' line,
    (forall p vars,
       inventory_allocation_model (_get_inventory_data world_one_item)
                                  (_get_production_requirements world_one_item)
       = Ok (p, vars) ->
       solver_sound_on cbc_thirty p)
    /\ optimize_inventory_allocation cbc_thirty world_one_item
       = (Ok (success s), w')
    /\ get (_get_production_requirements world_one_item) 7 = Some line
    /\ get (required_items line) 2 = Some 22
    /\ ~ (22 <= allocated_to (allocations s) 2 7).
Proof.
  eexists. eexists. eexists.
  split; [exact cbc_thirty_sound|].
  split; [vm_compute; reflexivity|].
  split; [vm_compute; reflexivity|].
  split; [reflexivity|].
  vm_compute. intros H. apply H. reflexivity.
Qed.

(** C2 (amended).  For every successful result of
    [optimize_inventory_allocation], and for every pair (line, item) for
    which the production-requirements snapshot defines a minimum required
    quantity and whose item is among the active inventory items of the
    snapshot, the allocated quantity of that item to that line is at least
    that minimum. *)
Theorem C2_requirements_met_for_active_items
        (cbc : Solver) (w w' : World) (s : AllocationSuccess) :
  (forall p vars,
     inventory_allocation_model (_get_inventory_data w)
                                (_get_production_requirements w) = Ok (p, vars) ->
     solver_feasible_on cbc p) ->
  optimize_inventory_allocation cbc w = (Ok (success s), w') ->
  forall line_id line item_id min_required,
    get (_get_production_requirements w) line_id = Some line ->
    get (required_items line) item_id = Some min_required ->
    contains (_get_inventory_data w) item_id = true ->
    min_required <= allocated_to (allocations s) item_id line_id.
Proof.
  intros Hsolver Hrun l line i m Hl Hreq Hact.
  destruct (inventory_success_shape cbc w w' s Hrun) as [p [vals [Hm [Hs Hx]]]].
  pose proof (wf_inventory_data w) as Hwi.
  pose proof (wf_production_requirements w) as Hwp.
  assert (Hf : feasible p vals).
  { specialize (Hsolver _ _ Hm). unfold solver_feasible_on in Hsolver.
    rewrite Hs in Hsolver. apply Hsolver. reflexivity. }
  apply get_Some_In in Hl. apply get_Some_In in Hreq.
  pose proof (proj1 (contains_In _ _) Hact) as Hi.
  destruct (In_keys _ _ Hi) as [info Hinfo].
  pose proof (feasible_requirement _ _ Hwi Hwp p Hm vals l line i m Hf Hl Hreq Hact)
    as Hge.
  pose proof (feasible_nonneg _ _ Hwi Hwp p Hm vals i l Hf Hi
                              (In_fst_keys _ _ _ Hl)) as H0.
  unfold allocated_to. rewrite Hx.
  rewrite (get_map_entries
             (fun e => extracted_row vals (snd e)
                                     (_get_production_requirements w) (fst e))
             _ i info Hwi Hinfo).
  cbn [fst snd].
  rewrite (get_extracted_row vals info i _ l line Hwp Hl).
  destruct (PyNum.Qlt_bool 0 (vals (alloc_ i l))) eqn:Epos.
  - cbn [allocated_quantity]. apply int_ge; assumption.
  - assert (Hle : (vals (alloc_ i l) <= 0)%Q).
    { apply Qnot_lt_le. intros Hlt. apply Qlt_bool_iff in Hlt. congruence. }
    rewrite Zle_Qle. change (inject_Z 0) with 0%Q. lra.
Qed.

(** The sample world: line 7 gets at least the 30 units of item 1 it
    requires. *)
Lemma C2_witness :
  exists s w',
    optimize_inventory_allocation cbc_thirty world_one_item = (Ok (success s), w')
    /\ 30 <= allocated_to (allocations s) 1 7.
Proof.
  eexists. eexists. split.
  - vm_compute. reflexivity.
  - eapply C2_requirements_met_for_active_items
      with (cbc := cbc_thirty) (w := world_one_item)
           (line := {| lr_name := "Assembly Line 1"; lr_capacity_per_hour := 200;
                       required_items := [(1, 30); (2, 22)] |}).
    + intros p vars Hm. vm_compute in Hm. injection Hm as <- _.
      intros _. apply feasibleb_sound. vm_compute. reflexivity.
    + vm_compute. reflexivity.
    + vm_compute. reflexivity.
    + reflexivity.
    + reflexivity.
Defined.

(** ** The utilization pass *)

Section Utilization.

Lemma analyze_line_efficiency_eq (ls : list LineUtil) (recs : list Recommendation) :
  analyze_line_efficiency ls recs
  = recs ++ flat_map (fun ld => if below_target ld
                                then [efficiency_recommendation ld] else [])
                     ls.
Proof.
  unfold analyze_line_efficiency.
  revert recs. induction ls as [|ld ls IH]; intros recs; cbn [fold_left flat_map].
  - rewrite app_nil_r. reflexivity.
  - rewrite IH. fold (below_target ld).
    destruct (below_target ld).
    + rewrite <- app_assoc. reflexivity.
    + reflexivity.
Qed.

Lemma analyze_inventory_turnover_placeholder
      (items : list ItemUtil) (recs : list Recommendation) :
  Forall (fun it => turnover_rate it = 4) items ->
  analyze_inventory_turnover items recs = recs.
Proof.
  unfold analyze_inventory_turnover.
  intros H. revert recs. induction H as [|it items Hit _ IH]; intros recs.
  - reflexivity.
  - cbn [fold_left]. rewrite Hit. cbn [Z.ltb Z.compare Pos.compare Pos.compare_cont].
    apply IH.
Qed.

Lemma analyze_inventory_turnover_eq
      (items : list ItemUtil) (recs : list Recommendation) :
  analyze_inventory_turnover items recs
  = recs ++ flat_map (fun it => if Z.ltb (turnover_rate it) 4
                                then [inventory_recommendation it] else [])
                     items.
Proof.
  unfold analyze_inventory_turnover.
  revert recs. induction items as [|it items IH]; intros recs;
    cbn [fold_left flat_map].
  - rewrite app_nil_r. reflexivity.
  - rewrite IH. destruct (Z.ltb (turnover_rate it) 4).
    + rewrite <- app_assoc. reflexivity.
    + reflexivity.
Qed.

Lemma fold_append_Forall {X Y} (P : Y -> Prop) (f : X -> Y) (l : list X) (acc : list Y) :
  Forall P acc -> (forall x, P (f x)) ->
  Forall P (fold_left (fun acc x => acc ++ [f x]) l acc).
Proof.
  revert acc. induction l as [|x l IH]; intros acc Hacc Hf; cbn [fold_left].
  - exact Hacc.
  - apply IH; [|exact Hf]. apply Forall_app. split; [exact Hacc|].
    constructor; [apply Hf | constructor].
Qed.

Lemma turnover_rate_placeholder (w : World) :
  Forall (fun it => turnover_rate it = 4)
         (inventory (_get_resource_utilization_data w)).
Proof.
  unfold _get_resource_utilization_data. cbn [inventory].
  apply (fold_append_Forall
           (fun it => turnover_rate it = 4)
           (fun item => {| iu_item_id := item_id item;
                           iu_part_number := part_number item;
                           iu_current_stock := current_stock item;
                           turnover_rate := 4 |})).
  - constructor.
  - intros x. reflexivity.
Qed.

Lemma optimize_resource_utilization_success
      (w w' : World) (s : UtilizationSuccess) :
  optimize_resource_utilization w = (Ok (success s), w') ->
  metrics s = _get_resource_utilization_data w
  /\ us_recommendations s
     = flat_map (fun ld => if below_target ld
                           then [efficiency_recommendation ld] else [])
                (lines (metrics s)).
Proof.
  unfold optimize_resource_utilization. rewrite try_except_reraise.
  intros H. apply get_db_session_ok_inv in H.
  destruct H as [w1 [w2 [Hbody _]]].
  apply bind_ok_inv in Hbody. destruct Hbody as [u [wa [Hu Hbody]]].
  unfold gets in Hu. injection Hu as <- <-.
  change (_get_resource_utilization_data (set_pending [] w))
    with (_get_resource_utilization_data w) in *.
  apply bind_ok_inv in Hbody. destruct Hbody as [[] [wb [_ Hbody]]].
  unfold ret in Hbody. injection Hbody as <- _.
  cbn [metrics us_recommendations]. split; [reflexivity|].
  rewrite analyze_line_efficiency_eq.
  rewrite (analyze_inventory_turnover_placeholder _ _ (turnover_rate_placeholder w)).
  reflexivity.
Qed.

Lemma efficiency_recommendation_iff (ls : list LineUtil) (ld : LineUtil) :
  In ld ls ->
  (In (efficiency_recommendation ld)
      (flat_map (fun ld => if below_target ld
                           then [efficiency_recommendation ld] else [])
                ls)
   <-> (current_efficiency ld
        <? target_efficiency ld * PyNum.lit_0_9)%float = true).
Proof.
  intros Hin. change (?c <? ?t * PyNum.lit_0_9)%float with (below_target ld).
  rewrite in_flat_map. split.
  - intros [ld' [_ Hr]]. destruct (below_target ld') eqn:E; [|destruct Hr].
    destruct Hr as [Hr|[]]. unfold efficiency_recommendation in Hr.
    injection Hr as _ _ Hc Ht _.
    unfold below_target in E |- *. rewrite <- Hc, <- Ht. exact E.
  - intros Hlt. exists ld. split; [exact Hin|].
    rewrite Hlt. left; reflexivity.
Qed.

(** The threshold is the rounded product.  With a target of 0.92 and 828 of
    1000 planned units produced, the efficiency and [target * 0.9] are the
    same binary64 number, 82.8, and the pass recommends nothing for the
    line; with a target of 0.55 and 99 of 200 units, [target] is
    55.00000000000001, the product is just above the efficiency of 49.5 and
    the pass recommends an improvement. *)
Lemma threshold_is_rounded_product :
  (exists s w',
     optimize_resource_utilization
       (world_one_record 0x1.d70a3d70a3d71p-1 1000 828)
     = (Ok (success s), w')
     /\ filter is_efficiency_improvement (us_recommendations s) = [])
  /\ (exists s w',
        optimize_resource_utilization
          (world_one_record 0x1.199999999999ap-1 200 99)
        = (Ok (success s), w')
        /\ List.length (filter is_efficiency_improvement (us_recommendations s))
           = 1%nat).
Proof.
  split; eexists; eexists; (split; [vm_compute; reflexivity|reflexivity]).
Qed.

End Utilization.

(** ** C8: efficiency recommendations *)

(** C8.  In a resource-utilization pass an [efficiency_improvement]
    recommendation is emitted for a production line exactly when its
    [current_efficiency] is strictly less than 0.9 times its
    [target_efficiency], the product and the comparison being the binary64
    operations of the program's [current_efficiency < target_efficiency * 0.9]:
    the recommendation of a line of the utilization data is among the
    returned recommendations if and only if the line passes that test, and
    every returned [efficiency_improvement] recommendation is that of such a
    line.  In particular a line at 50 against a target of 90 gets one, and a
    line at 85 against 90 gets none. *)
Theorem C8_efficiency_recommendation_threshold
        (w w' : World) (s : UtilizationSuccess) :
  optimize_resource_utilization w = (Ok (success s), w') ->
  (forall ld, In ld (lines (metrics s)) ->
     (In (efficiency_recommendation ld) (us_recommendations s)
      <-> (current_efficiency ld
           <? target_efficiency ld * PyNum.lit_0_9)%float = true))
  /\ (forall r, In r (us_recommendations s) ->
        is_efficiency_improvement r = true ->
        exists ld, In ld (lines (metrics s))
                   /\ r = efficiency_recommendation ld
                   /\ (current_efficiency ld
                       <? target_efficiency ld * PyNum.lit_0_9)%float = true)
  /\ (forall ld, In ld (lines (metrics s)) ->
        current_efficiency ld = 50%float -> target_efficiency ld = 90%float ->
        In (efficiency_recommendation ld) (us_recommendations s))
  /\ (forall ld, In ld (lines (metrics s)) ->
        current_efficiency ld = 85%float -> target_efficiency ld = 90%float ->
        ~ In (efficiency_recommendation ld) (us_recommendations s)).
Proof.
  intros Hrun.
  destruct (optimize_resource_utilization_success w w' s Hrun) as [_ Hrecs].
  rewrite Hrecs.
  split; [|split; [|split]].
  - intros ld Hin. apply efficiency_recommendation_iff. exact Hin.
  - intros r Hr _. apply in_flat_map in Hr. destruct Hr as [ld [Hin Hr]].
    destruct (below_target ld) eqn:E; [|destruct Hr].
    destruct Hr as [<-|[]]. exists ld. split; [exact Hin|]. split; [reflexivity|].
    exact E.
  - intros ld Hin Hc Ht. apply (efficiency_recommendation_iff _ _ Hin).
    rewrite Hc, Ht. reflexivity.
  - intros ld Hin Hc Ht Hr. apply (efficiency_recommendation_iff _ _ Hin) in Hr.
    rewrite Hc, Ht in Hr. vm_compute in Hr. discriminate Hr.
Qed.

(** Two lines with target 90: the one at 50 gets a recommendation, the one
    at 85 gets none. *)
Lemma C8_witness :
  exists s w',
    optimize_resource_utilization world_two_lines = (Ok (success s), w')
    /\ In (efficiency_recommendation line_A_utilization) (us_recommendations s)
    /\ ~ In (efficiency_recommendation line_B_utilization) (us_recommendations s).
Proof.
  eexists. eexists. split; [vm_compute; reflexivity|].
  match goal with
  | |- In _ (us_recommendations ?s) /\ _ =>
      destruct (C8_efficiency_recommendation_threshold
                  world_two_lines _ s eq_refl) as [_ [_ [HA HB]]]
  end.
  split.
  - apply HA.
    + left. reflexivity.
    + reflexivity.
    + reflexivity.
  - apply HB.
    + right. left. reflexivity.
    + reflexivity.
    + reflexivity.
Defined.

(** ** C10: no inventory recommendation *)

(** C10.  [optimize_resource_utilization] never emits an
    [inventory_optimization] recommendation: the [turnover_rate] of every
    item of the utilization data is the constant 4, the pass emits the
    recommendation of an item only when its [turnover_rate] is strictly below
    4, and no returned recommendation is an [inventory_optimization]. *)
Theorem C10_no_inventory_optimization
        (w w' : World) (s : UtilizationSuccess) :
  optimize_resource_utilization w = (Ok (success s), w') ->
  Forall (fun it => turnover_rate it = 4) (inventory (metrics s))
  /\ (forall items recs r,
        In r (analyze_inventory_turnover items recs) ->
        In r recs
        \/ exists it, In it items /\ turnover_rate it < 4
                      /\ r = inventory_recommendation it)
  /\ forall r, In r (us_recommendations s) -> is_inventory_optimization r = false.
Proof.
  intros Hrun.
  destruct (optimize_resource_utilization_success w w' s Hrun) as [Hm Hrecs].
  split; [|split].
  - rewrite Hm. apply turnover_rate_placeholder.
  - intros items recs r Hr. rewrite analyze_inventory_turnover_eq in Hr.
    apply in_app_or in Hr. destruct Hr as [Hr|Hr]; [left; exact Hr|].
    right. apply in_flat_map in Hr. destruct Hr as [it [Hin Hr]].
    destruct (Z.ltb (turnover_rate it) 4) eqn:E; [|destruct Hr].
    destruct Hr as [<-|[]]. exists it.
    split; [exact Hin|]. split; [apply Z.ltb_lt; exact E | reflexivity].
  - intros r Hr. rewrite Hrecs in Hr. apply in_flat_map in Hr.
    destruct Hr as [ld [_ Hr]].
    destruct (below_target ld); [|destruct Hr].
    destruct Hr as [<-|[]]. reflexivity.
Qed.

(** The sample world with two lines and one item. *)
Lemma C10_witness :
  exists s w',
    optimize_resource_utilization world_two_lines = (Ok (success s), w')
    /\ forall r, In r (us_recommendations s) -> is_inventory_optimization r = false.
Proof.
  eexists. eexists. split; [vm_compute; reflexivity|].
  match goal with
  | |- forall r, In r (us_recommendations ?s) -> _ =>
      exact (proj2 (proj2 (C10_no_inventory_optimization
                             world_two_lines _ s eq_refl)))
  end.
Defined.

(** ** What session operations do to the tables *)

Section TablesFacts.

Lemma same_tables_refl (w : World) : same_tables w w.
Proof. split; reflexivity. Qed.

Lemma same_tables_trans (w1 w2 w3 : World) :
  same_tables w1 w2 -> same_tables w2 w3 -> same_tables w1 w3.
Proof. intros [A B] [C D]. split; congruence. Qed.

Lemma preserves_ret {A} (a : A) : preserves_tables (ret a).
Proof. intros w r w' [= <- <-]. apply same_tables_refl. Qed.

Lemma preserves_raise {A} (e : exn) : preserves_tables (@raise A e).
Proof. intros w r w' [= <- <-]. apply same_tables_refl. Qed.

Lemma preserves_gets {A} (f : World -> A) : preserves_tables (gets f).
Proof. intros w r w' [= <- <-]. apply same_tables_refl. Qed.

Lemma preserves_lift {A} (x : res A) : preserves_tables (lift x).
Proof. intros w r w' [= <- <-]. apply same_tables_refl. Qed.

Lemma preserves_bind {A B} (m : M A) (k : A -> M B) :
  preserves_tables m -> (forall a, preserves_tables (k a)) ->
  preserves_tables (bind m k).
Proof.
  intros Hm Hk w r w'. unfold bind.
  destruct (m w) as [[a|e] w1] eqn:E.
  - intros H. apply (same_tables_trans _ w1); [apply (Hm _ _ _ E)|].
    apply (Hk a _ _ _ H).
  - intros [= <- <-]. apply (Hm _ _ _ E).
Qed.

Lemma preserves_next_fault : preserves_tables next_fault.
Proof.
  intros w r w'. unfold next_fault.
  destruct (faults w); intros [= <- <-]; split; reflexivity.
Qed.

Lemma preserves_session_add (r : Row) : preserves_tables (session_add r).
Proof.
  unfold session_add. apply preserves_bind; [apply preserves_next_fault|].
  intros [|]; [apply preserves_raise|].
  intros w x w' [= <- <-]. split; reflexivity.
Qed.

Lemma preserves_session_rollback : preserves_tables session_rollback.
Proof. intros w r w' [= <- <-]. split; reflexivity. Qed.

Lemma preserves_for_each {A} (l : list A) (body : A -> M unit) :
  (forall a, preserves_tables (body a)) -> preserves_tables (for_each l body).
Proof.
  intros Hb. induction l as [|a l IH]; cbn [for_each].
  - apply preserves_ret.
  - apply preserves_bind; [apply Hb | intros _; exact IH].
Qed.

Lemma preserves_solve (cbc : Solver) (p : LpProblem) : preserves_tables (solve cbc p).
Proof.
  unfold solve. apply preserves_bind; [|intros; apply preserves_ret].
  intros w r w' [= <- <-]. split; reflexivity.
Qed.

(** A failed commit writes nothing. *)
Lemma commit_raise_tables (w w' : World) (e : exn) :
  session_commit w = (Raise e, w') -> same_tables w w'.
Proof.
  destruct (session_commit_cases w) as [[E _]|[E _]]; rewrite E.
  - discriminate.
  - intros [= _ <-]. split; reflexivity.
Qed.

Lemma writes_then_commit_raise {A} (m : M A) (w w' : World) (e : exn) :
  preserves_tables m ->
  bind m (fun _ => session_commit) w = (Raise e, w') ->
  same_tables w w'.
Proof.
  intros Hm. unfold bind. destruct (m w) as [[a|e'] w1] eqn:E.
  - intros H. apply (same_tables_trans _ w1); [apply (Hm _ _ _ E)|].
    apply (commit_raise_tables _ _ _ H).
  - intros [= _ <-]. apply (Hm _ _ _ E).
Qed.

Lemma preserves_inventory_rows (allocation_results : dict (dict AllocEntry)) :
  preserves_tables
    (for_each allocation_results
       (fun '(item_id, by_line) =>
          for_each by_line
            (fun '(line_id, allocation_data) =>
               let allocated_qty := allocated_quantity allocation_data in
               now <- gets utcnow ;;
               session_add
                 (row_allocation
                    {| ra_production_line_id := line_id;
                       resource_type := MATERIAL;
                       resource_id := str_ item_id;
                       ra_allocated_quantity := allocated_qty;
                       allocation_date := now;
                       ra_status := PLANNED |})))).
Proof.
  apply preserves_for_each. intros [i by_line].
  apply preserves_for_each. intros [l e]. cbv zeta.
  apply preserves_bind; [apply preserves_gets|].
  intros now. apply preserves_session_add.
Qed.

Lemma preserves_schedule_rows (schedule_results : dict SchedEntry) :
  preserves_tables
    (for_each schedule_results
       (fun '(job_id, schedule_data) =>
          let line_id := assigned_line schedule_data in
          let scheduled_time := scheduled_time schedule_data in
          session_add
            (row_allocation
               {| ra_production_line_id := line_id;
                  resource_type := LABOR;
                  resource_id := job_ job_id;
                  ra_allocated_quantity := 1;
                  allocation_date := scheduled_time;
                  ra_status := PLANNED |}))).
Proof.
  apply preserves_for_each. intros [j e]. cbv zeta.
  apply preserves_session_add.
Qed.

(** Leaving the session block after a body that wrote nothing and left
    nothing pending: the closing commit is the only thing that can fail. *)
Lemma get_db_session_idle {A} (body : M A) (w w1 : World) (a : A) :
  body (set_pending [] w) = (Ok a, w1) ->
  pending w1 = [] -> same_tables w w1 -> faults w1 = faults w ->
  exists w',
    get_db_session body w
    = ((if hd false (faults w) then Raise SQLAlchemyError else Ok a), w')
    /\ same_tables w w'
    /\ solver_calls w' = solver_calls w1
    /\ pending w' = [].
Proof.
  intros Hbody Hp [Hra Hor] Hf.
  unfold get_db_session, try_finally, try_except, session_close, session_rollback.
  unfold bind at 1. unfold modify at 1. cbn beta iota.
  unfold bind at 1. rewrite Hbody.
  unfold bind at 1.
  destruct (session_commit_cases w1) as [[E Hh]|[E Hh]];
    rewrite E; rewrite Hf in Hh; rewrite Hh.
  - unfold ret, modify. eexists. split; [reflexivity|].
    destruct w1; cbn in *. subst.
    split; [|split; reflexivity].
    split; cbn; apply app_nil_r.
  - unfold bind, modify, raise. eexists. split; [reflexivity|].
    destruct w1; cbn in *. subst.
    split; [|split; reflexivity].
    split; reflexivity.
Qed.

End TablesFacts.

(** ** C6: nothing to optimize *)

Section InsufficientData.

Lemma no_active_items (w : World) :
  filter item_is_active (inventory_items w) = [] ->
  is_empty (_get_inventory_data w) = true.
Proof. unfold _get_inventory_data. intros ->. reflexivity. Qed.

Lemma no_active_lines (w : World) :
  filter line_is_active (production_lines w) = [] ->
  is_empty (_get_production_requirements w) = true.
Proof. unfold _get_production_requirements. intros ->. reflexivity. Qed.

End InsufficientData.

(** C6.  With zero active inventory items, or with no active production line
    to take requirements from, [optimize_inventory_allocation] returns
    [failed insufficient_data]; the solver is not invoked and neither an
    optimization run nor a resource allocation is written.  (The only other
    outcome is the exception of the session's closing commit, when the
    database makes that commit fail.) *)
Theorem C6_insufficient_data_without_solver (cbc : Solver) (w : World) :
  filter item_is_active (inventory_items w) = []
  \/ filter line_is_active (production_lines w) = [] ->
  exists w',
    optimize_inventory_allocation cbc w
    = ((if hd false (faults w)
        then Raise SQLAlchemyError
        else Ok (failed insufficient_data)), w')
    /\ solver_calls w' = solver_calls w
    /\ same_tables w w'.
Proof.
  intros Hdata.
  assert (Hempty : is_empty (_get_inventory_data w)
                   || is_empty (_get_production_requirements w) = true).
  { destruct Hdata as [H|H].
    - rewrite (no_active_items w H). reflexivity.
    - rewrite (no_active_lines w H). apply orb_true_r. }
  unfold optimize_inventory_allocation. rewrite try_except_reraise.
  match goal with
  | |- exists w', get_db_session ?body w = _ /\ _ =>
      destruct (get_db_session_idle body w (set_pending [] w)
                                    (failed insufficient_data))
        as [w' [E [Ht [Hs _]]]]
  end.
  - unfold bind, gets.
    change (_get_inventory_data (set_pending [] w)) with (_get_inventory_data w).
    change (_get_production_requirements (set_pending [] w))
      with (_get_production_requirements w).
    rewrite Hempty. reflexivity.
  - reflexivity.
  - split; reflexivity.
  - reflexivity.
  - exists w'. split; [exact E|]. split; [exact Hs | exact Ht].
Qed.

(** The sample world without active items. *)
Lemma C6_witness :
  exists w',
    optimize_inventory_allocation cbc_thirty world_no_items
    = (Ok (failed insufficient_data), w')
    /\ solver_calls w' = []
    /\ same_tables world_no_items w'.
Proof.
  exact (C6_insufficient_data_without_solver
           cbc_thirty world_no_items (or_introl eq_refl)).
Defined.

(** ** C7: a failure while applying results *)

(** C7 as stated fails: in the sample world, with a database that makes the
    commit of the apply step fail, the [try] block of
    [_apply_inventory_allocations] raises, yet the helper returns normally;
    the whole call then reports success although no allocation row was
    written. *)
Lemma C7_counterexample :
  (exists e w1,
     inventory_allocation_writes sample_allocation
                                 (world_with_faults [false; true])
     = (Raise e, w1))
  /\ fst (_apply_inventory_allocations sample_allocation
                                       (world_with_faults [false; true]))
     = Ok tt
  /\ exists s w',
       optimize_inventory_allocation
         cbc_thirty (world_with_faults [false; false; false; true])
       = (Ok (success s), w')
       /\ allocations s = sample_allocation
       /\ resource_allocations w' = [].
Proof.
  split; [|split].
  - eexists. eexists. vm_compute. reflexivity.
  - vm_compute. reflexivity.
  - eexists. eexists. split; [vm_compute; reflexivity|].
    split; reflexivity.
Qed.

(** C7 (amended).  If an exception occurs while applying an optimization's
    results (in the [try] block that adds the decision rows and commits
    them), the session is rolled back entirely: the tables hold what they
    held before the apply step and nothing stays pending, so no partial
    write of that optimization's decisions survives.  The exception is
    logged and swallowed; the helper returns normally to its caller. *)
Theorem C7_apply_failure_rolls_back_and_swallows :
  (forall allocation_results w e w1,
     inventory_allocation_writes allocation_results w = (Raise e, w1) ->
     exists w2,
       _apply_inventory_allocations allocation_results w = (Ok tt, w2)
       /\ same_tables w w2 /\ pending w2 = [])
  /\ (forall schedule_results w e w1,
        production_schedule_writes schedule_results w = (Raise e, w1) ->
        exists w2,
          _apply_production_schedule schedule_results w = (Ok tt, w2)
          /\ same_tables w w2 /\ pending w2 = []).
Proof.
  split.
  - intros r w e w1 Hraise.
    exists (set_pending [] w1).
    unfold _apply_inventory_allocations, try_except. rewrite Hraise.
    split; [reflexivity|]. split; [|reflexivity].
    apply (same_tables_trans _ w1); [|split; reflexivity].
    unfold inventory_allocation_writes in Hraise.
    apply (writes_then_commit_raise _ _ _ _ (preserves_inventory_rows r) Hraise).
  - intros r w e w1 Hraise.
    exists (set_pending [] w1).
    unfold _apply_production_schedule, try_except. rewrite Hraise.
    split; [reflexivity|]. split; [|reflexivity].
    apply (same_tables_trans _ w1); [|split; reflexivity].
    unfold production_schedule_writes in Hraise.
    apply (writes_then_commit_raise _ _ _ _ (preserves_schedule_rows r) Hraise).
Qed.

(** The sample allocation with a database that makes the commit of the
    apply step fail. *)
Lemma C7_witness :
  exists w2,
    _apply_inventory_allocations sample_allocation (world_with_faults [false; true])
    = (Ok tt, w2)
    /\ same_tables (world_with_faults [false; true]) w2 /\ pending w2 = [].
Proof.
  refine (proj1 C7_apply_failure_rolls_back_and_swallows
                sample_allocation (world_with_faults [false; true])
                SQLAlchemyError _ _).
  vm_compute. reflexivity.
Defined.

(** ** C5: a solve that does not reach optimality *)

Section NotOptimal.

Variable cbc : Solver.
Variable w : World.

Lemma inventory_not_optimal (p : LpProblem) (vars : dict (dict LpVariable)) :
  is_empty (_get_inventory_data w) = false ->
  is_empty (_get_production_requirements w) = false ->
  inventory_allocation_model (_get_inventory_data w)
                             (_get_production_requirements w) = Ok (p, vars) ->
  is_optimal (fst (cbc p)) = false ->
  exists w',
    optimize_inventory_allocation cbc w
    = ((if hd false (faults w)
        then Raise SQLAlchemyError
        else Ok (failed no_optimal_solution)), w')
    /\ solver_calls w' = solver_calls w ++ [p]
    /\ same_tables w w'.
Proof.
  intros Hi Hp Hm Hst.
  unfold optimize_inventory_allocation. rewrite try_except_reraise.
  match goal with
  | |- exists w', get_db_session ?body w = _ /\ _ =>
      destruct (get_db_session_idle body w
                  (log_solver_call p (set_pending [] w))
                  (failed no_optimal_solution))
        as [w' [E [Ht [Hs _]]]]
  end.
  - unfold bind at 1. unfold gets at 1. unfold bind at 1. unfold gets at 1.
    change (_get_inventory_data (set_pending [] w)) with (_get_inventory_data w).
    change (_get_production_requirements (set_pending [] w))
      with (_get_production_requirements w).
    rewrite Hi, Hp. cbn [orb].
    unfold bind at 1. unfold lift at 1. rewrite Hm.
    unfold bind at 1. unfold solve, bind, modify, ret.
    destruct (cbc p) as [st vals]. cbn [fst] in Hst. rewrite Hst. reflexivity.
  - reflexivity.
  - split; reflexivity.
  - reflexivity.
  - exists w'. split; [exact E|]. split; [exact Hs | exact Ht].
Qed.

Lemma schedule_not_optimal (p : LpProblem) (vars : dict (dict (dict LpVariable))) :
  is_empty (_get_production_lines_data w) = false ->
  production_schedule_model (_get_pending_jobs_data w)
                            (_get_production_lines_data w) = Ok (p, vars) ->
  is_optimal (fst (cbc p)) = false ->
  exists w',
    optimize_production_schedule cbc w
    = ((if hd false (faults w)
        then Raise SQLAlchemyError
        else Ok (failed no_optimal_solution)), w')
    /\ solver_calls w' = solver_calls w ++ [p]
    /\ same_tables w w'.
Proof.
  intros Hl Hm Hst.
  unfold optimize_production_schedule. rewrite try_except_reraise.
  match goal with
  | |- exists w', get_db_session ?body w = _ /\ _ =>
      destruct (get_db_session_idle body w
                  (log_solver_call p (set_pending [] w))
                  (failed no_optimal_solution))
        as [w' [E [Ht [Hs _]]]]
  end.
  - unfold bind at 1. unfold gets at 1. unfold bind at 1. unfold gets at 1.
    change (_get_production_lines_data (set_pending [] w))
      with (_get_production_lines_data w).
    change (_get_pending_jobs_data (set_pending [] w))
      with (_get_pending_jobs_data w).
    rewrite Hl.
    change (is_empty (_get_pending_jobs_data w)) with false. cbn [orb].
    unfold bind at 1. unfold lift at 1. rewrite Hm.
    unfold bind at 1. unfold solve, bind, modify, ret.
    destruct (cbc p) as [st vals]. cbn [fst] in Hst. rewrite Hst. reflexivity.
  - reflexivity.
  - split; reflexivity.
  - reflexivity.
  - exists w'. split; [exact E|]. split; [exact Hs | exact Ht].
Qed.

End NotOptimal.

(** The inventory model of the short-stock world has no feasible point. *)
Lemma short_stock_infeasible (p : LpProblem) (vars : dict (dict LpVariable))
      (vals : Valuation) :
  inventory_allocation_model (_get_inventory_data world_short_stock)
                             (_get_production_requirements world_short_stock)
  = Ok (p, vars) ->
  ~ feasible p vals.
Proof.
  intros Hm Hf.
  pose proof (wf_inventory_data world_short_stock) as Hwi.
  pose proof (wf_production_requirements world_short_stock) as Hwp.
  destruct (inventory_allocation_model_ok _ _ Hwi Hwp) as [p' [Hm' _]].
  rewrite Hm in Hm'. injection Hm' as <- ->.
  pose proof (feasible_stock _ _ Hwi Hwp p Hm vals 1
                {| ii_part_number := "SEAT-001"; ii_current_stock := 10;
                   ii_unit_cost := 10%Q; ii_reorder_point := 50 |}
                Hf (or_introl eq_refl)) as Hstock.
  pose proof (feasible_requirement _ _ Hwi Hwp p Hm vals 7
                {| lr_name := "Assembly Line 1"; lr_capacity_per_hour := 20;
                   required_items := [(1, 30); (2, 22)] |}
                1 30 Hf (or_introl eq_refl) (or_introl eq_refl) eq_refl) as Hreq.
  change (keys (_get_production_requirements world_short_stock)) with [7] in Hstock.
  cbn [map ii_current_stock] in Hstock.
  rewrite sumQ_cons, sumQ_nil in Hstock.
  change (inject_Z 10) with 10%Q in Hstock.
  change (inject_Z 30) with 30%Q in Hreq.
  lra.
Qed.

(** C5 as stated fails: in the short-stock world the inventory model has no
    feasible point, the solver reports infeasibility, the call returns
    [failed no_optimal_solution] and the table of optimization runs stays
    empty; no run with status [FAILED] is produced. *)
Lemma C5_counterexample :
  (forall p vars vals,
     inventory_allocation_model (_get_inventory_data world_short_stock)
                                (_get_production_requirements world_short_stock)
     = Ok (p, vars) ->
     ~ feasible p vals)
  /\ exists w',
       optimize_inventory_allocation cbc_infeasible world_short_stock
       = (Ok (failed no_optimal_solution), w')
       /\ optimization_results w' = []
       /\ ~ exists r, In r (optimization_results w') /\ is_failed_run r = true.
Proof.
  split.
  - intros p vars vals. apply short_stock_infeasible.
  - eexists. split; [vm_compute; reflexivity|].
    split; [reflexivity|].
    intros [r [[] _]].
Qed.

(** C5 (amended).  Whenever the solve of the inventory allocation model or
    of the production schedule model does not reach optimality (whatever
    other status the solver reports), the call returns
    [failed no_optimal_solution] and writes neither an optimization run nor
    any allocation or schedule decision row.  (The only other outcome is the
    exception of the session's closing commit, when the database makes that
    commit fail; nothing is written then either.) *)
Theorem C5_not_optimal_writes_nothing (cbc : Solver) (w : World) :
  (forall p vars,
     is_empty (_get_inventory_data w) = false ->
     is_empty (_get_production_requirements w) = false ->
     inventory_allocation_model (_get_inventory_data w)
                                (_get_production_requirements w) = Ok (p, vars) ->
     is_optimal (fst (cbc p)) = false ->
     exists w',
       optimize_inventory_allocation cbc w
       = ((if hd false (faults w)
           then Raise SQLAlchemyError
           else Ok (failed no_optimal_solution)), w')
       /\ same_tables w w')
  /\ (forall p vars,
        is_empty (_get_production_lines_data w) = false ->
        production_schedule_model (_get_pending_jobs_data w)
                                  (_get_production_lines_data w) = Ok (p, vars) ->
        is_optimal (fst (cbc p)) = false ->
        exists w',
          optimize_production_schedule cbc w
          = ((if hd false (faults w)
              then Raise SQLAlchemyError
              else Ok (failed no_optimal_solution)), w')
          /\ same_tables w w').
Proof.
  split.
  - intros p vars Hi Hp Hm Hst.
    destruct (inventory_not_optimal cbc w p vars Hi Hp Hm Hst) as [w' [E [_ Ht]]].
    exists w'. split; assumption.
  - intros p vars Hl Hm Hst.
    destruct (schedule_not_optimal cbc w p vars Hl Hm Hst) as [w' [E [_ Ht]]].
    exists w'. split; assumption.
Qed.

(** The short-stock world with a solver that reports infeasibility. *)
Lemma C5_witness :
  (exists w',
     optimize_inventory_allocation cbc_infeasible world_short_stock
     = (Ok (failed no_optimal_solution), w')
     /\ same_tables world_short_stock w')
  /\ (exists w',
        optimize_production_schedule cbc_infeasible world_short_stock
        = (Ok (failed no_optimal_solution), w')
        /\ same_tables world_short_stock w').
Proof.
  destruct (C5_not_optimal_writes_nothing cbc_infeasible world_short_stock)
    as [Hinv Hsched].
  split.
  - destruct (inventory_allocation_model
                (_get_inventory_data world_short_stock)
                (_get_production_requirements world_short_stock))
      as [[p vars]|e] eqn:Em; [|vm_compute in Em; discriminate Em].
    apply (Hinv p vars); reflexivity.
  - destruct (production_schedule_model
                (_get_pending_jobs_data world_short_stock)
                (_get_production_lines_data world_short_stock))
      as [[p vars]|e] eqn:Em; [|vm_compute in Em; discriminate Em].
    apply (Hsched p vars); reflexivity.
Defined.

(** ** C9: requirements for items that are not in the inventory *)

Section DroppedRequirements.

Variable w : World.

Lemma requirement_constraint_iff (p : LpProblem) (l : Z) (line : LineReq) (i m : Z) :
  inventory_allocation_model (_get_inventory_data w)
                             (_get_production_requirements w)
  = Ok (p, allocation_variables (_get_inventory_data w)
                                (_get_production_requirements w)) ->
  get (_get_production_requirements w) l = Some line ->
  get (required_items line) i = Some m ->
  (In (requirement_constraint i l m) (constraints p)
   <-> contains (_get_inventory_data w) i = true).
Proof.
  intros Hm Hl Hreq.
  rewrite (model_constraints _ _ (wf_inventory_data w)
                             (wf_production_requirements w) p Hm).
  unfold inventory_constraints. rewrite in_app_iff. split.
  - intros [H|H].
    + apply in_map_iff in H. destruct H as [e [He _]].
      apply (f_equal sense) in He. discriminate He.
    + apply in_flat_map in H. destruct H as [[l' line'] [_ H]].
      unfold line_requirement_constraints in H.
      apply in_flat_map in H. destruct H as [[i' m'] [_ H]].
      cbn [fst snd] in H.
      destruct (contains (_get_inventory_data w) i') eqn:E; [|destruct H].
      destruct H as [H|[]].
      unfold requirement_constraint, expr_of_var, alloc_var in H.
      cbn [mkLpVariable] in H. injection H as Hi _ _. subst i'. exact E.
  - intros Hc. right.
    apply in_flat_map. exists (l, line). split; [apply get_Some_In; exact Hl|].
    unfold line_requirement_constraints. apply in_flat_map.
    exists (i, m). split; [apply get_Some_In; exact Hreq|].
    cbn [fst snd]. rewrite Hc. left; reflexivity.
Qed.

Lemma no_variable_of_missing_item (p : LpProblem) (i : Z) :
  inventory_allocation_model (_get_inventory_data w)
                             (_get_production_requirements w)
  = Ok (p, allocation_variables (_get_inventory_data w)
                                (_get_production_requirements w)) ->
  contains (_get_inventory_data w) i = false ->
  forall u, In u (variables p) -> forall l, name u <> alloc_ i l.
Proof.
  intros Hm Hc u Hu l Hn.
  destruct (model_variables _ _ (wf_inventory_data w)
              (wf_production_requirements w) p Hm u Hu) as [i' [l' [-> [Hi _]]]].
  simpl in Hn. injection Hn as -> _.
  apply contains_false in Hc. contradiction.
Qed.

End DroppedRequirements.

(** C9.  In [optimize_inventory_allocation] a minimum requirement for an
    item that is not among the active inventory items is silently dropped.
    The model is built without error; the requirement of a line for an item
    becomes a constraint exactly when the item is a key of the inventory
    snapshot; no variable of the model belongs to an item outside the
    snapshot; a successful result holds no allocation for such an item; and
    the model can be reported optimal without the requirement being covered:
    in the sample world line 7 requires 22 units of the hardcoded item 2,
    only item 1 is active, and the call succeeds on an optimal solution
    with no allocation of item 2. *)
Theorem C9_requirements_of_missing_items_dropped :
  (forall w,
     exists p vars,
       inventory_allocation_model (_get_inventory_data w)
                                  (_get_production_requirements w) = Ok (p, vars)
       /\ (forall l line i m,
             get (_get_production_requirements w) l = Some line ->
             get (required_items line) i = Some m ->
             (In (requirement_constraint i l m) (constraints p)
              <-> contains (_get_inventory_data w) i = true))
       /\ (forall i,
             contains (_get_inventory_data w) i = false ->
             forall u, In u (variables p) -> forall l, name u <> alloc_ i l))
  /\ (forall cbc w s w',
        optimize_inventory_allocation cbc w = (Ok (success s), w') ->
        forall i,
          contains (_get_inventory_data w) i = false ->
          get (allocations s) i = None)
  /\ (exists s w' line,
        (forall p vars,
           inventory_allocation_model (_get_inventory_data world_one_item)
                                      (_get_production_requirements world_one_item)
           = Ok (p, vars) ->
           solver_sound_on cbc_thirty p)
        /\ optimize_inventory_allocation cbc_thirty world_one_item
           = (Ok (success s), w')
        /\ get (_get_production_requirements world_one_item) 7 = Some line
        /\ get (required_items line) 2 = Some 22
        /\ contains (_get_inventory_data world_one_item) 2 = false
        /\ get (allocations s) 2 = None).
Proof.
  split; [|split].
  - intros w.
    destruct (inventory_allocation_model_ok
                _ _ (wf_inventory_data w) (wf_production_requirements w))
      as [p [Hm _]].
    exists p, (allocation_variables (_get_inventory_data w)
                                    (_get_production_requirements w)).
    split; [exact Hm|]. split.
    + intros l line i m. apply (requirement_constraint_iff w p l line i m Hm).
    + intros i. apply (no_variable_of_missing_item w p i Hm).
  - intros cbc w s w' Hrun i Hc.
    destruct (inventory_success_shape cbc w w' s Hrun) as [p [vals [_ [_ Hx]]]].
    rewrite Hx. apply get_None_notin.
    rewrite (keys_map_entries
               (fun e => extracted_row vals (snd e)
                                       (_get_production_requirements w) (fst e))).
    apply contains_false. exact Hc.
  - eexists. eexists. eexists.
    split; [exact cbc_thirty_sound|].
    split; [vm_compute; reflexivity|].
    split; [vm_compute; reflexivity|].
    split; [reflexivity|].
    split; reflexivity.
Qed.

(** In the sample world the requirement of line 7 for 22 units of item 2
    is no constraint of the model. *)
Lemma C9_witness :
  exists p vars,
    inventory_allocation_model (_get_inventory_data world_one_item)
                               (_get_production_requirements world_one_item)
    = Ok (p, vars)
    /\ ~ In (requirement_constraint 2 7 22) (constraints p).
Proof.
  destruct (proj1 C9_requirements_of_missing_items_dropped world_one_item)
    as [p [vars [Hm [Hiff _]]]].
  exists p, vars. split; [exact Hm|].
  intros Hin.
  apply (Hiff 7 {| lr_name := "Assembly Line 1"; lr_capacity_per_hour := 200;
                   required_items := [(1, 30); (2, 22)] |} 2 22) in Hin.
  - discriminate Hin.
  - reflexivity.
  - reflexivity.
Defined.

(** ** The production schedule model *)

Section ScheduleModel.

Lemma time_slots_NoDup : NoDup time_slots.
Proof.
  unfold time_slots. apply Injective_map_NoDup.
  - intros x y. apply Nat2Z.inj.
  - apply seq_NoDup.
Qed.

Lemma wf_lines_data (w : World) : wf (_get_production_lines_data w).
Proof.
  unfold _get_production_lines_data.
  match goal with
  | |- wf (fold_left (fun d x => setitem d (line_id x) (@?v x)) _ _) =>
      apply (wf_fold_setitem line_id v)
  end.
  constructor.
Qed.

Lemma wf_jobs_data (w : World) : wf (_get_pending_jobs_data w).
Proof.
  unfold _get_pending_jobs_data, wf. simpl.
  repeat (constructor; [simpl; intuition discriminate|]). constructor.
Qed.

Lemma foldM_defined {A B} (f : B -> A -> res B) (l : list A) :
  (forall a b, In a l -> exists r, f b a = Ok r) ->
  forall b, exists r, foldM f l b = Ok r.
Proof.
  induction l as [|a l IH]; intros Hf b.
  - exists b. reflexivity.
  - destruct (Hf a b (or_introl eq_refl)) as [r1 E1].
    destruct (IH (fun a' b' Hin => Hf a' b' (or_intror Hin)) r1) as [r E].
    exists r. simpl. rewrite E1. exact E.
Qed.

Variable jobs_data : dict JobInfo.
Variable lines_data : dict LineInfo.
Hypothesis wf_jobs : wf jobs_data.
Hypothesis wf_lines : wf lines_data.

Lemma schedule_variables_eq :
  schedule_variables jobs_data lines_data
  = map (fun j =>
           (j, map (fun l =>
                      (l, map (fun s => (s, sched_var j l s)) time_slots))
                   (keys lines_data)))
        (keys jobs_data).
Proof.
  unfold schedule_variables.
  rewrite (build_from_keys
             (fun job_id =>
                fold_left
                  (fun by_line line_id =>
                     setitem by_line line_id
                       (fold_left
                          (fun by_slot slot =>
                             setitem by_slot slot (sched_var job_id line_id slot))
                          time_slots []))
                  (keys lines_data) [])) by exact wf_jobs.
  apply map_ext. intros j. f_equal.
  rewrite (build_from_keys
             (fun line_id =>
                fold_left
                  (fun by_slot slot => setitem by_slot slot (sched_var j line_id slot))
                  time_slots [])) by exact wf_lines.
  apply map_ext. intros l.
  rewrite (build_from_keys (fun s => sched_var j l s) time_slots time_slots_NoDup).
  reflexivity.
Qed.

Lemma getitem3_sched (j l s : Z) :
  In j (keys jobs_data) -> In l (keys lines_data) -> In s time_slots ->
  getitem3 (schedule_variables jobs_data lines_data) j l s = Ok (sched_var j l s).
Proof.
  intros Hj Hl Hs. rewrite schedule_variables_eq.
  unfold getitem3, getitem.
  match goal with
  | |- context [@get ?V ?d j] =>
      assert (E : @get V d j
                  = Some (map (fun l =>
                                 (l, map (fun s => (s, sched_var j l s)) time_slots))
                              (keys lines_data)))
  end.
  { apply (get_map_keys
             (fun j => map (fun l =>
                              (l, map (fun s => (s, sched_var j l s)) time_slots))
                           (keys lines_data))).
    exact Hj. }
  rewrite E. cbn [res_bind].
  match goal with
  | |- context [@get ?V ?d l] =>
      assert (E' : @get V d l
                   = Some (map (fun s => (s, sched_var j l s)) time_slots))
  end.
  { apply (get_map_keys
             (fun l => map (fun s => (s, sched_var j l s)) time_slots)).
    exact Hl. }
  rewrite E'. cbn [res_bind].
  assert (E'' : get (map (fun s => (s, sched_var j l s)) time_slots) s
                = Some (sched_var j l s)).
  { apply (get_map_keys (fun s => sched_var j l s)). exact Hs. }
  rewrite E''. reflexivity.
Qed.

Lemma In_line_slot_pairs (l s : Z) :
  In (l, s) (line_slot_pairs lines_data)
  <-> In l (keys lines_data) /\ In s time_slots.
Proof.
  unfold line_slot_pairs. rewrite in_flat_map. split.
  - intros [l' [Hl H]]. apply in_map_iff in H. destruct H as [s' [[= -> ->] Hs]].
    split; assumption.
  - intros [Hl Hs]. exists l. split; [exact Hl|]. apply in_map. exact Hs.
Qed.

Lemma schedule_objective_defined :
  exists obj,
    schedule_objective jobs_data lines_data
      (schedule_variables jobs_data lines_data) = Ok obj.
Proof.
  unfold schedule_objective.
  apply foldM_defined. intros [j job] b Hj.
  apply foldM_defined. intros [l line] b' Hl.
  apply foldM_defined. intros s b'' Hs.
  rewrite (getitem3_sched j l s (In_fst_keys _ _ _ Hj) (In_fst_keys _ _ _ Hl) Hs).
  cbn [res_bind]. eexists. reflexivity.
Qed.

Lemma assignment_constraints_ok (p : LpProblem) :
  assignment_constraints jobs_data lines_data
    (schedule_variables jobs_data lines_data) p
  = Ok (add_constraints p (map (assignment_constraint lines_data) (keys jobs_data))).
Proof.
  unfold assignment_constraints.
  rewrite <- flat_map_singleton.
  apply foldM_add_constraints.
  intros j q Hj.
  rewrite (mapM_pure _ (fun ls : Z * Z => sched_var j (fst ls) (snd ls))).
  - reflexivity.
  - intros [l s] Hls. apply In_line_slot_pairs in Hls. destruct Hls as [Hl Hs].
    apply getitem3_sched; assumption.
Qed.

Lemma exclusivity_constraints_ok (p : LpProblem) :
  exclusivity_constraints jobs_data lines_data
    (schedule_variables jobs_data lines_data) p
  = Ok (add_constraints p
          (flat_map (fun line_id => map (exclusivity_constraint jobs_data line_id)
                                        time_slots)
                    (keys lines_data))).
Proof.
  unfold exclusivity_constraints.
  apply foldM_add_constraints.
  intros l q Hl.
  rewrite <- flat_map_singleton.
  apply foldM_add_constraints.
  intros s q' Hs.
  rewrite (mapM_pure _ (fun j => sched_var j l s)).
  - reflexivity.
  - intros j Hj. apply getitem3_sched; assumption.
Qed.

Lemma capacity_constraints_ok (p : LpProblem) :
  capacity_constraints jobs_data lines_data
    (schedule_variables jobs_data lines_data) p
  = Ok (add_constraints p
          (flat_map (fun entry => map (capacity_constraint jobs_data entry)
                                      time_slots)
                    lines_data)).
Proof.
  unfold capacity_constraints.
  apply foldM_add_constraints.
  intros [l line] q Hl.
  rewrite <- flat_map_singleton.
  apply foldM_add_constraints.
  intros s q' Hs.
  rewrite (mapM_pure _ (fun job : Z * JobInfo =>
                          var_scale (inject_Z (quantity (snd job)))
                                    (sched_var (fst job) l s))).
  - reflexivity.
  - intros [j job] Hj.
    rewrite (getitem3_sched j l s (In_fst_keys _ _ _ Hj)
                            (In_fst_keys _ _ _ Hl) Hs).
    reflexivity.
Qed.

Lemma production_schedule_model_ok :
  exists p,
    production_schedule_model jobs_data lines_data
    = Ok (p, schedule_variables jobs_data lines_data)
    /\ constraints p = schedule_constraints jobs_data lines_data.
Proof.
  destruct schedule_objective_defined as [obj E].
  unfold production_schedule_model. rewrite E. cbn [res_bind].
  rewrite assignment_constraints_ok. cbn [res_bind].
  rewrite exclusivity_constraints_ok. cbn [res_bind].
  rewrite capacity_constraints_ok. cbn [res_bind].
  eexists. split; [reflexivity|].
  rewrite !constraints_add_constraints. cbn [set_objective mkLpProblem constraints].
  unfold schedule_constraints. rewrite <- app_assoc. reflexivity.
Qed.

End ScheduleModel.

(** ** Sums of zero-one values *)

Section ZeroOne.

Lemma sumQ_all_zero {A} (f : A -> Q) (l : list A) :
  (forall x, In x l -> (f x == 0)%Q) -> (PyNum.sumQ (map f l) == 0)%Q.
Proof.
  induction l as [|a l IH]; intros H.
  - reflexivity.
  - simpl map. rewrite sumQ_cons, (H a) by (left; reflexivity).
    rewrite IH by (intros; apply H; right; assumption). ring.
Qed.

(** A sum of zero-one values equal to one has a member equal to one. *)
Lemma sumQ_one_member {A} (f : A -> Q) (l : list A) :
  (forall x, In x l -> (f x == 0)%Q \/ (f x == 1)%Q) ->
  (PyNum.sumQ (map f l) == 1)%Q ->
  exists x, In x l /\ (f x == 1)%Q.
Proof.
  intros H01 Hsum.
  destruct (existsb (fun x => Qeq_bool (f x) 1) l) eqn:E.
  - apply existsb_exists in E. destruct E as [x [Hin Hx]].
    exists x. split; [exact Hin | apply Qeq_bool_iff; exact Hx].
  - exfalso.
    assert (Hz : (PyNum.sumQ (map f l) == 0)%Q).
    { apply sumQ_all_zero. intros x Hin.
      destruct (H01 x Hin) as [H0|H1]; [exact H0|].
      apply Qeq_bool_iff in H1.
      assert (Hx : existsb (fun x => Qeq_bool (f x) 1) l = true)
        by (apply existsb_exists; exists x; split; assumption).
      congruence. }
    rewrite Hz in Hsum. revert Hsum. apply Qlt_not_eq. reflexivity.
Qed.

(** Two distinct members equal to one make a sum of non-negative values at
    least two. *)
Lemma sumQ_two_members (f : Z -> Q) (l : list Z) (x y : Z) :
  NoDup l -> (forall z, In z l -> (0 <= f z)%Q) ->
  In x l -> In y l -> x <> y -> (f x == 1)%Q -> (f y == 1)%Q ->
  (2 <= PyNum.sumQ (map f l))%Q.
Proof.
  intros Hnd Hpos Hx Hy Hne Hfx Hfy.
  induction l as [|a l IH]; [destruct Hx|].
  inversion Hnd as [|? ? Hni Hnd']; subst.
  simpl map. rewrite sumQ_cons.
  assert (Hpos' : forall z, In z l -> (0 <= f z)%Q)
    by (intros; apply Hpos; right; assumption).
  assert (Ha : (0 <= f a)%Q) by (apply Hpos; left; reflexivity).
  destruct Hx as [->|Hx], Hy as [->|Hy].
  - contradiction.
  - pose proof (sumQ_member f l y Hpos' Hy). lra.
  - pose proof (sumQ_member f l x Hpos' Hx). lra.
  - pose proof (IH Hnd' Hpos' Hx Hy). lra.
Qed.

Lemma zero_one_of_bounds (v : Q) :
  (0 <= v)%Q -> (v <= 1)%Q -> (exists z : Z, (v == inject_Z z)%Q) ->
  (v == 0)%Q \/ (v == 1)%Q.
Proof.
  intros H0 H1 [z Hz]. rewrite Hz in H0, H1.
  change 0%Q with (inject_Z 0) in H0. change 1%Q with (inject_Z 1) in H1.
  rewrite <- Zle_Qle in H0, H1.
  assert (z = 0 \/ z = 1) as [->| ->] by lia; [left | right]; exact Hz.
Qed.

End ZeroOne.

(** ** Feasible points of the production schedule model *)

Section ScheduleFeasibility.

Variable jobs_data : dict JobInfo.
Variable lines_data : dict LineInfo.
Hypothesis wf_jobs : wf jobs_data.
Hypothesis wf_lines : wf lines_data.
Variable p : LpProblem.
Hypothesis Hmodel :
  production_schedule_model jobs_data lines_data
  = Ok (p, schedule_variables jobs_data lines_data).
Variable vals : Valuation.
Hypothesis Hfeasible : feasible p vals.

Lemma schedule_model_constraints :
  constraints p = schedule_constraints jobs_data lines_data.
Proof.
  destruct (production_schedule_model_ok jobs_data lines_data wf_jobs wf_lines)
    as [p' [E Hc]].
  rewrite Hmodel in E. injection E as <-. exact Hc.
Qed.

Lemma constraint_holds (c : LpConstraint) :
  In c (schedule_constraints jobs_data lines_data) -> holds vals c.
Proof.
  intros Hin. destruct Hfeasible as [Hc _]. rewrite Forall_forall in Hc.
  apply Hc. rewrite schedule_model_constraints. exact Hin.
Qed.

Lemma feasible_assignment (j : Z) :
  In j (keys jobs_data) ->
  (PyNum.sumQ (map (fun ls : Z * Z => vals (sched_ j (fst ls) (snd ls)))
                   (line_slot_pairs lines_data))
   == 1)%Q.
Proof.
  intros Hj.
  assert (H : holds vals (assignment_constraint lines_data j)).
  { apply constraint_holds. unfold schedule_constraints.
    apply in_or_app. left. apply in_map. exact Hj. }
  unfold holds, assignment_constraint in H. cbn [sense lhs rhs] in H.
  rewrite value_lpSum_vars, map_map in H. exact H.
Qed.

Lemma feasible_exclusive (l s : Z) :
  In l (keys lines_data) -> In s time_slots ->
  (PyNum.sumQ (map (fun j => vals (sched_ j l s)) (keys jobs_data)) <= 1)%Q.
Proof.
  intros Hl Hs.
  assert (H : holds vals (exclusivity_constraint jobs_data l s)).
  { apply constraint_holds. unfold schedule_constraints.
    apply in_or_app. right. apply in_or_app. left.
    apply in_flat_map. exists l. split; [exact Hl|]. apply in_map. exact Hs. }
  unfold holds, exclusivity_constraint in H. cbn [sense lhs rhs] in H.
  rewrite value_lpSum_vars, map_map in H. exact H.
Qed.

Lemma feasible_capacity (l : Z) (line : LineInfo) (s : Z) :
  In (l, line) lines_data -> In s time_slots ->
  (PyNum.sumQ (map (fun job : Z * JobInfo =>
                      inject_Z (quantity (snd job)) * vals (sched_ (fst job) l s))
                   jobs_data)
   <= inject_Z (li_capacity_per_hour line))%Q.
Proof.
  intros Hl Hs.
  assert (H : holds vals (capacity_constraint jobs_data (l, line) s)).
  { apply constraint_holds. unfold schedule_constraints.
    apply in_or_app. right. apply in_or_app. right.
    apply in_flat_map. exists (l, line). split; [exact Hl|].
    apply in_map. exact Hs. }
  unfold holds, capacity_constraint in H. cbn [sense lhs rhs fst snd] in H.
  rewrite value_lpSum, map_map in H.
  rewrite (sumQ_ext _ (fun job : Z * JobInfo =>
                         inject_Z (quantity (snd job))
                         * vals (sched_ (fst job) l s))%Q) in H.
  - exact H.
  - intros job _. rewrite value_var_scale. reflexivity.
Qed.

Lemma feasible_binary (j l s : Z) :
  In j (keys jobs_data) -> In l (keys lines_data) -> In s time_slots ->
  (vals (sched_ j l s) == 0)%Q \/ (vals (sched_ j l s) == 1)%Q.
Proof.
  intros Hj Hl Hs.
  assert (Hv : var_ok vals (sched_var j l s)).
  { destruct Hfeasible as [_ Hv]. rewrite Forall_forall in Hv. apply Hv.
    unfold variables. apply in_or_app. right.
    apply in_flat_map. exists (assignment_constraint lines_data j). split.
    - rewrite schedule_model_constraints. unfold schedule_constraints.
      apply in_or_app. left. apply in_map. exact Hj.
    - unfold assignment_constraint. cbn [lhs].
      destruct (lpSum_vars_In
                  (map (fun ls : Z * Z => sched_var j (fst ls) (snd ls))
                       (line_slot_pairs lines_data))
                  (sched_var j l s)) as [u [Hu [Hn Hvs]]].
      + apply in_map_iff. exists (l, s). split; [reflexivity|].
        apply In_line_slot_pairs. split; assumption.
      + apply in_map_iff in Hvs. destruct Hvs as [[l' s'] [<- _]].
        simpl in Hn. injection Hn as -> ->. exact Hu. }
  destruct Hv as [H0 [H1 Hz]]. cbn in H0, H1, Hz.
  apply zero_one_of_bounds; assumption.
Qed.

Lemma feasible_sched_nonneg (j l s : Z) :
  In j (keys jobs_data) -> In l (keys lines_data) -> In s time_slots ->
  (0 <= vals (sched_ j l s))%Q.
Proof.
  intros Hj Hl Hs.
  destruct (feasible_binary j l s Hj Hl Hs) as [H|H]; rewrite H;
    apply Qle_bool_iff; reflexivity.
Qed.

(** Every job is assigned somewhere. *)
Lemma feasible_job_assigned (j : Z) :
  In j (keys jobs_data) ->
  exists l s, In l (keys lines_data) /\ In s time_slots
              /\ assigned vals j l s = true.
Proof.
  intros Hj.
  destruct (sumQ_one_member
              (fun ls : Z * Z => vals (sched_ j (fst ls) (snd ls)))
              (line_slot_pairs lines_data)) as [[l s] [Hin H1]].
  - intros [l s] Hin. apply In_line_slot_pairs in Hin. destruct Hin as [Hl Hs].
    apply feasible_binary; assumption.
  - apply feasible_assignment. exact Hj.
  - apply In_line_slot_pairs in Hin. destruct Hin as [Hl Hs].
    exists l, s. split; [exact Hl|]. split; [exact Hs|].
    unfold assigned. apply Qeq_bool_iff. exact H1.
Qed.

(** No two jobs share a line and slot. *)
Lemma feasible_no_clash (j1 j2 l s : Z) :
  In j1 (keys jobs_data) -> In j2 (keys jobs_data) ->
  In l (keys lines_data) -> In s time_slots ->
  assigned vals j1 l s = true -> assigned vals j2 l s = true ->
  j1 = j2.
Proof.
  intros Hj1 Hj2 Hl Hs H1 H2.
  destruct (Z.eq_dec j1 j2) as [E|Hne]; [exact E|]. exfalso.
  unfold assigned in H1, H2. apply Qeq_bool_iff in H1, H2.
  pose proof (sumQ_two_members (fun j => vals (sched_ j l s)) (keys jobs_data)
                j1 j2 wf_jobs
                (fun z Hz => feasible_sched_nonneg z l s Hz Hl Hs)
                Hj1 Hj2 Hne H1 H2) as Hge.
  pose proof (feasible_exclusive l s Hl Hs) as Hle.
  lra.
Qed.

End ScheduleFeasibility.

(** ** Extraction of the schedule *)

Section ScheduleExtraction.

Lemma setitem_setitem {V} (d : dict V) (k : Z) (v1 v2 : V) :
  setitem (setitem d k v1) k v2 = setitem d k v2.
Proof.
  induction d as [|[k' v'] d IH]; simpl.
  - rewrite Z.eqb_refl. reflexivity.
  - destruct (Z.eqb k k') eqn:E; simpl.
    + rewrite Z.eqb_refl. reflexivity.
    + rewrite E, IH. reflexivity.
Qed.

Variable vals : Valuation.
Variable jobs_data : dict JobInfo.
Variable lines_data : dict LineInfo.
Variable now : Z.

Lemma extract_first_slot_find (j l : Z) (ss : list Z) (results : dict SchedEntry) :
  extract_first_slot vals jobs_data lines_data now j l
                     (map (fun s => (s, sched_var j l s)) ss) results
  = match find (assigned vals j l) ss with
    | Some s =>
        try! job := getitem jobs_data j in
        try! line := getitem lines_data l in
        Ok (setitem results j
              {| assigned_line := l;
                 assigned_slot := s;
                 job_info := job;
                 se_line_info := line;
                 scheduled_time := now + s * seconds_per_hour |})
    | None => Ok results
    end.
Proof.
  induction ss as [|s ss IH]; cbn [map extract_first_slot find].
  - reflexivity.
  - change (value_var vals (sched_var j l s)) with (vals (sched_ j l s)).
    fold (assigned vals j l s).
    destruct (assigned vals j l s); [reflexivity | exact IH].
Qed.

Lemma extract_lines_ok (j : Z) (job : JobInfo) (results : dict SchedEntry) :
  get jobs_data j = Some job ->
  forall (entries : dict LineInfo) (a : option (Z * LineInfo * Z)),
    (forall e, In e entries -> get lines_data (fst e) = Some (snd e)) ->
    foldM
      (fun results '(line_id, by_slot) =>
         extract_first_slot vals jobs_data lines_data now j line_id
                            by_slot results)
      (map (fun l => (l, map (fun s => (s, sched_var j l s)) time_slots))
           (keys entries))
      (set_assignment now job j results a)
    = Ok (set_assignment now job j results
            (fold_left
               (fun acc (entry : Z * LineInfo) =>
                  match find (assigned vals j (fst entry)) time_slots with
                  | Some slot => Some (fst entry, snd entry, slot)
                  | None => acc
                  end)
               entries a)).
Proof.
  intros Hjob. induction entries as [|[l line] entries IH]; intros a Hget.
  - reflexivity.
  - cbn [keys map fst snd foldM fold_left].
    rewrite extract_first_slot_find.
    destruct (find (assigned vals j l) time_slots) as [s|] eqn:Ef.
    + unfold getitem at 1. rewrite Hjob. cbn [res_bind].
      unfold getitem at 1.
      pose proof (Hget (l, line) (or_introl eq_refl)) as Hl.
      cbn [fst snd] in Hl. rewrite Hl. cbn [res_bind].
      assert (Hset : setitem (set_assignment now job j results a) j
                       {| assigned_line := l; assigned_slot := s;
                          job_info := job; se_line_info := line;
                          scheduled_time := now + s * seconds_per_hour |}
                     = set_assignment now job j results (Some (l, line, s))).
      { unfold set_assignment, schedule_entry. cbn [fst snd].
        destruct a; [apply setitem_setitem | reflexivity]. }
      rewrite Hset.
      apply (IH (Some (l, line, s))). intros e He. apply Hget. right; exact He.
    + cbn [res_bind]. apply IH. intros e He. apply Hget. right; exact He.
Qed.

Hypothesis wf_lines : wf lines_data.

Lemma extract_jobs_ok :
  forall (entries : dict JobInfo) (results : dict SchedEntry),
    (forall e, In e entries -> get jobs_data (fst e) = Some (snd e)) ->
    NoDup (keys results ++ keys entries) ->
    foldM
      (fun results '(job_id, by_line) =>
         foldM
           (fun results '(line_id, by_slot) =>
              extract_first_slot vals jobs_data lines_data now job_id line_id
                                 by_slot results)
           by_line results)
      (map (fun j =>
              (j, map (fun l =>
                         (l, map (fun s => (s, sched_var j l s)) time_slots))
                      (keys lines_data)))
           (keys entries))
      results
    = Ok (results ++ extracted_schedule vals entries lines_data now).
Proof.
  induction entries as [|[j job] entries IH]; intros results Hget Hnd.
  - simpl. rewrite app_nil_r. reflexivity.
  - cbn [keys map fst snd foldM].
    pose proof (Hget (j, job) (or_introl eq_refl)) as Hj. cbn [fst snd] in Hj.
    pose proof (extract_lines_ok j job results Hj lines_data None) as Hlines.
    change (set_assignment now job j results None) with results in Hlines.
    rewrite Hlines.
    2:{ intros [l line] He. apply In_get; [exact wf_lines | exact He]. }
    cbn [res_bind].
    unfold extracted_schedule. cbn [flat_map fst snd].
    fold (extracted_schedule vals entries lines_data now).
    fold (job_assignment vals lines_data j).
    assert (Hni : ~ In j (keys results)).
    { cbn [keys map fst] in Hnd. apply NoDup_remove_2 in Hnd.
      intros Hin. apply Hnd. apply in_or_app. left; exact Hin. }
    destruct (job_assignment vals lines_data j) as [a|]; cbn [set_assignment].
    + rewrite keys_setitem_new by exact Hni.
      rewrite IH.
      * rewrite <- app_assoc. reflexivity.
      * intros e He. apply Hget. right; exact He.
      * unfold keys. rewrite map_app. cbn [map fst].
        rewrite <- app_assoc. exact Hnd.
    + rewrite IH.
      * reflexivity.
      * intros e He. apply Hget. right; exact He.
      * cbn [keys map fst] in Hnd. apply NoDup_remove_1 in Hnd. exact Hnd.
Qed.

Hypothesis wf_jobs : wf jobs_data.

Lemma extract_schedule_results_ok :
  _extract_schedule_results
    vals (schedule_variables jobs_data lines_data) jobs_data lines_data now
  = Ok (extracted_schedule vals jobs_data lines_data now).
Proof.
  unfold _extract_schedule_results.
  rewrite (schedule_variables_eq jobs_data lines_data wf_jobs wf_lines).
  rewrite (extract_jobs_ok jobs_data []).
  - reflexivity.
  - intros [j job] He. apply In_get; [exact wf_jobs | exact He].
  - exact wf_jobs.
Qed.

(** *** The assignment chosen for a job *)

Lemma job_assignment_sound_from (j : Z) (entries : dict LineInfo)
      (acc : option (Z * LineInfo * Z)) (l : Z) (line : LineInfo) (s : Z) :
  fold_left
    (fun acc (entry : Z * LineInfo) =>
       match find (assigned vals j (fst entry)) time_slots with
       | Some slot => Some (fst entry, snd entry, slot)
       | None => acc
       end)
    entries acc = Some (l, line, s) ->
  acc = Some (l, line, s)
  \/ (In (l, line) entries /\ In s time_slots /\ assigned vals j l s = true).
Proof.
  revert acc. induction entries as [|[l0 line0] entries IH]; intros acc H.
  - left. exact H.
  - cbn [fold_left fst snd] in H. apply IH in H. destruct H as [H|H].
    + destruct (find (assigned vals j l0) time_slots) as [s0|] eqn:Ef.
      * injection H as -> -> ->. right.
        apply find_some in Ef. destruct Ef as [Hs Ha].
        split; [left; reflexivity | split; assumption].
      * left. exact H.
    + right. destruct H as [Hin Hrest]. split; [right; exact Hin | exact Hrest].
Qed.

Lemma job_assignment_sound (j l : Z) (line : LineInfo) (s : Z) :
  job_assignment vals lines_data j = Some (l, line, s) ->
  In (l, line) lines_data /\ In s time_slots /\ assigned vals j l s = true.
Proof.
  intros H. apply job_assignment_sound_from in H.
  destruct H as [H|H]; [discriminate H | exact H].
Qed.

Lemma job_assignment_complete_from (j : Z) (entries : dict LineInfo)
      (acc : option (Z * LineInfo * Z)) :
  acc <> None
  \/ (exists l line s, In (l, line) entries /\ In s time_slots
                       /\ assigned vals j l s = true) ->
  fold_left
    (fun acc (entry : Z * LineInfo) =>
       match find (assigned vals j (fst entry)) time_slots with
       | Some slot => Some (fst entry, snd entry, slot)
       | None => acc
       end)
    entries acc <> None.
Proof.
  revert acc. induction entries as [|[l0 line0] entries IH]; intros acc H.
  - destruct H as [H|[l [line [s [[] _]]]]]. exact H.
  - cbn [fold_left fst snd]. apply IH.
    destruct (find (assigned vals j l0) time_slots) as [s0|] eqn:Ef.
    + left. discriminate.
    + destruct H as [H|[l [line [s [[Heq|Hin] [Hs Ha]]]]]].
      * left. exact H.
      * injection Heq as -> ->.
        pose proof (find_none _ _ Ef s Hs) as Hn. congruence.
      * right. exists l, line, s. split; [exact Hin | split; assumption].
Qed.

Lemma job_assignment_complete (j l : Z) (s : Z) :
  In l (keys lines_data) -> In s time_slots -> assigned vals j l s = true ->
  exists a, job_assignment vals lines_data j = Some a.
Proof.
  intros Hl Hs Ha. destruct (In_keys _ _ Hl) as [line Hline].
  destruct (job_assignment vals lines_data j) as [a|] eqn:E.
  - exists a. reflexivity.
  - exfalso. revert E. apply job_assignment_complete_from.
    right. exists l, line, s. split; [exact Hline | split; assumption].
Qed.

Lemma keys_extracted_schedule_incl (entries : dict JobInfo) (j : Z) :
  In j (keys (extracted_schedule vals entries lines_data now)) ->
  In j (keys entries).
Proof.
  unfold extracted_schedule, keys.
  induction entries as [|[j0 job0] entries IH]; cbn [flat_map map fst snd].
  - tauto.
  - destruct (job_assignment vals lines_data j0); cbn [app map fst In]; tauto.
Qed.

Lemma wf_extracted_schedule (entries : dict JobInfo) :
  wf entries -> wf (extracted_schedule vals entries lines_data now).
Proof.
  unfold wf. induction entries as [|[j0 job0] entries IH]; intros Hnd.
  - constructor.
  - inversion Hnd as [|? ? Hni Hnd']; subst.
    unfold extracted_schedule. cbn [flat_map fst snd].
    fold (extracted_schedule vals entries lines_data now).
    destruct (job_assignment vals lines_data j0); cbn [app].
    + cbn [keys map fst]. constructor; [|apply IH; exact Hnd'].
      intros Hin. apply Hni. apply keys_extracted_schedule_incl. exact Hin.
    + apply IH. exact Hnd'.
Qed.

Lemma In_extracted_schedule (j : Z) (e : SchedEntry) :
  In (j, e) (extracted_schedule vals jobs_data lines_data now) ->
  exists job a,
    In (j, job) jobs_data
    /\ job_assignment vals lines_data j = Some a
    /\ e = schedule_entry now job a.
Proof.
  unfold extracted_schedule. intros H. apply in_flat_map in H.
  destruct H as [[j' job] [Hin H]]. cbn [fst snd] in H.
  destruct (job_assignment vals lines_data j') as [a|] eqn:E; [|destruct H].
  destruct H as [[= -> <-]|[]].
  exists job, a. split; [exact Hin | split; [exact E | reflexivity]].
Qed.

(** The load of a slot is bounded by the demand the capacity constraint
    charges for it. *)
Lemma slot_load_le_demand (l s : Z) (entries : dict JobInfo) :
  (forall job, In job entries ->
     0 <= quantity (snd job) /\ (0 <= vals (sched_ (fst job) l s))%Q) ->
  (inject_Z (slot_load (extracted_schedule vals entries lines_data now) l s)
   <= PyNum.sumQ (map (fun job : Z * JobInfo =>
                         inject_Z (quantity (snd job))
                         * vals (sched_ (fst job) l s))
                      entries))%Q.
Proof.
  induction entries as [|[j job] entries IH]; intros Hpos.
  - apply Qle_refl.
  - assert (IH' := IH (fun x Hx => Hpos x (or_intror Hx))).
    destruct (Hpos (j, job) (or_introl eq_refl)) as [Hq Hv]. cbn [fst snd] in Hq, Hv.
    assert (Hterm : (0 <= inject_Z (quantity job) * vals (sched_ j l s))%Q).
    { apply Qmult_le_0_compat; [|exact Hv].
      change 0%Q with (inject_Z 0). rewrite <- Zle_Qle. exact Hq. }
    unfold extracted_schedule. cbn [flat_map map fst snd].
    fold (extracted_schedule vals entries lines_data now).
    rewrite sumQ_cons.
    destruct (job_assignment vals lines_data j) as [[[l' line'] s']|] eqn:E;
      cbn [app].
    + unfold slot_load. cbn [filter snd schedule_entry assigned_line
                             assigned_slot fst].
      destruct (Z.eqb l' l && Z.eqb s' s) eqn:Em.
      * apply andb_true_iff in Em. destruct Em as [El Es].
        apply Z.eqb_eq in El, Es. subst l' s'.
        apply job_assignment_sound in E. destruct E as [_ [_ Ha]].
        unfold assigned in Ha. apply Qeq_bool_iff in Ha.
        cbn [map snd job_info schedule_entry PyNum.sumZ fold_right].
        rewrite inject_Z_plus. rewrite Ha.
        unfold slot_load, PyNum.sumZ in IH'. lra.
      * unfold slot_load in IH'. lra.
    + lra.
Qed.

End ScheduleExtraction.

(** ** Successful schedule optimizations *)

Section ScheduleSuccessFacts.

Lemma optimize_production_schedule_success
      (cbc : Solver) (w w' : World) (s : ScheduleSuccess) :
  optimize_production_schedule cbc w = (Ok (success s), w') ->
  exists p vals,
    production_schedule_model (_get_pending_jobs_data w)
                              (_get_production_lines_data w)
    = Ok (p, schedule_variables (_get_pending_jobs_data w)
                                (_get_production_lines_data w))
    /\ cbc p = (LpStatusOptimal, vals)
    /\ schedule s
       = extracted_schedule vals (_get_pending_jobs_data w)
                            (_get_production_lines_data w) (utcnow w).
Proof.
  unfold optimize_production_schedule. rewrite try_except_reraise.
  intros H. apply get_db_session_ok_inv in H.
  destruct H as [w1 [w2 [Hbody _]]].
  apply bind_ok_inv in Hbody. destruct Hbody as [lines [wa [Hl Hbody]]].
  unfold gets in Hl. injection Hl as <- <-.
  apply bind_ok_inv in Hbody. destruct Hbody as [jobs [wb [Hj Hbody]]].
  unfold gets in Hj. injection Hj as <- <-.
  change (_get_production_lines_data (set_pending [] w))
    with (_get_production_lines_data w) in *.
  change (_get_pending_jobs_data (set_pending [] w))
    with (_get_pending_jobs_data w) in *.
  destruct (is_empty (_get_production_lines_data w)
            || is_empty (_get_pending_jobs_data w));
    [discriminate Hbody|].
  apply bind_ok_inv in Hbody. destruct Hbody as [[p vars] [wc [Hmodel Hbody]]].
  unfold lift in Hmodel. injection Hmodel as Hmodel <-.
  apply bind_ok_inv in Hbody. destruct Hbody as [[st vals] [wd [Hsolve Hbody]]].
  unfold solve, bind, modify, ret in Hsolve. injection Hsolve as Hsolve <-.
  destruct st; cbn [is_optimal] in Hbody; try discriminate Hbody.
  apply bind_ok_inv in Hbody. destruct Hbody as [now [wn [Hnow Hbody]]].
  unfold gets in Hnow. injection Hnow as <- <-.
  apply bind_ok_inv in Hbody. destruct Hbody as [res [we [Hext Hbody]]].
  unfold lift in Hext. injection Hext as Hext <-.
  apply bind_ok_inv in Hbody. destruct Hbody as [[] [wf0 [_ Hbody]]].
  apply bind_ok_inv in Hbody. destruct Hbody as [[] [wg [_ Hbody]]].
  unfold ret in Hbody. injection Hbody as <- <-.
  pose proof (wf_jobs_data w) as Hwj.
  pose proof (wf_lines_data w) as Hwl.
  destruct (production_schedule_model_ok _ _ Hwj Hwl) as [p' [E _]].
  rewrite Hmodel in E. injection E as <- ->.
  exists p, vals. split; [exact Hmodel|]. split; [exact Hsolve|].
  cbn [schedule].
  rewrite (extract_schedule_results_ok vals _ _ _ Hwl Hwj) in Hext.
  injection Hext as <-. reflexivity.
Qed.

Lemma jobs_quantity_nonneg (w : World) (job : Z * JobInfo) :
  In job (_get_pending_jobs_data w) -> 0 <= quantity (snd job).
Proof.
  unfold _get_pending_jobs_data. simpl.
  intros [<-|[<-|[<-|[]]]]; simpl; lia.
Qed.

End ScheduleSuccessFacts.

(** ** C3: the schedule respects the constraints of the model *)

(** C3.  For every successful result of [optimize_production_schedule]:
    every pending job appears in the schedule, with one entry (the schedule
    holds no job twice), on a line of the snapshot at one of the 24 slots,
    so in exactly one (line, slot) pair; no two jobs of the schedule have the
    same (line, slot) pair; and for every line of the snapshot and every
    slot the total quantity of the jobs scheduled there is at most the
    line's [capacity_per_hour].  Of the solver it is only assumed that
    status [Optimal] comes with feasible values of the model that was
    built. *)
Theorem C3_schedule_respects_constraints
        (cbc : Solver) (w w' : World) (s : ScheduleSuccess) :
  (forall p vars,
     production_schedule_model (_get_pending_jobs_data w)
                               (_get_production_lines_data w) = Ok (p, vars) ->
     solver_feasible_on cbc p) ->
  optimize_production_schedule cbc w = (Ok (success s), w') ->
  (forall job_id,
     In job_id (keys (_get_pending_jobs_data w)) ->
     exists e,
       get (schedule s) job_id = Some e
       /\ In (assigned_line e) (keys (_get_production_lines_data w))
       /\ In (assigned_slot e) time_slots)
  /\ wf (schedule s)
  /\ (forall j1 e1 j2 e2,
        In (j1, e1) (schedule s) -> In (j2, e2) (schedule s) ->
        assigned_line e1 = assigned_line e2 ->
        assigned_slot e1 = assigned_slot e2 ->
        j1 = j2)
  /\ (forall line_id line slot,
        get (_get_production_lines_data w) line_id = Some line ->
        In slot time_slots ->
        slot_load (schedule s) line_id slot <= li_capacity_per_hour line).
Proof.
  intros Hsolver Hrun.
  destruct (optimize_production_schedule_success cbc w w' s Hrun)
    as [p [vals [Hm [Hs Hx]]]].
  pose proof (wf_jobs_data w) as Hwj.
  pose proof (wf_lines_data w) as Hwl.
  assert (Hf : feasible p vals).
  { specialize (Hsolver _ _ Hm). unfold solver_feasible_on in Hsolver.
    rewrite Hs in Hsolver. apply Hsolver. reflexivity. }
  assert (Hwf : wf (schedule s)).
  { rewrite Hx. apply wf_extracted_schedule. exact Hwj. }
  assert (Hentry : forall j e, In (j, e) (schedule s) ->
            In j (keys (_get_pending_jobs_data w))
            /\ In (assigned_line e) (keys (_get_production_lines_data w))
            /\ In (assigned_slot e) time_slots
            /\ assigned vals j (assigned_line e) (assigned_slot e) = true).
  { intros j e Hin. rewrite Hx in Hin.
    apply In_extracted_schedule in Hin.
    destruct Hin as [job [[[l line] sl] [Hjob [Ha ->]]]].
    apply job_assignment_sound in Ha. destruct Ha as [Hl [Hsl Has]].
    cbn [schedule_entry assigned_line assigned_slot fst snd].
    split; [apply (In_fst_keys _ _ _ Hjob)|].
    split; [apply (In_fst_keys _ _ _ Hl)|]. split; assumption. }
  split; [|split; [exact Hwf|split]].
  - intros j Hj.
    destruct (feasible_job_assigned _ _ Hwj Hwl p Hm vals Hf j Hj)
      as [l [sl [Hl [Hsl Ha]]]].
    destruct (job_assignment_complete vals _ j l sl Hl Hsl Ha) as [a Hja].
    destruct (In_keys _ _ Hj) as [job Hjob].
    assert (Hin : In (j, schedule_entry (utcnow w) job a) (schedule s)).
    { rewrite Hx. unfold extracted_schedule. apply in_flat_map.
      exists (j, job). split; [exact Hjob|]. cbn [fst snd]. rewrite Hja.
      left; reflexivity. }
    exists (schedule_entry (utcnow w) job a).
    split; [apply (In_get _ _ _ Hwf Hin)|].
    destruct (Hentry _ _ Hin) as [_ [H1 [H2 _]]]. split; assumption.
  - intros j1 e1 j2 e2 H1 H2 Hl Hsl.
    destruct (Hentry _ _ H1) as [Hj1 [Hl1 [Hs1 Ha1]]].
    destruct (Hentry _ _ H2) as [Hj2 [_ [_ Ha2]]].
    rewrite <- Hl, <- Hsl in Ha2.
    apply (feasible_no_clash _ _ Hwj Hwl p Hm vals Hf j1 j2
             (assigned_line e1) (assigned_slot e1)); assumption.
  - intros l line sl Hline Hsl.
    apply get_Some_In in Hline.
    rewrite Zle_Qle. rewrite Hx.
    eapply Qle_trans.
    + apply slot_load_le_demand. intros job Hjob. split.
      * apply (jobs_quantity_nonneg w job Hjob).
      * apply (feasible_sched_nonneg _ _ Hwj Hwl p Hm vals Hf).
        -- destruct job as [j jb]. apply (In_fst_keys _ _ _ Hjob).
        -- apply (In_fst_keys _ _ _ Hline).
        -- exact Hsl.
    + apply (feasible_capacity _ _ Hwj Hwl p Hm vals Hf l line sl Hline Hsl).
Qed.

(** The sample world with the three sample jobs on line 7 at slots 0, 1
    and 2. *)
Lemma C3_witness :
  exists s w',
    optimize_production_schedule cbc_three_slots world_one_item
    = (Ok (success s), w')
    /\ (exists e, get (schedule s) 2 = Some e)
    /\ slot_load (schedule s) 7 1 <= 200.
Proof.
  eexists. eexists. split; [vm_compute; reflexivity|].
  edestruct (C3_schedule_respects_constraints cbc_three_slots world_one_item)
    as [Hjobs [_ [_ Hload]]].
  - intros p vars Hm. vm_compute in Hm. injection Hm as <- _.
    intros _. apply feasibleb_sound. vm_compute. reflexivity.
  - vm_compute. reflexivity.
  - split.
    + destruct (Hjobs 2) as [e [He _]].
      * vm_compute. tauto.
      * exists e. exact He.
    + apply (Hload 7 {| li_name := "Assembly Line 1";
                        li_capacity_per_hour := 200;
                        li_efficiency_target := PyNum.lit_0_9;
                        setup_cost := 10 |} 1).
      * vm_compute. reflexivity.
      * vm_compute. tauto.
Defined.

(* ================================================================== *)
(** * Further properties of the engine *)

(** ** Running with a database that does not fail *)

Section NoFault.

Lemma bind_ok {A B} (m : M A) (k : A -> M B) (w w1 : World) (a : A) :
  m w = (Ok a, w1) -> bind m k w = k a w1.
Proof. intros H. unfold bind. rewrite H. reflexivity. Qed.

Lemma bind_raise {A B} (m : M A) (k : A -> M B) (w w1 : World) (e : exn) :
  m w = (Raise e, w1) -> bind m k w = (Raise e, w1).
Proof. intros H. unfold bind. rewrite H. reflexivity. Qed.

Lemma set_pending_twice (p q : list Row) (w : World) :
  set_pending p (set_pending q w) = set_pending p w.
Proof. reflexivity. Qed.

Lemma session_add_no_fault (r : Row) (w : World) :
  faults w = [] ->
  session_add r w = (Ok tt, set_pending (pending w ++ [r]) w).
Proof.
  intros Hf. unfold session_add, bind, next_fault, modify. rewrite Hf.
  reflexivity.
Qed.

Lemma session_commit_no_fault (w : World) :
  faults w = [] -> session_commit w = (Ok tt, flush w).
Proof.
  intros Hf. unfold session_commit, bind, next_fault, modify. rewrite Hf.
  reflexivity.
Qed.

Lemma pending_allocations_app (p q : list Row) :
  pending_allocations (p ++ q) = pending_allocations p ++ pending_allocations q.
Proof. unfold pending_allocations. apply flat_map_app. Qed.

Lemma pending_optimizations_app (p q : list Row) :
  pending_optimizations (p ++ q)
  = pending_optimizations p ++ pending_optimizations q.
Proof. unfold pending_optimizations. apply flat_map_app. Qed.

Lemma pending_allocations_rows (rs : list ResourceAllocation) :
  pending_allocations (map row_allocation rs) = rs.
Proof.
  induction rs as [|r rs IH]; [reflexivity|].
  simpl. f_equal. exact IH.
Qed.

Lemma pending_optimizations_rows (rs : list ResourceAllocation) :
  pending_optimizations (map row_allocation rs) = [].
Proof. induction rs as [|r rs IH]; [reflexivity | exact IH]. Qed.

Lemma inventory_row_adds_no_fault (i : Z) (by_line : dict AllocEntry) :
  forall w,
    faults w = [] ->
    for_each by_line
      (fun '(line_id, allocation_data) =>
         let allocated_qty := allocated_quantity allocation_data in
         now <- gets utcnow ;;
         session_add
           (row_allocation
              {| ra_production_line_id := line_id;
                 resource_type := MATERIAL;
                 resource_id := str_ i;
                 ra_allocated_quantity := allocated_qty;
                 allocation_date := now;
                 ra_status := PLANNED |})) w
    = (Ok tt,
       set_pending
         (pending w
          ++ map row_allocation (allocation_records (utcnow w) [(i, by_line)]))
         w).
Proof.
  induction by_line as [|[l e] by_line IH]; intros w Hf.
  - cbn. rewrite app_nil_r. destruct w; reflexivity.
  - cbn [for_each]. cbv zeta.
    erewrite bind_ok.
    2:{ unfold bind, gets. apply session_add_no_fault. exact Hf. }
    rewrite IH by exact Hf.
    rewrite set_pending_twice.
    unfold allocation_records. cbn [flat_map map fst snd app pending utcnow set_pending].
    rewrite !app_nil_r, <- app_assoc. reflexivity.
Qed.

Lemma allocation_records_cons (now : Z) (row : Z * dict AllocEntry)
      (allocs : dict (dict AllocEntry)) :
  allocation_records now (row :: allocs)
  = allocation_records now [row] ++ allocation_records now allocs.
Proof. unfold allocation_records. cbn [flat_map]. rewrite app_nil_r. reflexivity. Qed.

Lemma inventory_adds_no_fault (allocs : dict (dict AllocEntry)) :
  forall w,
    faults w = [] ->
    for_each allocs
      (fun '(item_id, by_line) =>
         for_each by_line
           (fun '(line_id, allocation_data) =>
              let allocated_qty := allocated_quantity allocation_data in
              now <- gets utcnow ;;
              session_add
                (row_allocation
                   {| ra_production_line_id := line_id;
                      resource_type := MATERIAL;
                      resource_id := str_ item_id;
                      ra_allocated_quantity := allocated_qty;
                      allocation_date := now;
                      ra_status := PLANNED |}))) w
    = (Ok tt,
       set_pending
         (pending w ++ map row_allocation (allocation_records (utcnow w) allocs))
         w).
Proof.
  induction allocs as [|[i by_line] allocs IH]; intros w Hf.
  - cbn. rewrite app_nil_r. destruct w; reflexivity.
  - cbn [for_each].
    erewrite bind_ok by (apply inventory_row_adds_no_fault; exact Hf).
    rewrite IH by exact Hf.
    rewrite set_pending_twice.
    rewrite (allocation_records_cons _ (i, by_line) allocs), map_app.
    cbn [pending utcnow set_pending]. rewrite <- app_assoc. reflexivity.
Qed.

Lemma inventory_writes_no_fault (allocs : dict (dict AllocEntry)) (w : World) :
  faults w = [] ->
  inventory_allocation_writes allocs w
  = (Ok tt,
     flush (set_pending
              (pending w
               ++ map row_allocation (allocation_records (utcnow w) allocs))
              w)).
Proof.
  intros Hf. unfold inventory_allocation_writes.
  erewrite bind_ok by (apply inventory_adds_no_fault; exact Hf).
  apply session_commit_no_fault. exact Hf.
Qed.

Lemma schedule_adds_no_fault (sched : dict SchedEntry) :
  forall w,
    faults w = [] ->
    for_each sched
      (fun '(job_id, schedule_data) =>
         let line_id := assigned_line schedule_data in
         let scheduled_time := scheduled_time schedule_data in
         session_add
           (row_allocation
              {| ra_production_line_id := line_id;
                 resource_type := LABOR;
                 resource_id := job_ job_id;
                 ra_allocated_quantity := 1;
                 allocation_date := scheduled_time;
                 ra_status := PLANNED |})) w
    = (Ok tt,
       set_pending (pending w ++ map row_allocation (schedule_records sched)) w).
Proof.
  induction sched as [|[j e] sched IH]; intros w Hf.
  - cbn. rewrite app_nil_r. destruct w; reflexivity.
  - cbn [for_each]. cbv zeta.
    erewrite bind_ok by (apply session_add_no_fault; exact Hf).
    rewrite IH by exact Hf.
    rewrite set_pending_twice.
    cbn [schedule_records map fst snd pending set_pending].
    rewrite <- app_assoc. reflexivity.
Qed.

Lemma schedule_writes_no_fault (sched : dict SchedEntry) (w : World) :
  faults w = [] ->
  production_schedule_writes sched w
  = (Ok tt,
     flush (set_pending (pending w ++ map row_allocation (schedule_records sched))
                        w)).
Proof.
  intros Hf. unfold production_schedule_writes.
  erewrite bind_ok by (apply schedule_adds_no_fault; exact Hf).
  apply session_commit_no_fault. exact Hf.
Qed.

Lemma save_no_fault (opt_type : OptimizationType)
      (prob : option (LpProblem * Valuation)) (blob : ResultsBlob) (w : World) :
  faults w = [] ->
  _save_optimization_result opt_type prob blob w
  = (Ok tt,
     flush (set_pending
              (pending w
               ++ [row_optimization
                     (completed_run opt_type blob
                        match prob with
                        | Some (p, vals) => value vals (objective p)
                        | None => 0%Q
                        end)])
              w)).
Proof.
  intros Hf. unfold _save_optimization_result, try_except. cbv zeta.
  erewrite bind_ok by (apply session_add_no_fault; exact Hf).
  rewrite session_commit_no_fault by exact Hf. reflexivity.
Qed.

Lemma get_db_session_no_fault {A} (body : M A) (w w1 : World) (a : A) :
  body (set_pending [] w) = (Ok a, w1) ->
  faults w1 = [] ->
  get_db_session body w = (Ok a, set_pending [] (flush w1)).
Proof.
  intros Hbody Hf.
  unfold get_db_session, try_finally, try_except, session_close.
  unfold bind at 1. unfold modify at 1. cbn beta iota.
  unfold bind at 1. rewrite Hbody.
  unfold bind at 1. rewrite (session_commit_no_fault w1 Hf).
  reflexivity.
Qed.

End NoFault.

(** ** What a successful call writes *)

Section SuccessWrites.

Lemma apply_inventory_no_fault (allocs : dict (dict AllocEntry)) (w : World) :
  faults w = [] ->
  _apply_inventory_allocations allocs w
  = (Ok tt,
     flush (set_pending
              (pending w
               ++ map row_allocation (allocation_records (utcnow w) allocs))
              w)).
Proof.
  intros Hf. unfold _apply_inventory_allocations, try_except.
  rewrite (inventory_writes_no_fault allocs w Hf). reflexivity.
Qed.

Lemma apply_schedule_no_fault (sched : dict SchedEntry) (w : World) :
  faults w = [] ->
  _apply_production_schedule sched w
  = (Ok tt,
     flush (set_pending (pending w ++ map row_allocation (schedule_records sched))
                        w)).
Proof.
  intros Hf. unfold _apply_production_schedule, try_except.
  rewrite (schedule_writes_no_fault sched w Hf). reflexivity.
Qed.

Lemma optimize_inventory_no_fault
      (cbc : Solver) (w : World) (p : LpProblem) (vars : dict (dict LpVariable))
      (vals : Valuation) (allocs : dict (dict AllocEntry)) :
  faults w = [] ->
  is_empty (_get_inventory_data w) = false ->
  is_empty (_get_production_requirements w) = false ->
  inventory_allocation_model (_get_inventory_data w)
                             (_get_production_requirements w) = Ok (p, vars) ->
  cbc p = (LpStatusOptimal, vals) ->
  _extract_allocation_results vals vars (_get_inventory_data w)
                              (_get_production_requirements w) = Ok allocs ->
  exists w',
    optimize_inventory_allocation cbc w
    = (Ok (success {| as_objective_value := value vals (objective p);
                      allocations := allocs |}), w')
    /\ optimization_results w'
       = optimization_results w
         ++ [completed_run INVENTORY (allocation_blob allocs)
                           (value vals (objective p))]
    /\ resource_allocations w'
       = resource_allocations w ++ allocation_records (utcnow w) allocs
    /\ pending w' = []
    /\ solver_calls w' = solver_calls w ++ [p].
Proof.
  intros Hf Hi Hp Hm Hs Hx.
  unfold optimize_inventory_allocation. rewrite try_except_reraise.
  eexists. split.
  - apply get_db_session_no_fault.
    + unfold bind at 1. unfold gets at 1. unfold bind at 1. unfold gets at 1.
      change (_get_inventory_data (set_pending [] w)) with (_get_inventory_data w).
      change (_get_production_requirements (set_pending [] w))
        with (_get_production_requirements w).
      rewrite Hi, Hp. cbn [orb].
      unfold bind at 1. unfold lift at 1. rewrite Hm.
      unfold bind at 1. unfold solve at 1. unfold bind at 1.
      unfold modify at 1. unfold ret at 1. rewrite Hs. cbn [is_optimal].
      unfold bind at 1. unfold lift at 1. rewrite Hx.
      erewrite bind_ok by (apply save_no_fault; exact Hf).
      erewrite bind_ok by (apply apply_inventory_no_fault; exact Hf).
      reflexivity.
    + exact Hf.
  - destruct w as [ii pl pr ra orr pe fs now sc]. cbn in Hf. subst fs.
    cbn. rewrite !app_nil_r, pending_allocations_rows, pending_optimizations_rows,
           !app_nil_r.
    repeat split; reflexivity.
Qed.

Lemma optimize_schedule_no_fault
      (cbc : Solver) (w : World) (p : LpProblem)
      (vars : dict (dict (dict LpVariable)))
      (vals : Valuation) (sched : dict SchedEntry) :
  faults w = [] ->
  is_empty (_get_production_lines_data w) = false ->
  production_schedule_model (_get_pending_jobs_data w)
                            (_get_production_lines_data w) = Ok (p, vars) ->
  cbc p = (LpStatusOptimal, vals) ->
  _extract_schedule_results vals vars (_get_pending_jobs_data w)
                            (_get_production_lines_data w) (utcnow w) = Ok sched ->
  exists w',
    optimize_production_schedule cbc w
    = (Ok (success {| ss_objective_value := value vals (objective p);
                      schedule := sched |}), w')
    /\ optimization_results w'
       = optimization_results w
         ++ [completed_run PRODUCTION (schedule_blob sched)
                           (value vals (objective p))]
    /\ resource_allocations w' = resource_allocations w ++ schedule_records sched
    /\ pending w' = []
    /\ solver_calls w' = solver_calls w ++ [p].
Proof.
  intros Hf Hl Hm Hs Hx.
  unfold optimize_production_schedule. rewrite try_except_reraise.
  eexists. split.
  - apply get_db_session_no_fault.
    + unfold bind at 1. unfold gets at 1. unfold bind at 1. unfold gets at 1.
      change (_get_production_lines_data (set_pending [] w))
        with (_get_production_lines_data w).
      change (_get_pending_jobs_data (set_pending [] w))
        with (_get_pending_jobs_data w).
      rewrite Hl.
      change (is_empty (_get_pending_jobs_data w)) with false. cbn [orb].
      unfold bind at 1. unfold lift at 1. rewrite Hm.
      unfold bind at 1. unfold solve at 1. unfold bind at 1.
      unfold modify at 1. unfold ret at 1. rewrite Hs. cbn [is_optimal].
      unfold bind at 1. unfold gets at 1.
      unfold bind at 1. unfold lift at 1.
      change (utcnow (log_solver_call p (set_pending [] w))) with (utcnow w).
      rewrite Hx.
      erewrite bind_ok by (apply save_no_fault; exact Hf).
      erewrite bind_ok by (apply apply_schedule_no_fault; exact Hf).
      reflexivity.
    + exact Hf.
  - destruct w as [ii pl pr ra orr pe fs now sc]. cbn in Hf. subst fs.
    cbn. rewrite !app_nil_r, pending_allocations_rows, pending_optimizations_rows,
           !app_nil_r.
    repeat split; reflexivity.
Qed.

End SuccessWrites.

Section SuccessWritesTheorems.

Lemma optimize_production_schedule_success_full
      (cbc : Solver) (w w' : World) (s : ScheduleSuccess) :
  optimize_production_schedule cbc w = (Ok (success s), w') ->
  exists p vars vals,
    is_empty (_get_production_lines_data w) = false
    /\ production_schedule_model (_get_pending_jobs_data w)
                                 (_get_production_lines_data w) = Ok (p, vars)
    /\ cbc p = (LpStatusOptimal, vals)
    /\ _extract_schedule_results vals vars (_get_pending_jobs_data w)
                                 (_get_production_lines_data w) (utcnow w)
       = Ok (schedule s)
    /\ ss_objective_value s = value vals (objective p).
Proof.
  unfold optimize_production_schedule. rewrite try_except_reraise.
  intros H. apply get_db_session_ok_inv in H.
  destruct H as [w1 [w2 [Hbody _]]].
  apply bind_ok_inv in Hbody. destruct Hbody as [lines [wa [Hl Hbody]]].
  unfold gets in Hl. injection Hl as <- <-.
  apply bind_ok_inv in Hbody. destruct Hbody as [jobs [wb [Hj Hbody]]].
  unfold gets in Hj. injection Hj as <- <-.
  change (_get_production_lines_data (set_pending [] w))
    with (_get_production_lines_data w) in *.
  change (_get_pending_jobs_data (set_pending [] w))
    with (_get_pending_jobs_data w) in *.
  destruct (is_empty (_get_production_lines_data w)) eqn:El;
    [discriminate Hbody|].
  change (is_empty (_get_pending_jobs_data w)) with false in Hbody.
  cbn [orb] in Hbody.
  apply bind_ok_inv in Hbody. destruct Hbody as [[p vars] [wc [Hmodel Hbody]]].
  unfold lift in Hmodel. injection Hmodel as Hmodel <-.
  apply bind_ok_inv in Hbody. destruct Hbody as [[st vals] [wd [Hsolve Hbody]]].
  unfold solve, bind, modify, ret in Hsolve. injection Hsolve as Hsolve <-.
  destruct st; cbn [is_optimal] in Hbody; try discriminate Hbody.
  apply bind_ok_inv in Hbody. destruct Hbody as [now [wn [Hnow Hbody]]].
  unfold gets in Hnow. injection Hnow as <- <-.
  apply bind_ok_inv in Hbody. destruct Hbody as [res [we [Hext Hbody]]].
  unfold lift in Hext. injection Hext as Hext <-.
  apply bind_ok_inv in Hbody. destruct Hbody as [[] [wf0 [_ Hbody]]].
  apply bind_ok_inv in Hbody. destruct Hbody as [[] [wg [_ Hbody]]].
  unfold ret in Hbody. injection Hbody as <- <-.
  exists p, vars, vals. cbn [schedule ss_objective_value]. auto 10.
Qed.

End SuccessWritesTheorems.

(** X1.  With a database that does not fail, a successful
    [optimize_inventory_allocation] appends exactly one optimization run, of
    type [INVENTORY] and status [COMPLETED], carrying the returned
    allocations and objective value, and exactly one [MATERIAL] / [PLANNED]
    resource allocation per entry of the returned allocations, dated with
    the current time; nothing stays pending. *)
Theorem inventory_success_writes
        (cbc : Solver) (w w' : World) (s : AllocationSuccess) :
  faults w = [] ->
  optimize_inventory_allocation cbc w = (Ok (success s), w') ->
  optimization_results w'
  = optimization_results w
    ++ [completed_run INVENTORY (allocation_blob (allocations s))
                      (as_objective_value s)]
  /\ resource_allocations w'
     = resource_allocations w ++ allocation_records (utcnow w) (allocations s)
  /\ pending w' = [].
Proof.
  intros Hf Hrun.
  destruct (optimize_inventory_allocation_success cbc w w' s Hrun)
    as [p [vars [vals [Hi [Hp [Hm [Hs [Hx Hobj]]]]]]]].
  destruct (optimize_inventory_no_fault cbc w p vars vals (allocations s)
              Hf Hi Hp Hm Hs Hx) as [w0 [Hrun0 [Hor [Hra [Hpe _]]]]].
  rewrite Hrun in Hrun0. injection Hrun0 as _ <-.
  rewrite Hobj. auto.
Qed.

(** The sample world: one run and one row of 30 units for line 7. *)
Lemma inventory_success_writes_witness :
  exists s w',
    optimize_inventory_allocation cbc_thirty world_one_item = (Ok (success s), w')
    /\ List.length (optimization_results w') = 1%nat
    /\ resource_allocations w'
       = [ {| ra_production_line_id := 7; resource_type := MATERIAL;
              resource_id := str_ 1; ra_allocated_quantity := 30;
              allocation_date := 2000; ra_status := PLANNED |} ].
Proof.
  eexists. eexists. split; [vm_compute; reflexivity|].
  edestruct (inventory_success_writes cbc_thirty world_one_item)
    as [Hor [Hra _]].
  - reflexivity.
  - vm_compute. reflexivity.
  - split.
    + rewrite Hor. reflexivity.
    + rewrite Hra. reflexivity.
Defined.

(** ** Projections of the world that a call leaves alone *)

Section Keeps.

Context {X : Type} (f : World -> X).
Hypothesis Hf : session_field f.

Lemma keeps_ret {A} (a : A) : keeps f (ret a).
Proof. intros w r w' [= <- <-]. reflexivity. Qed.

Lemma keeps_raise {A} (e : exn) : keeps f (@raise A e).
Proof. intros w r w' [= <- <-]. reflexivity. Qed.

Lemma keeps_gets {A} (g : World -> A) : keeps f (gets g).
Proof. intros w r w' [= <- <-]. reflexivity. Qed.

Lemma keeps_lift {A} (x : res A) : keeps f (lift x).
Proof. intros w r w' [= <- <-]. reflexivity. Qed.

Lemma keeps_bind {A B} (m : M A) (k : A -> M B) :
  keeps f m -> (forall a, keeps f (k a)) -> keeps f (bind m k).
Proof.
  intros Hm Hk w r w'. unfold bind.
  destruct (m w) as [[a|e] w1] eqn:E.
  - intros H. rewrite (Hk a _ _ _ H). apply (Hm _ _ _ E).
  - intros [= <- <-]. apply (Hm _ _ _ E).
Qed.

Lemma keeps_try_except {A} (m : M A) (h : exn -> M A) :
  keeps f m -> (forall e, keeps f (h e)) -> keeps f (try_except m h).
Proof.
  intros Hm Hh w r w'. unfold try_except.
  destruct (m w) as [[a|e] w1] eqn:E.
  - intros [= <- <-]. apply (Hm _ _ _ E).
  - intros H. rewrite (Hh e _ _ _ H). apply (Hm _ _ _ E).
Qed.

Lemma keeps_try_finally {A} (m : M A) (fin : M unit) :
  keeps f m -> keeps f fin -> keeps f (try_finally m fin).
Proof.
  intros Hm Hfin w r w'. unfold try_finally.
  destruct (m w) as [rm w1] eqn:E.
  destruct (fin w1) as [[u|e] w2] eqn:E2; intros [= <- <-];
    rewrite (Hfin _ _ _ E2); apply (Hm _ _ _ E).
Qed.

Lemma keeps_for_each {A} (l : list A) (body : A -> M unit) :
  (forall a, keeps f (body a)) -> keeps f (for_each l body).
Proof.
  intros Hb. induction l as [|a l IH]; cbn [for_each].
  - apply keeps_ret.
  - apply keeps_bind; [apply Hb | intros _; exact IH].
Qed.

Lemma keeps_next_fault : keeps f next_fault.
Proof.
  destruct Hf as [_ [Hfs _]].
  intros w r w'. unfold next_fault.
  destruct (faults w); intros [= <- <-]; [reflexivity | apply Hfs].
Qed.

Lemma keeps_session_add (r : Row) : keeps f (session_add r).
Proof.
  unfold session_add. apply keeps_bind; [apply keeps_next_fault|].
  intros [|]; [apply keeps_raise|].
  destruct Hf as [Hp _]. intros w x w' [= <- <-]. apply Hp.
Qed.

Lemma keeps_session_commit : keeps f session_commit.
Proof.
  unfold session_commit. apply keeps_bind; [apply keeps_next_fault|].
  intros [|]; [apply keeps_raise|].
  destruct Hf as [_ [_ Hfl]]. intros w x w' [= <- <-]. apply Hfl.
Qed.

Lemma keeps_set_pending (p : list Row) : keeps f (modify (set_pending p)).
Proof. destruct Hf as [Hp _]. intros w x w' [= <- <-]. apply Hp. Qed.

Lemma keeps_get_db_session {A} (body : M A) :
  keeps f body -> keeps f (get_db_session body).
Proof.
  intros Hb. unfold get_db_session.
  apply keeps_bind; [apply keeps_set_pending | intros _].
  apply keeps_try_finally; [|apply keeps_set_pending].
  apply keeps_try_except.
  - apply keeps_bind; [exact Hb | intros a].
    apply keeps_bind; [apply keeps_session_commit | intros _; apply keeps_ret].
  - intros e. apply keeps_bind; [apply keeps_set_pending | intros _].
    apply keeps_raise.
Qed.


Lemma keeps_save (t : OptimizationType) (prob : option (LpProblem * Valuation))
      (blob : ResultsBlob) :
  keeps f (_save_optimization_result t prob blob).
Proof.
  unfold _save_optimization_result. apply keeps_try_except.
  - cbv zeta. apply keeps_bind; [apply keeps_session_add | intros _].
    apply keeps_session_commit.
  - intros e. apply keeps_ret.
Qed.

Lemma keeps_apply_inventory (allocs : dict (dict AllocEntry)) :
  keeps f (_apply_inventory_allocations allocs).
Proof.
  unfold _apply_inventory_allocations, inventory_allocation_writes.
  apply keeps_try_except.
  - apply keeps_bind; [|intros _; apply keeps_session_commit].
    apply keeps_for_each. intros [i by_line].
    apply keeps_for_each. intros [l e]. cbv zeta.
    apply keeps_bind; [apply keeps_gets | intros now; apply keeps_session_add].
  - intros e. apply keeps_set_pending.
Qed.

Lemma keeps_apply_schedule (sched : dict SchedEntry) :
  keeps f (_apply_production_schedule sched).
Proof.
  unfold _apply_production_schedule, production_schedule_writes.
  apply keeps_try_except.
  - apply keeps_bind; [|intros _; apply keeps_session_commit].
    apply keeps_for_each. intros [j e]. cbv zeta. apply keeps_session_add.
  - intros e. apply keeps_set_pending.
Qed.

Hypothesis Hl : forall p w, f (log_solver_call p w) = f w.

Lemma keeps_solve (cbc : Solver) (p : LpProblem) : keeps f (solve cbc p).
Proof.
  unfold solve. apply keeps_bind; [|intros; apply keeps_ret].
  intros w x w' [= <- <-]. apply Hl.
Qed.

Lemma keeps_optimize_inventory (cbc : Solver) :
  keeps f (optimize_inventory_allocation cbc).
Proof.
  unfold optimize_inventory_allocation.
  apply keeps_try_except; [|intros e; apply keeps_raise].
  apply keeps_get_db_session.
  apply keeps_bind; [apply keeps_gets | intros inv].
  apply keeps_bind; [apply keeps_gets | intros prod].
  destruct (is_empty inv || is_empty prod); [apply keeps_ret|].
  apply keeps_bind; [apply keeps_lift | intros [p vars]].
  apply keeps_bind; [apply keeps_solve | intros [st vals]].
  destruct (is_optimal st); [|apply keeps_ret].
  apply keeps_bind; [apply keeps_lift | intros allocs].
  apply keeps_bind; [apply keeps_save | intros _].
  apply keeps_bind; [apply keeps_apply_inventory | intros _].
  apply keeps_ret.
Qed.

Lemma keeps_optimize_schedule (cbc : Solver) :
  keeps f (optimize_production_schedule cbc).
Proof.
  unfold optimize_production_schedule.
  apply keeps_try_except; [|intros e; apply keeps_raise].
  apply keeps_get_db_session.
  apply keeps_bind; [apply keeps_gets | intros lines].
  apply keeps_bind; [apply keeps_gets | intros jobs].
  destruct (is_empty lines || is_empty jobs); [apply keeps_ret|].
  apply keeps_bind; [apply keeps_lift | intros [p vars]].
  apply keeps_bind; [apply keeps_solve | intros [st vals]].
  destruct (is_optimal st); [|apply keeps_ret].
  apply keeps_bind; [apply keeps_gets | intros now].
  apply keeps_bind; [apply keeps_lift | intros sched].
  apply keeps_bind; [apply keeps_save | intros _].
  apply keeps_bind; [apply keeps_apply_schedule | intros _].
  apply keeps_ret.
Qed.

Lemma keeps_optimize_utilization : keeps f optimize_resource_utilization.
Proof.
  unfold optimize_resource_utilization.
  apply keeps_try_except; [|intros e; apply keeps_raise].
  apply keeps_get_db_session.
  apply keeps_bind; [apply keeps_gets | intros u]. cbv zeta.
  apply keeps_bind; [apply keeps_save | intros _].
  apply keeps_ret.
Qed.

End Keeps.

Section InputFields.

Lemma input_inventory_items : input_field inventory_items.
Proof. repeat split. Qed.

Lemma input_production_lines : input_field production_lines.
Proof. repeat split. Qed.

Lemma input_production_records : input_field production_records.
Proof. repeat split. Qed.

Lemma input_utcnow : input_field utcnow.
Proof. repeat split. Qed.

End InputFields.

(** X3.  None of the three optimization entry points changes the data it
    reads: after a call, whether it returned or raised, the inventory items
    (and so every stock level), the production lines, the production
    records and the clock are what they were before. *)
Theorem optimizations_leave_inputs (cbc : Solver) (w : World) :
  same_inputs w (snd (optimize_inventory_allocation cbc w))
  /\ same_inputs w (snd (optimize_production_schedule cbc w))
  /\ same_inputs w (snd (optimize_resource_utilization w)).
Proof.
  assert (H : forall {A} (m : M A),
            (forall X (f : World -> X), input_field f -> keeps f m) ->
            same_inputs w (snd (m w))).
  { intros A m Hk. destruct (m w) as [r w'] eqn:E. cbn [snd].
    repeat split.
    - apply (Hk _ inventory_items input_inventory_items _ _ _ E).
    - apply (Hk _ production_lines input_production_lines _ _ _ E).
    - apply (Hk _ production_records input_production_records _ _ _ E).
    - apply (Hk _ utcnow input_utcnow _ _ _ E). }
  split; [|split]; apply H; intros X f [Hs Hl].
  - apply keeps_optimize_inventory; assumption.
  - apply keeps_optimize_schedule; assumption.
  - apply keeps_optimize_utilization; assumption.
Qed.

(** ** Running with a database that may fail at any operation *)

Section AnyFaults.

Lemma session_add_inv (r : Row) (w w' : World) (x : res unit) :
  session_add r w = (x, w') ->
  same_tables w w' /\ utcnow w' = utcnow w
  /\ ((x = Ok tt /\ pending w' = pending w ++ [r])
      \/ (x = Raise SQLAlchemyError /\ pending w' = pending w)).
Proof.
  unfold session_add, bind, next_fault, modify, raise.
  destruct w as [ii pl pr ra orr pe fs now sc]. cbn [faults].
  destruct fs as [|[|] fs]; intros [= <- <-]; cbn;
    repeat split; auto.
Qed.

Lemma session_commit_inv (w w' : World) (x : res unit) :
  session_commit w = (x, w') ->
  utcnow w' = utcnow w
  /\ ((x = Ok tt
       /\ resource_allocations w'
          = resource_allocations w ++ pending_allocations (pending w)
       /\ optimization_results w'
          = optimization_results w ++ pending_optimizations (pending w)
       /\ pending w' = [])
      \/ (x = Raise SQLAlchemyError /\ same_tables w w'
          /\ pending w' = pending w)).
Proof.
  destruct (session_commit_cases w) as [[E _]|[E _]]; rewrite E;
    intros [= <- <-]; (split; [reflexivity|]).
  - left. repeat split.
  - right. repeat split.
Qed.

Lemma adds_only_session_add (r : Row) : adds_only (session_add r) (fun _ => [r]).
Proof.
  intros w x w' H. apply session_add_inv in H.
  destruct H as [Ht [Hn [[Hx Hp]|[Hx _]]]]; auto.
Qed.

Lemma adds_only_dated (mk : Z -> Row) :
  adds_only (now <- gets utcnow ;; session_add (mk now)) (fun now => [mk now]).
Proof.
  intros w x w' H. change (session_add (mk (utcnow w)) w = (x, w')) in H.
  apply session_add_inv in H.
  destruct H as [Ht [Hn [[Hx Hp]|[Hx _]]]]; auto.
Qed.

Lemma adds_only_for_each {A} (l : list A) (body : A -> M unit)
      (rows : A -> Z -> list Row) :
  (forall a, adds_only (body a) (rows a)) ->
  adds_only (for_each l body) (fun now => flat_map (fun a => rows a now) l).
Proof.
  intros Hb. induction l as [|a l IH]; intros w x w'; cbn [for_each flat_map].
  - intros [= <- <-]. rewrite app_nil_r.
    split; [apply same_tables_refl|]. auto.
  - unfold bind. destruct (body a w) as [[[]|e] w1] eqn:E; intros H.
    + apply Hb in E. destruct E as [Ht [Hn [[_ Hp]|Hx]]]; [|discriminate Hx].
      apply IH in H. destruct H as [Ht' [Hn' Hr]].
      split; [apply (same_tables_trans _ w1); assumption|].
      split; [congruence|].
      destruct Hr as [[Hx Hp']|Hx]; [left|right; exact Hx].
      split; [exact Hx|]. rewrite Hp', Hp, Hn, app_assoc. reflexivity.
    + injection H as <- <-. apply Hb in E.
      destruct E as [Ht [Hn [[Hx _]|Hx]]]; [discriminate Hx|].
      auto.
Qed.

Lemma adds_only_ext (m : M unit) (rows rows' : Z -> list Row) :
  (forall now, rows now = rows' now) -> adds_only m rows -> adds_only m rows'.
Proof.
  intros He Hm w x w' H. apply Hm in H. rewrite <- He. exact H.
Qed.

Lemma flat_map_singleton_map {A B} (g : A -> B) (l : list A) :
  flat_map (fun a => [g a]) l = map g l.
Proof. induction l as [|a l IH]; [reflexivity|]. cbn. rewrite IH. reflexivity. Qed.

Lemma map_flat_map {A B C} (g : B -> C) (h : A -> list B) (l : list A) :
  map g (flat_map h l) = flat_map (fun a => map g (h a)) l.
Proof.
  induction l as [|a l IH]; [reflexivity|].
  cbn [flat_map]. rewrite map_app, IH. reflexivity.
Qed.

Lemma adds_only_inventory_rows (allocs : dict (dict AllocEntry)) :
  adds_only
    (for_each allocs
       (fun '(item_id, by_line) =>
          for_each by_line
            (fun '(line_id, allocation_data) =>
               let allocated_qty := allocated_quantity allocation_data in
               now <- gets utcnow ;;
               session_add
                 (row_allocation
                    {| ra_production_line_id := line_id;
                       resource_type := MATERIAL;
                       resource_id := str_ item_id;
                       ra_allocated_quantity := allocated_qty;
                       allocation_date := now;
                       ra_status := PLANNED |}))))
    (fun now => map row_allocation (allocation_records now allocs)).
Proof.
  apply (adds_only_ext _
           (fun now =>
              flat_map
                (fun row : Z * dict AllocEntry =>
                   flat_map
                     (fun e : Z * AllocEntry =>
                        [row_allocation
                           {| ra_production_line_id := fst e;
                              resource_type := MATERIAL;
                              resource_id := str_ (fst row);
                              ra_allocated_quantity := allocated_quantity (snd e);
                              allocation_date := now;
                              ra_status := PLANNED |}])
                     (snd row))
                allocs)).
  - intros now. unfold allocation_records. rewrite map_flat_map.
    apply flat_map_ext. intros [i by_line]. cbn [fst snd].
    rewrite map_map. apply flat_map_singleton_map.
  - apply (adds_only_for_each allocs _
             (fun (row : Z * dict AllocEntry) now =>
                flat_map
                  (fun e : Z * AllocEntry =>
                     [row_allocation
                        {| ra_production_line_id := fst e;
                           resource_type := MATERIAL;
                           resource_id := str_ (fst row);
                           ra_allocated_quantity := allocated_quantity (snd e);
                           allocation_date := now;
                           ra_status := PLANNED |}])
                  (snd row))).
    intros [i by_line]. cbn [fst snd].
    apply (adds_only_for_each by_line _
             (fun (e : Z * AllocEntry) now =>
                [row_allocation
                   {| ra_production_line_id := fst e;
                      resource_type := MATERIAL;
                      resource_id := str_ i;
                      ra_allocated_quantity := allocated_quantity (snd e);
                      allocation_date := now;
                      ra_status := PLANNED |}])).
    intros [l e]. cbv zeta. cbn [fst snd].
    apply (adds_only_dated
             (fun now =>
                row_allocation
                  {| ra_production_line_id := l;
                     resource_type := MATERIAL;
                     resource_id := str_ i;
                     ra_allocated_quantity := allocated_quantity e;
                     allocation_date := now;
                     ra_status := PLANNED |})).
Qed.

Lemma adds_only_schedule_rows (sched : dict SchedEntry) :
  adds_only
    (for_each sched
       (fun '(job_id, schedule_data) =>
          let line_id := assigned_line schedule_data in
          let scheduled_time := scheduled_time schedule_data in
          session_add
            (row_allocation
               {| ra_production_line_id := line_id;
                  resource_type := LABOR;
                  resource_id := job_ job_id;
                  ra_allocated_quantity := 1;
                  allocation_date := scheduled_time;
                  ra_status := PLANNED |})))
    (fun _ => map row_allocation (schedule_records sched)).
Proof.
  apply (adds_only_ext _
           (fun _ : Z =>
              flat_map
                (fun e : Z * SchedEntry =>
                   [row_allocation
                      {| ra_production_line_id := assigned_line (snd e);
                         resource_type := LABOR;
                         resource_id := job_ (fst e);
                         ra_allocated_quantity := 1;
                         allocation_date := scheduled_time (snd e);
                         ra_status := PLANNED |}])
                sched)).
  - intros _. unfold schedule_records. rewrite map_map.
    apply flat_map_singleton_map.
  - apply (adds_only_for_each sched _
             (fun (e : Z * SchedEntry) (_ : Z) =>
                [row_allocation
                   {| ra_production_line_id := assigned_line (snd e);
                      resource_type := LABOR;
                      resource_id := job_ (fst e);
                      ra_allocated_quantity := 1;
                      allocation_date := scheduled_time (snd e);
                      ra_status := PLANNED |}])).
    intros [j e]. cbv zeta. cbn [fst snd].
    apply (adds_only_session_add
             (row_allocation
                {| ra_production_line_id := assigned_line e;
                   resource_type := LABOR;
                   resource_id := job_ j;
                   ra_allocated_quantity := 1;
                   allocation_date := scheduled_time e;
                   ra_status := PLANNED |})).
Qed.

(** A [try] block of adds and one commit whose handler rolls back: it
    returns, leaves nothing pending, and has written either nothing or
    everything that was pending together with all of its rows. *)
Lemma adds_commit_rollback_inv (m : M unit) (rows : Z -> list Row)
      (w w' : World) (x : res unit) :
  adds_only m rows ->
  try_except (m ;; session_commit) (fun e => session_rollback) w = (x, w') ->
  x = Ok tt /\ pending w' = [] /\ utcnow w' = utcnow w
  /\ (same_tables w w'
      \/ (resource_allocations w'
          = resource_allocations w
            ++ pending_allocations (pending w ++ rows (utcnow w))
          /\ optimization_results w'
             = optimization_results w
               ++ pending_optimizations (pending w ++ rows (utcnow w)))).
Proof.
  intros Hm. unfold try_except, bind, session_rollback, modify.
  destruct (m w) as [[[]|e] w1] eqn:E.
  - apply Hm in E. destruct E as [[Hra Hor] [Hn [[_ Hp]|Hx]]]; [|discriminate Hx].
    destruct (session_commit w1) as [[[]|e] w2] eqn:Ec;
      apply session_commit_inv in Ec;
      destruct Ec as [Hn2 [[Hx [Hra2 [Hor2 Hp2]]]|[Hx [[Hra2 Hor2] Hp2]]]];
      try discriminate Hx; intros [= <- <-].
    + repeat split; [exact Hp2 | congruence |].
      right. rewrite Hra2, Hor2, Hra, Hor, Hp. auto.
    + repeat split; [cbn; congruence|].
      left. split; cbn; congruence.
  - apply Hm in E. destruct E as [[Hra Hor] [Hn _]].
    intros [= <- <-]. repeat split; [exact Hn|].
    left. split; cbn; congruence.
Qed.

Lemma apply_inventory_inv (allocs : dict (dict AllocEntry))
      (w w' : World) (x : res unit) :
  _apply_inventory_allocations allocs w = (x, w') ->
  x = Ok tt /\ pending w' = [] /\ utcnow w' = utcnow w
  /\ (same_tables w w'
      \/ (resource_allocations w'
          = resource_allocations w ++ pending_allocations (pending w)
            ++ allocation_records (utcnow w) allocs
          /\ optimization_results w'
             = optimization_results w ++ pending_optimizations (pending w))).
Proof.
  intros H.
  apply (adds_commit_rollback_inv _ _ _ _ _ (adds_only_inventory_rows allocs)) in H.
  rewrite pending_allocations_app, pending_optimizations_app,
    pending_allocations_rows, pending_optimizations_rows, app_nil_r in H.
  exact H.
Qed.

Lemma apply_schedule_inv (sched : dict SchedEntry)
      (w w' : World) (x : res unit) :
  _apply_production_schedule sched w = (x, w') ->
  x = Ok tt /\ pending w' = [] /\ utcnow w' = utcnow w
  /\ (same_tables w w'
      \/ (resource_allocations w'
          = resource_allocations w ++ pending_allocations (pending w)
            ++ schedule_records sched
          /\ optimization_results w'
             = optimization_results w ++ pending_optimizations (pending w))).
Proof.
  intros H.
  apply (adds_commit_rollback_inv _ _ _ _ _ (adds_only_schedule_rows sched)) in H.
  rewrite pending_allocations_app, pending_optimizations_app,
    pending_allocations_rows, pending_optimizations_rows, app_nil_r in H.
  exact H.
Qed.

(** [_save_optimization_result] returns whatever the database does.  Its
    handler does not roll back: a run that was added but not committed stays
    pending in the session. *)
Lemma save_inv (opt_type : OptimizationType)
      (prob : option (LpProblem * Valuation)) (blob : ResultsBlob)
      (w w' : World) (x : res unit) :
  _save_optimization_result opt_type prob blob w = (x, w') ->
  let run := completed_run opt_type blob
               match prob with
               | Some (p, vals) => value vals (objective p)
               | None => 0%Q
               end in
  x = Ok tt /\ utcnow w' = utcnow w
  /\ ((same_tables w w'
       /\ (pending w' = pending w
           \/ pending w' = pending w ++ [row_optimization run]))
      \/ (resource_allocations w'
          = resource_allocations w ++ pending_allocations (pending w)
          /\ optimization_results w'
             = optimization_results w ++ pending_optimizations (pending w)
               ++ [run]
          /\ pending w' = [])).
Proof.
  unfold _save_optimization_result, try_except, bind, ret. cbv zeta.
  fold (completed_run opt_type blob
          match prob with
          | Some (p, vals) => value vals (objective p)
          | None => 0%Q
          end).
  set (run := completed_run _ _ _).
  destruct (session_add (row_optimization run) w) as [[[]|e] w1] eqn:Ea;
    apply session_add_inv in Ea;
    destruct Ea as [[Hra Hor] [Hn [[Hx Hp]|[Hx Hp]]]]; try discriminate Hx.
  - destruct (session_commit w1) as [[[]|e] w2] eqn:Ec;
      apply session_commit_inv in Ec;
      destruct Ec as [Hn2 [[Hx2 [Hra2 [Hor2 Hp2]]]|[Hx2 [[Hra2 Hor2] Hp2]]]];
      try discriminate Hx2; intros [= <- <-].
    + repeat split; [congruence|]. right.
      rewrite Hra2, Hor2, Hra, Hor, Hp, pending_allocations_app,
        pending_optimizations_app.
      cbn. rewrite app_nil_r. auto.
    + repeat split; [congruence|]. left.
      split; [split; congruence|]. right. congruence.
  - intros [= <- <-]. repeat split; [exact Hn|]. left.
    split; [split; assumption|]. left. exact Hp.
Qed.

(** Leaving the session block, whatever the body did. *)
Lemma get_db_session_inv {A} (body : M A) (w w' : World) (r : res A) :
  get_db_session body w = (r, w') ->
  exists rb w1,
    body (set_pending [] w) = (rb, w1)
    /\ pending w' = []
    /\ solver_calls w' = solver_calls w1
    /\ ((same_tables w1 w'
         /\ (r = rb \/ (r = Raise SQLAlchemyError /\ exists a, rb = Ok a)))
        \/ (r = rb /\ (exists a, rb = Ok a)
            /\ resource_allocations w'
               = resource_allocations w1 ++ pending_allocations (pending w1)
            /\ optimization_results w'
               = optimization_results w1 ++ pending_optimizations (pending w1))).
Proof.
  unfold get_db_session, try_finally, try_except, session_close,
         session_rollback.
  unfold bind at 1. unfold modify at 1. cbn beta iota.
  unfold bind at 1.
  destruct (body (set_pending [] w)) as [[a|e] w1] eqn:Eb.
  - unfold bind at 1.
    destruct (session_commit w1) as [[[]|e] w2] eqn:Ec;
      pose proof Ec as Ec0;
      apply session_commit_inv in Ec;
      destruct Ec as [Hn2 [[Hx2 [Hra2 [Hor2 Hp2]]]|[Hx2 [[Hra2 Hor2] Hp2]]]];
      try discriminate Hx2.
    + unfold ret, modify. intros [= <- <-].
      exists (Ok a), w1. repeat split.
      * cbn. apply (keeps_session_commit solver_calls) in Ec0; [exact Ec0|].
        repeat split.
      * right. repeat split; eauto.
    + unfold bind, modify, raise. intros [= <- <-].
      exists (Ok a), w1. repeat split.
      * cbn. apply (keeps_session_commit solver_calls) in Ec0; [exact Ec0|].
        repeat split.
      * left. split; [split; assumption|]. right. injection Hx2 as ->. eauto.
  - unfold bind, modify, raise. intros [= <- <-].
    exists (Raise e), w1. repeat split. left.
    split; [split; reflexivity|]. left. reflexivity.
Qed.

End AnyFaults.

(** ** Every outcome of the entry points *)

Section EntryOutcomes.

Variable cbc : Solver.

Lemma is_optimal_true (st : LpStatus) :
  is_optimal st = true -> st = LpStatusOptimal.
Proof. destruct st; cbn; congruence. Qed.

Lemma session_field_solver_calls : session_field solver_calls.
Proof. repeat split. Qed.

Lemma closing_idle {A} (w1 w' : World) (r rb : res A) :
  pending w1 = [] ->
  (same_tables w1 w'
   /\ (r = rb \/ (r = Raise SQLAlchemyError /\ exists a, rb = Ok a)))
  \/ (r = rb /\ (exists a, rb = Ok a)
      /\ resource_allocations w'
         = resource_allocations w1 ++ pending_allocations (pending w1)
      /\ optimization_results w'
         = optimization_results w1 ++ pending_optimizations (pending w1)) ->
  same_tables w1 w'
  /\ (r = rb \/ (r = Raise SQLAlchemyError /\ exists a, rb = Ok a)).
Proof.
  intros Hp [H|[Hr [_ [Hra Hor]]]]; [exact H|].
  rewrite Hp in Hra, Hor. cbn in Hra, Hor. rewrite app_nil_r in Hra, Hor.
  split; [split; assumption | left; exact Hr].
Qed.

Lemma optimize_inventory_outcome
      (w w' : World) (r : res (Outcome AllocationSuccess)) :
  optimize_inventory_allocation cbc w = (r, w') ->
  pending w' = []
  /\ ((same_tables w w'
       /\ (r = Raise SQLAlchemyError \/ exists reason, r = Ok (failed reason)))
      \/ exists p vars vals allocs,
           is_empty (_get_inventory_data w) = false
           /\ is_empty (_get_production_requirements w) = false
           /\ inventory_allocation_model (_get_inventory_data w)
                                         (_get_production_requirements w)
              = Ok (p, vars)
           /\ cbc p = (LpStatusOptimal, vals)
           /\ _extract_allocation_results vals vars (_get_inventory_data w)
                                          (_get_production_requirements w)
              = Ok allocs
           /\ (r = Raise SQLAlchemyError
               \/ r = Ok (success
                            {| as_objective_value := value vals (objective p);
                               allocations := allocs |}))
           /\ (resource_allocations w' = resource_allocations w
               \/ resource_allocations w'
                  = resource_allocations w
                    ++ allocation_records (utcnow w) allocs)
           /\ (optimization_results w' = optimization_results w
               \/ optimization_results w'
                  = optimization_results w
                    ++ [completed_run INVENTORY (allocation_blob allocs)
                                      (value vals (objective p))])).
Proof.
  unfold optimize_inventory_allocation. rewrite try_except_reraise.
  intros H. apply get_db_session_inv in H.
  destruct H as [rb [w1 [Hbody [Hpe [_ Hclose]]]]].
  split; [exact Hpe|].
  revert Hbody.
  unfold bind at 1. unfold gets at 1. unfold bind at 1. unfold gets at 1.
  change (_get_inventory_data (set_pending [] w)) with (_get_inventory_data w).
  change (_get_production_requirements (set_pending [] w))
    with (_get_production_requirements w).
  destruct (is_empty (_get_inventory_data w)
            || is_empty (_get_production_requirements w)) eqn:Eempty.
  { unfold ret. intros [= <- <-]. left.
    apply closing_idle in Hclose; [|reflexivity].
    destruct Hclose as [Ht Hr]. split; [exact Ht|].
    destruct Hr as [->|[-> _]]; eauto. }
  apply orb_false_elim in Eempty. destruct Eempty as [Ei Ep].
  destruct (inventory_allocation_model_ok
              (_get_inventory_data w) (_get_production_requirements w)
              (wf_inventory_data w) (wf_production_requirements w))
    as [p [Hm _]].
  unfold bind at 1. unfold lift at 1. rewrite Hm.
  unfold bind at 1. unfold solve at 1. unfold bind at 1.
  unfold modify at 1. unfold ret at 1.
  destruct (cbc p) as [st vals] eqn:Hs.
  destruct (is_optimal st) eqn:Eo.
  2:{ unfold ret. intros [= <- <-]. left.
      apply closing_idle in Hclose; [|reflexivity].
      destruct Hclose as [Ht Hr]. split; [exact Ht|].
      destruct Hr as [->|[-> _]]; eauto. }
  apply is_optimal_true in Eo. subst st.
  unfold bind at 1. unfold lift at 1.
  rewrite (extract_allocation_results_ok vals
             (_get_inventory_data w) (_get_production_requirements w)
             (wf_inventory_data w) (wf_production_requirements w)).
  set (allocs := map _ (_get_inventory_data w)).
  unfold bind at 1.
  destruct (_save_optimization_result _ _ _ _) as [xs ws] eqn:Es.
  apply save_inv in Es. cbv zeta in Es.
  destruct Es as [-> [Hns Hsave]].
  unfold bind at 1.
  destruct (_apply_inventory_allocations allocs ws) as [xa wa] eqn:Ea.
  apply apply_inventory_inv in Ea.
  destruct Ea as [-> [Hpa [Hna Happly]]].
  unfold ret. intros [= <- <-].
  apply closing_idle in Hclose; [|exact Hpa].
  destruct Hclose as [[Hra Hor] Hr].
  right. exists p, (allocation_variables (_get_inventory_data w)
                                         (_get_production_requirements w)),
           vals, allocs.
  repeat (split; [first [assumption | reflexivity]|]).
  split; [exact (extract_allocation_results_ok vals _ _
                   (wf_inventory_data w) (wf_production_requirements w))|].
  split; [destruct Hr as [->|[-> _]]; auto|].
  rewrite Hra, Hor.
  change (utcnow w) with (utcnow (log_solver_call p (set_pending [] w))).
  rewrite <- Hns.
  change (resource_allocations w)
    with (resource_allocations (log_solver_call p (set_pending [] w))).
  change (optimization_results w)
    with (optimization_results (log_solver_call p (set_pending [] w))).
  change (pending (log_solver_call p (set_pending [] w))) with (@nil Row)
    in Hsave.
  cbn [pending_allocations pending_optimizations flat_map app] in Hsave.
  rewrite !app_nil_r in Hsave.
  destruct Hsave as [[[Hra1 Hor1] Hp1]|[Hra1 [Hor1 Hp1]]];
    destruct Happly as [[Hra2 Hor2]|[Hra2 Hor2]];
    rewrite Hra2, Hor2, ?Hra1, ?Hor1.
  - auto.
  - split; [right|].
    + destruct Hp1 as [->| ->]; cbn; rewrite ?app_nil_r; reflexivity.
    + destruct Hp1 as [->| ->]; cbn; rewrite ?app_nil_r; auto.
  - auto.
  - rewrite Hp1. cbn. rewrite !app_nil_r. auto.
Qed.

Lemma optimize_schedule_outcome
      (w w' : World) (r : res (Outcome ScheduleSuccess)) :
  optimize_production_schedule cbc w = (r, w') ->
  pending w' = []
  /\ ((same_tables w w'
       /\ (r = Raise SQLAlchemyError \/ exists reason, r = Ok (failed reason)))
      \/ exists p vars vals sched,
           is_empty (_get_production_lines_data w) = false
           /\ production_schedule_model (_get_pending_jobs_data w)
                                        (_get_production_lines_data w)
              = Ok (p, vars)
           /\ cbc p = (LpStatusOptimal, vals)
           /\ _extract_schedule_results vals vars (_get_pending_jobs_data w)
                                        (_get_production_lines_data w) (utcnow w)
              = Ok sched
           /\ (r = Raise SQLAlchemyError
               \/ r = Ok (success
                            {| ss_objective_value := value vals (objective p);
                               schedule := sched |}))
           /\ (resource_allocations w' = resource_allocations w
               \/ resource_allocations w'
                  = resource_allocations w ++ schedule_records sched)
           /\ (optimization_results w' = optimization_results w
               \/ optimization_results w'
                  = optimization_results w
                    ++ [completed_run PRODUCTION (schedule_blob sched)
                                      (value vals (objective p))])).
Proof.
  unfold optimize_production_schedule. rewrite try_except_reraise.
  intros H. apply get_db_session_inv in H.
  destruct H as [rb [w1 [Hbody [Hpe [_ Hclose]]]]].
  split; [exact Hpe|].
  revert Hbody.
  unfold bind at 1. unfold gets at 1. unfold bind at 1. unfold gets at 1.
  change (_get_production_lines_data (set_pending [] w))
    with (_get_production_lines_data w).
  change (_get_pending_jobs_data (set_pending [] w))
    with (_get_pending_jobs_data w).
  change (is_empty (_get_pending_jobs_data w)) with false.
  rewrite orb_false_r.
  destruct (is_empty (_get_production_lines_data w)) eqn:El.
  { unfold ret. intros [= <- <-]. left.
    apply closing_idle in Hclose; [|reflexivity].
    destruct Hclose as [Ht Hr]. split; [exact Ht|].
    destruct Hr as [->|[-> _]]; eauto. }
  destruct (production_schedule_model_ok
              (_get_pending_jobs_data w) (_get_production_lines_data w)
              (wf_jobs_data w) (wf_lines_data w))
    as [p [Hm _]].
  unfold bind at 1. unfold lift at 1. rewrite Hm.
  unfold bind at 1. unfold solve at 1. unfold bind at 1.
  unfold modify at 1. unfold ret at 1.
  destruct (cbc p) as [st vals] eqn:Hs.
  destruct (is_optimal st) eqn:Eo.
  2:{ unfold ret. intros [= <- <-]. left.
      apply closing_idle in Hclose; [|reflexivity].
      destruct Hclose as [Ht Hr]. split; [exact Ht|].
      destruct Hr as [->|[-> _]]; eauto. }
  apply is_optimal_true in Eo. subst st.
  unfold bind at 1. unfold gets at 1.
  unfold bind at 1. unfold lift at 1.
  change (utcnow (log_solver_call p (set_pending [] w))) with (utcnow w).
  rewrite (extract_schedule_results_ok vals
             (_get_pending_jobs_data w) (_get_production_lines_data w)
             (utcnow w) (wf_lines_data w) (wf_jobs_data w)).
  set (sched := extracted_schedule _ _ _ _).
  unfold bind at 1.
  destruct (_save_optimization_result _ _ _ _) as [xs ws] eqn:Es.
  apply save_inv in Es. cbv zeta in Es.
  destruct Es as [-> [Hns Hsave]].
  unfold bind at 1.
  destruct (_apply_production_schedule sched ws) as [xa wa] eqn:Ea.
  apply apply_schedule_inv in Ea.
  destruct Ea as [-> [Hpa [Hna Happly]]].
  unfold ret. intros [= <- <-].
  apply closing_idle in Hclose; [|exact Hpa].
  destruct Hclose as [[Hra Hor] Hr].
  right. exists p, (schedule_variables (_get_pending_jobs_data w)
                                       (_get_production_lines_data w)),
           vals, sched.
  repeat (split; [first [assumption | reflexivity]|]).
  split; [exact (extract_schedule_results_ok vals _ _ _
                   (wf_lines_data w) (wf_jobs_data w))|].
  split; [destruct Hr as [->|[-> _]]; auto|].
  rewrite Hra, Hor.
  change (resource_allocations w)
    with (resource_allocations (log_solver_call p (set_pending [] w))).
  change (optimization_results w)
    with (optimization_results (log_solver_call p (set_pending [] w))).
  change (pending (log_solver_call p (set_pending [] w))) with (@nil Row)
    in Hsave.
  cbn [pending_allocations pending_optimizations flat_map app] in Hsave.
  rewrite !app_nil_r in Hsave.
  destruct Hsave as [[[Hra1 Hor1] Hp1]|[Hra1 [Hor1 Hp1]]];
    destruct Happly as [[Hra2 Hor2]|[Hra2 Hor2]];
    rewrite Hra2, Hor2, ?Hra1, ?Hor1.
  - auto.
  - split; [right|].
    + destruct Hp1 as [->| ->]; cbn; rewrite ?app_nil_r; reflexivity.
    + destruct Hp1 as [->| ->]; cbn; rewrite ?app_nil_r; auto.
  - auto.
  - rewrite Hp1. cbn. rewrite !app_nil_r. auto.
Qed.

Lemma optimize_utilization_outcome
      (w w' : World) (r : res (Outcome UtilizationSuccess)) :
  optimize_resource_utilization w = (r, w') ->
  pending w' = []
  /\ solver_calls w' = solver_calls w
  /\ (r = Raise SQLAlchemyError \/ exists s, r = Ok (success s))
  /\ resource_allocations w' = resource_allocations w
  /\ (optimization_results w' = optimization_results w
      \/ optimization_results w' = optimization_results w ++ [utilization_run w]).
Proof.
  unfold optimize_resource_utilization. rewrite try_except_reraise.
  intros H. apply get_db_session_inv in H.
  destruct H as [rb [w1 [Hbody [Hpe [Hsc Hclose]]]]].
  split; [exact Hpe|].
  revert Hbody.
  unfold bind at 1. unfold gets at 1. cbv zeta.
  change (_get_resource_utilization_data (set_pending [] w))
    with (_get_resource_utilization_data w).
  unfold bind at 1.
  destruct (_save_optimization_result _ _ _ _) as [xs ws] eqn:Es.
  pose proof (keeps_save solver_calls session_field_solver_calls _ _ _ _ _ _ Es)
    as Hcalls.
  apply save_inv in Es. cbv zeta in Es.
  destruct Es as [-> [Hns Hsave]].
  unfold ret. intros [= <- <-].
  split; [rewrite Hsc, Hcalls; reflexivity|].
  fold (utilization_run w) in Hsave.
  change (pending (set_pending [] w)) with (@nil Row) in Hsave.
  change (resource_allocations (set_pending [] w))
    with (resource_allocations w) in Hsave.
  change (optimization_results (set_pending [] w))
    with (optimization_results w) in Hsave.
  cbn [pending_allocations pending_optimizations flat_map app] in Hsave.
  rewrite !app_nil_r in Hsave.
  destruct Hclose as [[[Hra Hor] Hr]|[Hr [_ [Hra Hor]]]].
  - split; [destruct Hr as [->|[-> _]]; eauto|].
    rewrite Hra, Hor.
    destruct Hsave as [[[Hra1 Hor1] _]|[Hra1 [Hor1 _]]];
      rewrite Hra1, Hor1; auto.
  - split; [rewrite Hr; eauto|].
    rewrite Hra, Hor.
    destruct Hsave as [[[Hra1 Hor1] Hp1]|[Hra1 [Hor1 Hp1]]].
    + rewrite Hra1, Hor1.
      change (resource_allocations (set_pending [] w))
        with (resource_allocations w).
      change (optimization_results (set_pending [] w))
        with (optimization_results w).
      destruct Hp1 as [->| ->]; cbn; rewrite ?app_nil_r; auto.
    + rewrite Hra1, Hor1, Hp1. cbn. rewrite !app_nil_r. auto.
Qed.

End EntryOutcomes.

Section SolverCalls.

Variable cbc : Solver.

Lemma inventory_solver_calls
      (w w' : World) (r : res (Outcome AllocationSuccess))
      (p : LpProblem) (vars : dict (dict LpVariable)) :
  is_empty (_get_inventory_data w) = false ->
  is_empty (_get_production_requirements w) = false ->
  inventory_allocation_model (_get_inventory_data w)
                             (_get_production_requirements w) = Ok (p, vars) ->
  optimize_inventory_allocation cbc w = (r, w') ->
  solver_calls w' = solver_calls w ++ [p].
Proof.
  intros Hi Hp Hm.
  unfold optimize_inventory_allocation. rewrite try_except_reraise.
  intros H. apply get_db_session_inv in H.
  destruct H as [rb [w1 [Hbody [_ [Hsc _]]]]].
  rewrite Hsc. clear Hsc. revert Hbody.
  unfold bind at 1. unfold gets at 1. unfold bind at 1. unfold gets at 1.
  change (_get_inventory_data (set_pending [] w)) with (_get_inventory_data w).
  change (_get_production_requirements (set_pending [] w))
    with (_get_production_requirements w).
  rewrite Hi, Hp. cbn [orb].
  unfold bind at 1. unfold lift at 1. rewrite Hm.
  unfold bind at 1. unfold solve at 1. unfold bind at 1.
  unfold modify at 1. unfold ret at 1.
  destruct (cbc p) as [st vals].
  destruct (is_optimal st).
  2:{ unfold ret. intros [= <- <-]. reflexivity. }
  unfold bind at 1. unfold lift at 1.
  destruct (_extract_allocation_results _ _ _ _) as [allocs|e].
  2:{ intros [= <- <-]. reflexivity. }
  unfold bind at 1.
  destruct (_save_optimization_result _ _ _ _) as [xs ws] eqn:Es.
  apply (keeps_save solver_calls session_field_solver_calls) in Es.
  destruct xs as [[]|e]; [|intros [= <- <-]; exact Es].
  unfold bind at 1.
  destruct (_apply_inventory_allocations allocs ws) as [xa wa] eqn:Ea.
  apply (keeps_apply_inventory solver_calls session_field_solver_calls) in Ea.
  destruct xa as [[]|e]; intros [= <- <-]; rewrite Ea, Es; reflexivity.
Qed.

Lemma schedule_solver_calls
      (w w' : World) (r : res (Outcome ScheduleSuccess))
      (p : LpProblem) (vars : dict (dict (dict LpVariable))) :
  is_empty (_get_production_lines_data w) = false ->
  production_schedule_model (_get_pending_jobs_data w)
                            (_get_production_lines_data w) = Ok (p, vars) ->
  optimize_production_schedule cbc w = (r, w') ->
  solver_calls w' = solver_calls w ++ [p].
Proof.
  intros Hl Hm.
  unfold optimize_production_schedule. rewrite try_except_reraise.
  intros H. apply get_db_session_inv in H.
  destruct H as [rb [w1 [Hbody [_ [Hsc _]]]]].
  rewrite Hsc. clear Hsc. revert Hbody.
  unfold bind at 1. unfold gets at 1. unfold bind at 1. unfold gets at 1.
  change (_get_production_lines_data (set_pending [] w))
    with (_get_production_lines_data w).
  change (_get_pending_jobs_data (set_pending [] w))
    with (_get_pending_jobs_data w).
  rewrite Hl.
  change (is_empty (_get_pending_jobs_data w)) with false. cbn [orb].
  unfold bind at 1. unfold lift at 1. rewrite Hm.
  unfold bind at 1. unfold solve at 1. unfold bind at 1.
  unfold modify at 1. unfold ret at 1.
  destruct (cbc p) as [st vals].
  destruct (is_optimal st).
  2:{ unfold ret. intros [= <- <-]. reflexivity. }
  unfold bind at 1. unfold gets at 1.
  unfold bind at 1. unfold lift at 1.
  destruct (_extract_schedule_results _ _ _ _ _) as [sched|e].
  2:{ intros [= <- <-]. reflexivity. }
  unfold bind at 1.
  destruct (_save_optimization_result _ _ _ _) as [xs ws] eqn:Es.
  apply (keeps_save solver_calls session_field_solver_calls) in Es.
  destruct xs as [[]|e]; [|intros [= <- <-]; exact Es].
  unfold bind at 1.
  destruct (_apply_production_schedule sched ws) as [xa wa] eqn:Ea.
  apply (keeps_apply_schedule solver_calls session_field_solver_calls) in Ea.
  destruct xa as [[]|e]; intros [= <- <-]; rewrite Ea, Es; reflexivity.
Qed.

End SolverCalls.



(** X4.  Whatever the database does (any plan of failing [add] and [commit]
    calls) and whatever the solver answers, the only exception that leaves
    one of the three optimization entry points is the database error: no
    dictionary lookup of the model building or of the extraction fails.  The
    session is closed with nothing pending, and the utilization pass never
    answers with a [failed] outcome. *)
Theorem only_database_errors_escape (cbc : Solver) (w : World) :
  (let out := optimize_inventory_allocation cbc w in
   (fst out = Raise SQLAlchemyError \/ exists o, fst out = Ok o)
   /\ pending (snd out) = [])
  /\ (let out := optimize_production_schedule cbc w in
      (fst out = Raise SQLAlchemyError \/ exists o, fst out = Ok o)
      /\ pending (snd out) = [])
  /\ (let out := optimize_resource_utilization w in
      (fst out = Raise SQLAlchemyError \/ exists s, fst out = Ok (success s))
      /\ pending (snd out) = []).
Proof.
  cbv zeta. split; [|split].
  - destruct (optimize_inventory_allocation cbc w) as [r w'] eqn:E.
    apply optimize_inventory_outcome in E. cbn [fst snd].
    destruct E as [Hp [[_ Hr]|[p [vars [vals [allocs Hr]]]]]].
    + split; [|exact Hp]. destruct Hr as [->|[o ->]]; eauto.
    + split; [|exact Hp].
      destruct Hr as [_ [_ [_ [_ [_ [[->| ->] _]]]]]]; eauto.
  - destruct (optimize_production_schedule cbc w) as [r w'] eqn:E.
    apply optimize_schedule_outcome in E. cbn [fst snd].
    destruct E as [Hp [[_ Hr]|[p [vars [vals [sched Hr]]]]]].
    + split; [|exact Hp]. destruct Hr as [->|[o ->]]; eauto.
    + split; [|exact Hp].
      destruct Hr as [_ [_ [_ [_ [[->| ->] _]]]]]; eauto.
  - destruct (optimize_resource_utilization w) as [r w'] eqn:E.
    apply optimize_utilization_outcome in E. cbn [fst snd].
    destruct E as [Hp [_ [Hr _]]]. auto.
Qed.

(** X5.  [optimize_inventory_allocation] writes its resource allocations all
    or nothing: whatever the database does, the table of resource
    allocations after the call is either what it was before or what the same
    call leaves with a database that does not fail, never a part of the
    rows; and the table of optimization runs is either what it was or what
    the call with a database that does not fail leaves. *)
Theorem inventory_rows_all_or_nothing (cbc : Solver) (w : World) :
  let w' := snd (optimize_inventory_allocation cbc w) in
  let w0 := snd (optimize_inventory_allocation cbc (set_faults [] w)) in
  (resource_allocations w' = resource_allocations w
   \/ resource_allocations w' = resource_allocations w0)
  /\ (optimization_results w' = optimization_results w
      \/ optimization_results w' = optimization_results w0).
Proof.
  cbv zeta.
  destruct (optimize_inventory_allocation cbc w) as [r w'] eqn:E.
  apply optimize_inventory_outcome in E. cbn [fst snd].
  destruct E as [_ [[[Hra Hor] _]|[p [vars [vals [allocs Hr]]]]]]; [auto|].
  destruct Hr as [Hi [Hp [Hm [Hs [Hx [_ [Hra Hor]]]]]]].
  destruct (optimize_inventory_no_fault cbc (set_faults [] w) p vars vals allocs
              eq_refl Hi Hp Hm Hs Hx) as [w0 [E0 [Hor0 [Hra0 _]]]].
  rewrite E0. cbn [snd]. rewrite Hor0, Hra0. auto.
Qed.

(** X6.  [optimize_production_schedule] writes its resource allocations all
    or nothing, in the same sense: after the call the table of resource
    allocations is what it was before or what the call leaves with a
    database that does not fail, and so is the table of optimization
    runs. *)
Theorem schedule_rows_all_or_nothing (cbc : Solver) (w : World) :
  let w' := snd (optimize_production_schedule cbc w) in
  let w0 := snd (optimize_production_schedule cbc (set_faults [] w)) in
  (resource_allocations w' = resource_allocations w
   \/ resource_allocations w' = resource_allocations w0)
  /\ (optimization_results w' = optimization_results w
      \/ optimization_results w' = optimization_results w0).
Proof.
  cbv zeta.
  destruct (optimize_production_schedule cbc w) as [r w'] eqn:E.
  apply optimize_schedule_outcome in E. cbn [fst snd].
  destruct E as [_ [[[Hra Hor] _]|[p [vars [vals [sched Hr]]]]]]; [auto|].
  destruct Hr as [Hl [Hm [Hs [Hx [_ [Hra Hor]]]]]].
  destruct (optimize_schedule_no_fault cbc (set_faults [] w) p vars vals sched
              eq_refl Hl Hm Hs Hx) as [w0 [E0 [Hor0 [Hra0 _]]]].
  rewrite E0. cbn [snd]. rewrite Hor0, Hra0. auto.
Qed.

(** X7.  [optimize_resource_utilization] never calls the solver and never
    writes a resource allocation; it records at most one optimization run,
    of type [RESOURCE], status [COMPLETED] and objective value 0, holding the
    recommendations and the metrics; with a database that does not fail it
    records exactly that run and returns a success. *)
Theorem utilization_records_one_run (w : World) :
  let out := optimize_resource_utilization w in
  solver_calls (snd out) = solver_calls w
  /\ resource_allocations (snd out) = resource_allocations w
  /\ (optimization_results (snd out) = optimization_results w
      \/ optimization_results (snd out)
         = optimization_results w ++ [utilization_run w])
  /\ (faults w = [] ->
      optimization_results (snd out)
      = optimization_results w ++ [utilization_run w]
      /\ exists s, fst out = Ok (success s)).
Proof.
  cbv zeta.
  destruct (optimize_resource_utilization w) as [r w'] eqn:E.
  pose proof (optimize_utilization_outcome w w' r E) as [_ [Hsc [_ [Hra Hor]]]].
  cbn [fst snd]. repeat (split; [assumption|]).
  intros Hf. revert E.
  unfold optimize_resource_utilization. rewrite try_except_reraise.
  erewrite get_db_session_no_fault.
  2:{ unfold bind at 1. unfold gets at 1. cbv zeta.
      erewrite bind_ok by (apply save_no_fault; exact Hf). reflexivity. }
  2:{ exact Hf. }
  intros [= <- <-]. split; [|eauto].
  destruct w as [ii pl pr ra orr pe fs now sc]. cbn in Hf. subst fs.
  cbn. rewrite !app_nil_r. reflexivity.
Qed.

(** The world with two lines: one [RESOURCE] run with one recommendation. *)
Lemma utilization_records_one_run_witness :
  map optimization_type
      (optimization_results (snd (optimize_resource_utilization world_two_lines)))
  = [RESOURCE]
  /\ exists s,
       fst (optimize_resource_utilization world_two_lines) = Ok (success s).
Proof.
  destruct (utilization_records_one_run world_two_lines) as [_ [_ [_ H]]].
  destruct (H eq_refl) as [Hor Hs].
  split; [rewrite Hor; reflexivity | exact Hs].
Defined.

(** X8.  When there is data, each of the two optimizations calls the solver
    exactly once, on the model it built, whatever the database does and
    whatever the solver answers; without data it does not call it. *)
Theorem solver_called_once_on_the_model (cbc : Solver) (w : World) :
  (let w' := snd (optimize_inventory_allocation cbc w) in
   if is_empty (_get_inventory_data w)
      || is_empty (_get_production_requirements w)
   then solver_calls w' = solver_calls w
   else exists p vars,
       inventory_allocation_model (_get_inventory_data w)
                                  (_get_production_requirements w)
       = Ok (p, vars)
       /\ solver_calls w' = solver_calls w ++ [p])
  /\ (let w' := snd (optimize_production_schedule cbc w) in
      if is_empty (_get_production_lines_data w)
      then solver_calls w' = solver_calls w
      else exists p vars,
          production_schedule_model (_get_pending_jobs_data w)
                                    (_get_production_lines_data w)
          = Ok (p, vars)
          /\ solver_calls w' = solver_calls w ++ [p]).
Proof.
  cbv zeta. split.
  - destruct (optimize_inventory_allocation cbc w) as [r w'] eqn:E.
    cbn [snd].
    destruct (is_empty (_get_inventory_data w)
              || is_empty (_get_production_requirements w)) eqn:Eempty.
    + revert E. unfold optimize_inventory_allocation.
      rewrite try_except_reraise.
      intros H. apply get_db_session_inv in H.
      destruct H as [rb [w1 [Hbody [_ [Hsc _]]]]].
      rewrite Hsc. revert Hbody.
      unfold bind at 1. unfold gets at 1. unfold bind at 1. unfold gets at 1.
      change (_get_inventory_data (set_pending [] w))
        with (_get_inventory_data w).
      change (_get_production_requirements (set_pending [] w))
        with (_get_production_requirements w).
      rewrite Eempty. unfold ret. intros [= <- <-]. reflexivity.
    + apply orb_false_elim in Eempty. destruct Eempty as [Ei Ep].
      destruct (inventory_allocation_model_ok
                  (_get_inventory_data w) (_get_production_requirements w)
                  (wf_inventory_data w) (wf_production_requirements w))
        as [p [Hm _]].
      exists p, (allocation_variables (_get_inventory_data w)
                                      (_get_production_requirements w)).
      split; [exact Hm|].
      apply (inventory_solver_calls cbc w w' r p _ Ei Ep Hm E).
  - destruct (optimize_production_schedule cbc w) as [r w'] eqn:E.
    cbn [snd].
    destruct (is_empty (_get_production_lines_data w)) eqn:El.
    + revert E. unfold optimize_production_schedule.
      rewrite try_except_reraise.
      intros H. apply get_db_session_inv in H.
      destruct H as [rb [w1 [Hbody [_ [Hsc _]]]]].
      rewrite Hsc. revert Hbody.
      unfold bind at 1. unfold gets at 1. unfold bind at 1. unfold gets at 1.
      change (_get_production_lines_data (set_pending [] w))
        with (_get_production_lines_data w).
      rewrite El. cbn [orb]. unfold ret. intros [= <- <-]. reflexivity.
    + destruct (production_schedule_model_ok
                  (_get_pending_jobs_data w) (_get_production_lines_data w)
                  (wf_jobs_data w) (wf_lines_data w))
        as [p [Hm _]].
      exists p, (schedule_variables (_get_pending_jobs_data w)
                                    (_get_production_lines_data w)).
      split; [exact Hm|].
      apply (schedule_solver_calls cbc w w' r p _ El Hm E).
Qed.

(** ** The returned allocations and the reported objective *)

Section AllocationEntries.

Variable vals : Valuation.

Lemma In_extracted_row (item : ItemInfo) (i : Z) (entries : dict LineReq)
      (l : Z) (e : AllocEntry) :
  In (l, e) (extracted_row vals item entries i) ->
  exists line,
    In (l, line) entries
    /\ (0 < vals (alloc_ i l))%Q
    /\ e = {| allocated_quantity := PyNum.int (vals (alloc_ i l));
              item_info := item; line_info := line |}.
Proof.
  unfold extracted_row. intros H. apply in_flat_map in H.
  destruct H as [[l' line] [Hin H]]. cbn [fst snd] in H.
  destruct (PyNum.Qlt_bool 0 (vals (alloc_ i l'))) eqn:E; [|destruct H].
  destruct H as [[= -> <-]|[]].
  exists line. split; [exact Hin|]. split; [|reflexivity].
  apply Qlt_bool_iff. exact E.
Qed.

End AllocationEntries.

(** X10.  Every entry of the allocations returned by a successful
    [optimize_inventory_allocation] allocates at least one unit, to a line
    of the requirements snapshot and of an item of the inventory snapshot,
    and carries the data of that item and of that line.  Of the solver it
    is only assumed that status [Optimal] comes with feasible values of the
    model. *)
Theorem allocation_entries_are_positive
        (cbc : Solver) (w w' : World) (s : AllocationSuccess) :
  (forall p vars,
     inventory_allocation_model (_get_inventory_data w)
                                (_get_production_requirements w) = Ok (p, vars) ->
     solver_feasible_on cbc p) ->
  optimize_inventory_allocation cbc w = (Ok (success s), w') ->
  forall item_id by_line line_id e,
    In (item_id, by_line) (allocations s) ->
    In (line_id, e) by_line ->
    1 <= allocated_quantity e
    /\ get (_get_inventory_data w) item_id = Some (item_info e)
    /\ get (_get_production_requirements w) line_id = Some (line_info e).
Proof.
  intros Hsolver Hrun i by_line l e Hrow He.
  destruct (inventory_success_shape cbc w w' s Hrun) as [p [vals [Hm [Hs Hx]]]].
  pose proof (wf_inventory_data w) as Hwi.
  pose proof (wf_production_requirements w) as Hwp.
  assert (Hf : feasible p vals).
  { specialize (Hsolver _ _ Hm). unfold solver_feasible_on in Hsolver.
    rewrite Hs in Hsolver. apply Hsolver. reflexivity. }
  rewrite Hx in Hrow. apply in_map_iff in Hrow.
  destruct Hrow as [[i' info] [Heq Hin]]. cbn [fst snd] in Heq.
  injection Heq as -> <-.
  apply In_extracted_row in He. destruct He as [line [Hl [Hpos ->]]].
  cbn [allocated_quantity item_info line_info].
  split; [|split].
  - destruct (feasible_var_ok _ _ Hwi Hwp p Hm vals i l Hf
                (In_fst_keys _ _ _ Hin) (In_fst_keys _ _ _ Hl))
      as [_ [_ [z Hz]]].
    change (vals (alloc_ i l) == inject_Z z)%Q in Hz.
    rewrite (int_inject_Z z _ Hz).
    rewrite Hz in Hpos. change 0%Q with (inject_Z 0) in Hpos.
    rewrite <- Zlt_Qlt in Hpos. lia.
  - apply In_get; assumption.
  - apply In_get; assumption.
Qed.

(** The sample world: the one entry, for item 1 and line 7, has 30 units. *)
Lemma allocation_entries_are_positive_witness :
  1 <= 30
  /\ get (_get_inventory_data world_one_item) 1
     = Some {| ii_part_number := "SEAT-001"; ii_current_stock := 100;
               ii_unit_cost := 10%Q; ii_reorder_point := 50 |}
  /\ get (_get_production_requirements world_one_item) 7
     = Some {| lr_name := "Assembly Line 1"; lr_capacity_per_hour := 200;
               required_items := [(1, 30); (2, 22)] |}.
Proof.
  eapply (allocation_entries_are_positive cbc_thirty world_one_item _ _)
    with (item_id := 1) (line_id := 7)
         (by_line := [(7, {| allocated_quantity := 30;
                             item_info :=
                               {| ii_part_number := "SEAT-001";
                                  ii_current_stock := 100;
                                  ii_unit_cost := 10%Q;
                                  ii_reorder_point := 50 |};
                             line_info :=
                               {| lr_name := "Assembly Line 1";
                                  lr_capacity_per_hour := 200;
                                  required_items := [(1, 30); (2, 22)] |} |})])
         (e := {| allocated_quantity := 30;
                  item_info :=
                    {| ii_part_number := "SEAT-001";
                       ii_current_stock := 100;
                       ii_unit_cost := 10%Q;
                       ii_reorder_point := 50 |};
                  line_info :=
                    {| lr_name := "Assembly Line 1";
                       lr_capacity_per_hour := 200;
                       required_items := [(1, 30); (2, 22)] |} |}).
  - intros p vars Hm. vm_compute in Hm. injection Hm as <- _.
    intros _. apply feasibleb_sound. vm_compute. reflexivity.
  - vm_compute. reflexivity.
  - left. reflexivity.
  - left. reflexivity.
Defined.

(** ** What the readers return *)

Section Readers.

Lemma find_app {A} (f : A -> bool) (l1 l2 : list A) :
  find f (l1 ++ l2)
  = match find f l1 with Some a => Some a | None => find f l2 end.
Proof.
  induction l1 as [|a l1 IH]; [reflexivity|].
  cbn [app find]. destruct (f a); [reflexivity | exact IH].
Qed.

(** A dictionary filled in a loop holds, for each key, the value of the last
    element with that key. *)
Lemma get_fold_setitem {V X} (key : X -> Z) (val : X -> V) (l : list X) :
  forall (d : dict V) (k : Z),
    get (fold_left (fun d x => setitem d (key x) (val x)) l d) k
    = match find (fun x => Z.eqb (key x) k) (rev l) with
      | Some x => Some (val x)
      | None => get d k
      end.
Proof.
  induction l as [|x l IH]; intros d k; [reflexivity|].
  cbn [fold_left rev]. rewrite IH, find_app.
  destruct (find (fun x0 => Z.eqb (key x0) k) (rev l)); [reflexivity|].
  cbn [find]. destruct (Z.eqb (key x) k) eqn:E.
  - apply Z.eqb_eq in E. subst k. apply get_setitem_same.
  - apply Z.eqb_neq in E. apply get_setitem_other. congruence.
Qed.

Lemma inventory_data_get (w : World) (i : Z) :
  get (_get_inventory_data w) i
  = match find (fun item => Z.eqb (item_id item) i)
               (rev (filter item_is_active (inventory_items w))) with
    | Some item => Some (item_data item)
    | None => None
    end.
Proof.
  unfold _get_inventory_data. cbv zeta.
  apply (get_fold_setitem item_id item_data).
Qed.

Lemma lines_data_In (w : World) (l : Z) (info : LineInfo) :
  In (l, info) (_get_production_lines_data w) ->
  exists line,
    In line (production_lines w) /\ line_is_active line = true
    /\ line_id line = l
    /\ li_capacity_per_hour info = capacity_per_hour line.
Proof.
  intros Hin.
  assert (H : Forall (fun e : Z * LineInfo =>
                        exists line,
                          In line (production_lines w)
                          /\ line_is_active line = true
                          /\ line_id line = fst e
                          /\ li_capacity_per_hour (snd e)
                             = capacity_per_hour line)
                     (_get_production_lines_data w)).
  { unfold _get_production_lines_data.
    match goal with
    | |- Forall _ (fold_left (fun d x => setitem d (line_id x) (@?v x)) _ _) =>
        apply (fold_setitem_Forall _ line_id v)
    end.
    - constructor.
    - intros x Hx. apply filter_In in Hx. destruct Hx as [Hx Ha].
      exists x. cbn [fst snd li_capacity_per_hour]. auto. }
  rewrite Forall_forall in H. apply (H (l, info) Hin).
Qed.

End Readers.

(** X11.  [_get_inventory_data] is keyed by the ids of the active items: the
    lookup of the id of an active item whose id no other active item has
    gives the part number, stock, unit cost and reorder point of that item;
    the lookup of an id that no active item has gives nothing, so an
    inactive item is never offered for allocation; and whatever a lookup
    gives is the data of some active item with that id. *)
Theorem inventory_data_lookup (w : World) :
  (forall item,
     In item (inventory_items w) -> item_is_active item = true ->
     (forall other, In other (inventory_items w) ->
                    item_is_active other = true ->
                    item_id other = item_id item -> other = item) ->
     get (_get_inventory_data w) (item_id item) = Some (item_data item))
  /\ (forall i,
        (forall item, In item (inventory_items w) ->
                      item_is_active item = true -> item_id item <> i) ->
        get (_get_inventory_data w) i = None)
  /\ (forall i info,
        get (_get_inventory_data w) i = Some info ->
        exists item, In item (inventory_items w)
                     /\ item_is_active item = true
                     /\ item_id item = i /\ info = item_data item).
Proof.
  split; [|split].
  - intros item Hin Ha Huniq. rewrite inventory_data_get.
    destruct (find _ _) as [x|] eqn:E.
    + apply find_some in E. destruct E as [Hx Hk].
      apply in_rev in Hx. apply filter_In in Hx. destruct Hx as [Hx Hax].
      apply Z.eqb_eq in Hk. rewrite (Huniq x Hx Hax Hk). reflexivity.
    + exfalso.
      pose proof (find_none _ _ E item) as Hn. cbv beta in Hn.
      rewrite Z.eqb_refl in Hn. discriminate Hn.
      apply in_rev. rewrite rev_involutive. apply filter_In. auto.
  - intros i Hnone. rewrite inventory_data_get.
    destruct (find _ _) as [x|] eqn:E; [|reflexivity].
    apply find_some in E. destruct E as [Hx Hk].
    apply in_rev in Hx. apply filter_In in Hx. destruct Hx as [Hx Hax].
    apply Z.eqb_eq in Hk. exfalso. apply (Hnone x Hx Hax Hk).
  - intros i info. rewrite inventory_data_get.
    destruct (find _ _) as [x|] eqn:E; [|discriminate].
    intros [= <-].
    apply find_some in E. destruct E as [Hx Hk].
    apply in_rev in Hx. apply filter_In in Hx. destruct Hx as [Hx Hax].
    apply Z.eqb_eq in Hk. exists x. auto.
Qed.

(** The sample world: item 1 is found with its stock of 100. *)
Lemma inventory_data_lookup_witness :
  get (_get_inventory_data world_one_item) 1 = Some (item_data seat_frame).
Proof.
  apply (proj1 (inventory_data_lookup world_one_item) seat_frame).
  - left. reflexivity.
  - reflexivity.
  - intros other [<-|[]] _ _. reflexivity.
Defined.

(** X12.  [optimize_production_schedule] can only succeed when some active
    production line takes at least 150 units per hour, the quantity of the
    largest of the three pending jobs: every job has to fit, alone, into the
    hourly capacity of the line it is put on.  Of the solver it is only
    assumed that status [Optimal] comes with feasible values of the model
    that was built. *)
Theorem schedule_success_needs_capacity
        (cbc : Solver) (w w' : World) (s : ScheduleSuccess) :
  (forall p vars,
     production_schedule_model (_get_pending_jobs_data w)
                               (_get_production_lines_data w) = Ok (p, vars) ->
     solver_feasible_on cbc p) ->
  optimize_production_schedule cbc w = (Ok (success s), w') ->
  exists line,
    In line (production_lines w) /\ line_is_active line = true
    /\ 150 <= capacity_per_hour line.
Proof.
  intros Hsolver Hrun.
  destruct (optimize_production_schedule_success cbc w w' s Hrun)
    as [p [vals [Hm [Hs _]]]].
  pose proof (wf_jobs_data w) as Hwj.
  pose proof (wf_lines_data w) as Hwl.
  assert (Hf : feasible p vals).
  { specialize (Hsolver _ _ Hm). unfold solver_feasible_on in Hsolver.
    rewrite Hs in Hsolver. apply Hsolver. reflexivity. }
  assert (Hjob : In (2, {| quantity := 150; priority := 2;
                           due_date := utcnow w + 12 * seconds_per_hour |})
                    (_get_pending_jobs_data w)).
  { right. left. reflexivity. }
  destruct (feasible_job_assigned _ _ Hwj Hwl p Hm vals Hf 2
              (In_fst_keys _ _ _ Hjob)) as [l [sl [Hl [Hsl Ha]]]].
  destruct (In_keys _ _ Hl) as [info Hinfo].
  pose proof (feasible_capacity _ _ Hwj Hwl p Hm vals Hf l info sl Hinfo Hsl)
    as Hcap.
  assert (Hle : (inject_Z 150 * vals (sched_ 2 l sl)
                 <= inject_Z (li_capacity_per_hour info))%Q).
  { eapply Qle_trans; [|exact Hcap].
    apply (sumQ_member
             (fun job : Z * JobInfo =>
                inject_Z (quantity (snd job)) * vals (sched_ (fst job) l sl))%Q
             (_get_pending_jobs_data w)
             (2, {| quantity := 150; priority := 2;
                    due_date := utcnow w + 12 * seconds_per_hour |})).
    - intros job Hin. apply Qmult_le_0_compat.
      + change 0%Q with (inject_Z 0). rewrite <- Zle_Qle.
        apply (jobs_quantity_nonneg w job Hin).
      + apply (feasible_sched_nonneg _ _ Hwj Hwl p Hm vals Hf).
        * destruct job as [j jb]. apply (In_fst_keys _ _ _ Hin).
        * exact Hl.
        * exact Hsl.
    - exact Hjob. }
  unfold assigned in Ha. apply Qeq_bool_iff in Ha. rewrite Ha in Hle.
  rewrite Qmult_1_r in Hle. rewrite <- Zle_Qle in Hle.
  destruct (lines_data_In w l info Hinfo) as [line [Hin [Hact [_ Hc]]]].
  exists line. split; [exact Hin|]. split; [exact Hact|].
  rewrite <- Hc. exact Hle.
Qed.

(** The sample world: line 7 takes 200 units per hour. *)
Lemma schedule_success_needs_capacity_witness :
  exists line,
    In line (production_lines world_one_item) /\ line_is_active line = true
    /\ 150 <= capacity_per_hour line.
Proof.
  eapply (schedule_success_needs_capacity cbc_three_slots world_one_item _ _).
  - intros p vars Hm. vm_compute in Hm. injection Hm as <- _.
    intros _. apply feasibleb_sound. vm_compute. reflexivity.
  - vm_compute. reflexivity.
Defined.

(** ** Lines without production *)

Section IdleLines.

Lemma fold_append_map {X Y} (f : X -> Y) (l : list X) (acc : list Y) :
  fold_left (fun acc x => acc ++ [f x]) l acc = acc ++ map f l.
Proof.
  revert acc. induction l as [|x l IH]; intros acc; cbn [fold_left map].
  - rewrite app_nil_r. reflexivity.
  - rewrite IH, <- app_assoc. reflexivity.
Qed.

Lemma idle_line_utilization_In (w : World) (line : ProductionLine) :
  In line (production_lines w) -> line_is_active line = true ->
  PyNum.sumZ (map planned_quantity (recent_records_of w line 1)) <= 0 ->
  In (idle_line_utilization line) (lines (_get_resource_utilization_data w)).
Proof.
  intros Hin Hact Hplanned.
  unfold _get_resource_utilization_data. cbv zeta. cbn [lines].
  rewrite fold_append_map. cbn [app].
  apply in_map_iff. exists line. split.
  - unfold idle_line_utilization. f_equal.
    destruct (recent_records_of w line 1) as [|r rs]; [reflexivity|].
    destruct (Z.ltb_spec 0 (PyNum.sumZ (map planned_quantity (r :: rs))));
      [lia | reflexivity].
  - apply filter_In. auto.
Qed.

End IdleLines.

(** X13.  An active production line for which nothing was planned during the
    last day (no production record of the last day, or records whose planned
    quantities sum to zero) is reported with a current efficiency of 0, and
    a successful [optimize_resource_utilization] recommends an efficiency
    improvement for it whenever its efficiency target is positive. *)
Theorem idle_line_gets_recommendation
        (w w' : World) (s : UtilizationSuccess) (line : ProductionLine) :
  optimize_resource_utilization w = (Ok (success s), w') ->
  In line (production_lines w) -> line_is_active line = true ->
  PyNum.sumZ (map planned_quantity (recent_records_of w line 1)) <= 0 ->
  (0 <? efficiency_target line)%float = true ->
  In (idle_line_utilization line) (lines (metrics s))
  /\ In (efficiency_recommendation (idle_line_utilization line))
        (us_recommendations s).
Proof.
  intros Hrun Hin Hact Hplanned Htarget.
  destruct (optimize_resource_utilization_success w w' s Hrun) as [Hm Hrecs].
  pose proof (idle_line_utilization_In w line Hin Hact Hplanned) as Hld.
  rewrite <- Hm in Hld. split; [exact Hld|].
  rewrite Hrecs. apply (efficiency_recommendation_iff _ _ Hld).
  cbn [idle_line_utilization current_efficiency target_efficiency].
  apply mul_lit_0_9_positive, mul_hundred_positive. exact Htarget.
Qed.

(** The sample world before any production was recorded: line 7 is
    flagged. *)
Lemma idle_line_gets_recommendation_witness :
  exists s w',
    optimize_resource_utilization world_idle_line = (Ok (success s), w')
    /\ In (efficiency_recommendation (idle_line_utilization assembly_line))
          (us_recommendations s).
Proof.
  eexists. eexists. split; [vm_compute; reflexivity|].
  eapply (idle_line_gets_recommendation world_idle_line).
  - vm_compute. reflexivity.
  - left. reflexivity.
  - reflexivity.
  - vm_compute. discriminate.
  - reflexivity.
Defined.

(** ** The periodic loop *)

Section PeriodicLoop.

Variable cbc : Solver.
Variable interval : Z.

Lemma optimization_pass_returns (w : World) :
  exists w',
    optimization_pass cbc interval w = (Ok tt, w')
    /\ utcnow w' = utcnow w + interval
    /\ inventory_items w' = inventory_items w
    /\ production_lines w' = production_lines w
    /\ production_records w' = production_records w.
Proof.
  assert (K1 : forall {X} (f : World -> X), input_field f ->
               forall w0 r w1, optimize_inventory_allocation cbc w0 = (r, w1) ->
                               f w1 = f w0).
  { intros X f [Hs Hl] w0 r w1 E.
    apply (keeps_optimize_inventory f Hs Hl cbc _ _ _ E). }
  assert (K2 : forall {X} (f : World -> X), input_field f ->
               forall w1 r w2, optimize_production_schedule cbc w1 = (r, w2) ->
                               f w2 = f w1).
  { intros X f [Hs Hl] w1 r w2 E.
    apply (keeps_optimize_schedule f Hs Hl cbc _ _ _ E). }
  unfold optimization_pass, try_except, bind, sleep, modify.
  destruct (optimize_inventory_allocation cbc w) as [[o|e] w1] eqn:E1.
  - destruct (optimize_production_schedule cbc w1) as [[o2|e2] w2] eqn:E2;
      eexists; (split; [reflexivity|]); cbn;
      rewrite (K2 _ utcnow input_utcnow _ _ _ E2),
        (K2 _ inventory_items input_inventory_items _ _ _ E2),
        (K2 _ production_lines input_production_lines _ _ _ E2),
        (K2 _ production_records input_production_records _ _ _ E2),
        (K1 _ utcnow input_utcnow _ _ _ E1),
        (K1 _ inventory_items input_inventory_items _ _ _ E1),
        (K1 _ production_lines input_production_lines _ _ _ E1),
        (K1 _ production_records input_production_records _ _ _ E1);
      auto.
  - eexists. split; [reflexivity|]. cbn.
    rewrite (K1 _ utcnow input_utcnow _ _ _ E1),
      (K1 _ inventory_items input_inventory_items _ _ _ E1),
      (K1 _ production_lines input_production_lines _ _ _ E1),
      (K1 _ production_records input_production_records _ _ _ E1).
    auto.
Qed.

Lemma optimization_loop_returns (readings : list bool) :
  forall w,
  exists w',
    _optimization_loop cbc interval readings w = (Ok tt, w')
    /\ utcnow w' = utcnow w + Z.of_nat (passes readings) * interval
    /\ inventory_items w' = inventory_items w
    /\ production_lines w' = production_lines w
    /\ production_records w' = production_records w.
Proof.
  induction readings as [|[|] rest IH]; intros w.
  - exists w. cbn. rewrite Z.add_0_r. auto.
  - cbn [_optimization_loop passes].
    destruct (optimization_pass_returns w) as [w1 [E1 [Hn [Hi [Hl Hr]]]]].
    destruct (IH w1) as [w2 [E2 [Hn2 [Hi2 [Hl2 Hr2]]]]].
    exists w2. split.
    + unfold bind. rewrite E1. exact E2.
    + rewrite Hn2, Hi2, Hl2, Hr2, Hn, Hi, Hl, Hr.
      split; [lia | auto].
  - exists w. cbn. rewrite Z.add_0_r. auto.
Qed.

End PeriodicLoop.

(** X14.  The periodic loop survives every failure of an optimization: for
    any readings of the running flag, any solver and any database
    behaviour, [_optimization_loop] returns without raising, after one
    sleep of the configured interval for each pass it made (whether the
    pass succeeded or raised), and with the inventory items, production
    lines and production records it found. *)
Theorem optimization_loop_survives_failures
        (cbc : Solver) (interval : Z) (readings : list bool) (w : World) :
  let out := _optimization_loop cbc interval readings w in
  fst out = Ok tt
  /\ utcnow (snd out) = utcnow w + Z.of_nat (passes readings) * interval
  /\ inventory_items (snd out) = inventory_items w
  /\ production_lines (snd out) = production_lines w
  /\ production_records (snd out) = production_records w.
Proof.
  cbv zeta.
  destruct (optimization_loop_returns cbc interval readings w) as [w' [E H]].
  rewrite E. cbn [fst snd]. split; [reflexivity | exact H].
Qed.

(** ** Starting and stopping the loop *)

Section Switch.

Lemma fold_do_call_snoc (calls : list Call) (c : Call) (a : Allocator) :
  fold_left do_call (calls ++ [c]) a = do_call (fold_left do_call calls a) c.
Proof. rewrite fold_left_app. reflexivity. Qed.

Lemma switch_invariant (interval : Z) (calls : list Call) :
  let a := fold_left do_call calls (new_allocator interval) in
  (threads_started a <= List.length (filter is_run calls))%nat
  /\ (threads_started a
      <= List.length (filter is_stop calls) + (if is_running a then 1 else 0))%nat
  /\ is_running a = match rev calls with c :: _ => is_run c | [] => false end
  /\ optimization_interval a = interval.
Proof.
  cbv zeta. induction calls as [|c calls IH] using rev_ind.
  - cbn. auto.
  - rewrite fold_do_call_snoc, !filter_app, !length_app, rev_app_distr.
    destruct IH as [H1 [H2 [H3 H4]]].
    set (a := fold_left do_call calls (new_allocator interval)) in *.
    destruct c; cbn [do_call is_run is_stop filter List.length rev app].
    + unfold run_periodic_optimization.
      destruct (is_running a) eqn:Er.
      * rewrite Er. repeat split; [lia | lia | exact H4].
      * cbn [threads_started is_running optimization_interval].
        repeat split; [lia | lia | exact H4].
    + cbn [stop_optimization threads_started is_running optimization_interval].
      destruct (is_running a); repeat split; [lia | lia | exact H4 | lia | lia | exact H4].
Qed.

End Switch.

(** X15.  Over any sequence of [run_periodic_optimization] and
    [stop_optimization] calls on a new allocator, a loop thread is started
    only by a [run_periodic_optimization] call, and by at most one between
    two [stop_optimization] calls: a start request while the loop is running
    is ignored.  Afterwards the running flag is set exactly when the last
    call was a start, and the interval is unchanged. *)
Theorem one_loop_thread_per_start
        (interval : Z) (calls : list Call) :
  let a := fold_left do_call calls (new_allocator interval) in
  (threads_started a <= List.length (filter is_run calls))%nat
  /\ (threads_started a <= S (List.length (filter is_stop calls)))%nat
  /\ is_running a = match rev calls with c :: _ => is_run c | [] => false end
  /\ optimization_interval a = interval.
Proof.
  cbv zeta. destruct (switch_invariant interval calls) as [H1 [H2 [H3 H4]]].
  repeat split; try assumption.
  destruct (is_running _); lia.
Qed.


(** ** The optimum of the inventory allocation model *)

Section InventoryOptimum.

Variable inventory_data : dict ItemInfo.
Variable production_data : dict LineReq.
Hypothesis wf_inv : wf inventory_data.
Hypothesis wf_prod : wf production_data.
Hypothesis wf_req :
  forall l line, In (l, line) production_data -> wf (required_items line).
Variable p : LpProblem.
Hypothesis Hmodel :
  inventory_allocation_model inventory_data production_data
  = Ok (p, allocation_variables inventory_data production_data).

Variable i0 : Z.
Variable info0 : ItemInfo.
Variable l0 : Z.
Variable line0 : LineReq.
Hypothesis Hitem : In (i0, info0) inventory_data.
Hypothesis Hline : In (l0, line0) production_data.

Lemma set_value_same (vals : Valuation) (v : Q) :
  set_value vals (alloc_ i0 l0) v (alloc_ i0 l0) = v.
Proof. unfold set_value. cbn [VarName_eqb]. rewrite !Z.eqb_refl. reflexivity. Qed.

Lemma set_value_other (vals : Valuation) (v : Q) (i l : Z) :
  i <> i0 \/ l <> l0 ->
  set_value vals (alloc_ i0 l0) v (alloc_ i l) = vals (alloc_ i l).
Proof.
  intros H. unfold set_value. cbn [VarName_eqb].
  destruct (Z.eqb_spec i i0) as [->|Hi]; [|reflexivity].
  destruct (Z.eqb_spec l l0) as [->|Hl]; [|reflexivity].
  destruct H as [H|H]; contradiction H; reflexivity.
Qed.

Lemma set_value_cases (vals : Valuation) (v : Q) (i l : Z) :
  (i = i0 /\ l = l0
   /\ set_value vals (alloc_ i0 l0) v (alloc_ i l) = v)
  \/ ((i <> i0 \/ l <> l0)
      /\ set_value vals (alloc_ i0 l0) v (alloc_ i l) = vals (alloc_ i l)).
Proof.
  destruct (Z.eq_dec i i0) as [->|Hi].
  - destruct (Z.eq_dec l l0) as [->|Hl].
    + left. split; [reflexivity|]. split; [reflexivity|]. apply set_value_same.
    + right. split; [right; exact Hl|]. apply set_value_other. right; exact Hl.
  - right. split; [left; exact Hi|]. apply set_value_other. left; exact Hi.
Qed.

(** A feasible point gives the line at least its requirement, and nothing
    negative. *)
Lemma feasible_lower_bound (vals : Valuation) :
  feasible p vals ->
  (inject_Z (Z.max 0 (requirement_of line0 i0)) <= vals (alloc_ i0 l0))%Q.
Proof.
  intros Hf.
  pose proof (feasible_nonneg _ _ wf_inv wf_prod p Hmodel vals i0 l0 Hf
                (In_fst_keys _ _ _ Hitem) (In_fst_keys _ _ _ Hline)) as H0.
  unfold requirement_of.
  destruct (get (required_items line0) i0) as [m|] eqn:E.
  - assert (Hm : (inject_Z m <= vals (alloc_ i0 l0))%Q).
    { apply (feasible_requirement _ _ wf_inv wf_prod p Hmodel vals l0 line0 i0 m
               Hf Hline).
      - apply get_Some_In. exact E.
      - apply contains_In. apply (In_fst_keys _ _ _ Hitem). }
    destruct (Z.max_spec 0 m) as [[_ ->]|[_ ->]]; assumption.
  - exact H0.
Qed.

(** Lowering one allocation of a feasible point to the requirement leaves it
    feasible. *)
Lemma lowered_feasible (vals : Valuation) :
  feasible p vals ->
  feasible p (set_value vals (alloc_ i0 l0)
                        (inject_Z (Z.max 0 (requirement_of line0 i0)))).
Proof.
  intros Hf.
  pose proof (feasible_lower_bound vals Hf) as Hlow.
  set (t := Z.max 0 (requirement_of line0 i0)) in *.
  apply (feasible_intro _ _ wf_inv wf_prod p Hmodel).
  - intros i info Hin.
    eapply Qle_trans;
      [|apply (feasible_stock _ _ wf_inv wf_prod p Hmodel vals i info Hf Hin)].
    apply sumQ_le. intros l Hl.
    destruct (set_value_cases vals (inject_Z t) i l) as [[-> [-> E]]|[_ E]];
      rewrite E; [exact Hlow | apply Qle_refl].
  - intros l line i m Hl Hreq Hc.
    destruct (set_value_cases vals (inject_Z t) i l) as [[-> [-> E]]|[_ E]];
      rewrite E.
    + pose proof (In_get _ _ _ wf_prod Hl) as G1.
      pose proof (In_get _ _ _ wf_prod Hline) as G2.
      rewrite G1 in G2. injection G2 as ->.
      pose proof (In_get _ _ _ (wf_req _ _ Hline) Hreq) as G3.
      rewrite <- Zle_Qle. subst t. unfold requirement_of. rewrite G3. lia.
    + apply (feasible_requirement _ _ wf_inv wf_prod p Hmodel vals l line i m
               Hf Hl Hreq Hc).
  - intros i l Hi Hl.
    destruct (set_value_cases vals (inject_Z t) i l) as [[-> [-> E]]|[_ E]];
      rewrite E.
    + split; [|exists t; reflexivity].
      change 0%Q with (inject_Z 0). rewrite <- Zle_Qle. subst t. lia.
    + split.
      * apply (feasible_nonneg _ _ wf_inv wf_prod p Hmodel vals i l Hf Hi Hl).
      * destruct (feasible_var_ok _ _ wf_inv wf_prod p Hmodel vals i l Hf Hi Hl)
          as [_ [_ Hint]].
        exact Hint.
Qed.

Lemma sumQ_le_gap {A} (f g : A -> Q) (l : list A) (a : A) (d : Q) :
  (forall x, In x l -> (f x <= g x)%Q) ->
  In a l -> (f a + d <= g a)%Q ->
  (PyNum.sumQ (map f l) + d <= PyNum.sumQ (map g l))%Q.
Proof.
  induction l as [|x l IH]; intros Hle Hin Hgap; [destruct Hin|].
  cbn [map]. rewrite !sumQ_cons.
  destruct Hin as [->|Hin].
  - assert (PyNum.sumQ (map f l) <= PyNum.sumQ (map g l))%Q.
    { apply sumQ_le. intros y Hy. apply Hle. right; exact Hy. }
    lra.
  - assert (f x <= g x)%Q by (apply Hle; left; reflexivity).
    assert (PyNum.sumQ (map f l) + d <= PyNum.sumQ (map g l))%Q.
    { apply IH; [|exact Hin | exact Hgap].
      intros y Hy. apply Hle. right; exact Hy. }
    lra.
Qed.

(** Lowering the allocation saves its cost. *)
Lemma lowered_cost (vals : Valuation) (t : Q) :
  (0 <= ii_unit_cost info0)%Q -> (t <= vals (alloc_ i0 l0))%Q ->
  (allocation_cost inventory_data production_data
     (set_value vals (alloc_ i0 l0) t)
   + (11 # 10) * (ii_unit_cost info0 * (vals (alloc_ i0 l0) - t))
   <= allocation_cost inventory_data production_data vals)%Q.
Proof.
  intros Hcost Hlow. unfold allocation_cost.
  apply (sumQ_le_gap _ _ _ (i0, info0)).
  - intros [i info] Hin. unfold item_allocation_cost. cbn [fst snd].
    apply sumQ_le. intros l Hl.
    destruct (set_value_cases vals t i l) as [[-> [-> E]]|[_ E]]; rewrite E.
    + pose proof (In_get _ _ _ wf_inv Hin) as G1.
      pose proof (In_get _ _ _ wf_inv Hitem) as G2.
      rewrite G1 in G2. injection G2 as ->.
      assert (0 <= ii_unit_cost info0 * (vals (alloc_ i0 l0) - t))%Q.
      { apply Qmult_le_0_compat; lra. }
      lra.
    + apply Qle_refl.
  - exact Hitem.
  - unfold item_allocation_cost. cbn [fst snd].
    apply (sumQ_le_gap _ _ _ l0).
    + intros l Hl.
      destruct (set_value_cases vals t i0 l) as [[_ [-> E]]|[_ E]]; rewrite E.
      * assert (0 <= ii_unit_cost info0 * (vals (alloc_ i0 l0) - t))%Q.
        { apply Qmult_le_0_compat; lra. }
        lra.
      * apply Qle_refl.
    + apply (In_fst_keys _ _ _ Hline).
    + rewrite set_value_same. apply Qle_lteq. right. ring.
Qed.

(** At an optimum an item that costs something goes to a line in exactly the
    required quantity. *)
Lemma optimum_is_requirement (vals : Valuation) :
  (0 < ii_unit_cost info0)%Q ->
  optimal p vals ->
  (vals (alloc_ i0 l0) == inject_Z (Z.max 0 (requirement_of line0 i0)))%Q.
Proof.
  intros Hcost [Hf Hopt].
  pose proof (feasible_lower_bound vals Hf) as Hlow.
  specialize (Hopt _ (lowered_feasible vals Hf)).
  rewrite (model_sense _ _ wf_inv wf_prod p Hmodel) in Hopt.
  unfold better in Hopt.
  rewrite !(model_objective _ _ wf_inv wf_prod p Hmodel) in Hopt.
  set (t := inject_Z (Z.max 0 (requirement_of line0 i0))) in *.
  assert (Hc0 : (0 <= ii_unit_cost info0)%Q) by lra.
  pose proof (lowered_cost vals t Hc0 Hlow) as Hgap.
  apply Qle_antisym; [|exact Hlow].
  apply Qnot_lt_le. intros Hlt.
  assert (0 < ii_unit_cost info0 * (vals (alloc_ i0 l0) - t))%Q.
  { apply Qmult_lt_0_compat; lra. }
  lra.
Qed.

End InventoryOptimum.

Section RequirementKeys.

(** The requirements of a line name no item but 1 and 2. *)
Lemma required_items_keys (w : World) (l : Z) (line : LineReq) (i m : Z) :
  In (l, line) (_get_production_requirements w) ->
  In (i, m) (required_items line) -> i = 1 \/ i = 2.
Proof.
  intros Hin Hreq.
  assert (H : Forall (fun e : Z * LineReq =>
                        forall i m, In (i, m) (required_items (snd e)) ->
                                    i = 1 \/ i = 2)
                     (_get_production_requirements w)).
  { unfold _get_production_requirements.
    match goal with
    | |- Forall _ (fold_left (fun d x => setitem d (line_id x) (@?v x)) _ _) =>
        apply (fold_setitem_Forall _ line_id v)
    end.
    - constructor.
    - intros x _ i' m'. cbn [snd required_items].
      destruct (recent_records_of w x 7).
      + intros [].
      + cbn. intros [[= <- _]|[[= <- _]|[]]]; auto. }
  rewrite Forall_forall in H. apply (H (l, line) Hin i m Hreq).
Qed.

End RequirementKeys.

(** X16.  With a solver that reports an optimum only with an optimal
    solution, a successful [optimize_inventory_allocation] gives every line
    exactly its requirement of every item that has a positive unit cost, and
    nothing where the requirement is absent or not positive: the allocation
    never exceeds what the line requires.  As the requirements only name the
    items 1 and 2, an item with another id and a positive unit cost is
    allocated to no line. *)
Theorem optimum_allocates_exactly_the_requirement
        (cbc : Solver) (w w' : World) (s : AllocationSuccess) :
  (forall p vars,
     inventory_allocation_model (_get_inventory_data w)
                                (_get_production_requirements w) = Ok (p, vars) ->
     solver_sound_on cbc p) ->
  optimize_inventory_allocation cbc w = (Ok (success s), w') ->
  forall item_id info line_id line,
    get (_get_inventory_data w) item_id = Some info ->
    get (_get_production_requirements w) line_id = Some line ->
    (0 < ii_unit_cost info)%Q ->
    allocated_to (allocations s) item_id line_id
    = Z.max 0 (requirement_of line item_id)
    /\ (item_id <> 1 -> item_id <> 2 ->
        allocated_to (allocations s) item_id line_id = 0).
Proof.
  intros Hsolver Hrun i info l line Hi Hl Hcost.
  destruct (inventory_success_shape cbc w w' s Hrun) as [p [vals [Hm [Hs Hx]]]].
  pose proof (wf_inventory_data w) as Hwi.
  pose proof (wf_production_requirements w) as Hwp.
  assert (Hopt : optimal p vals).
  { specialize (Hsolver _ _ Hm). unfold solver_sound_on in Hsolver.
    rewrite Hs in Hsolver. apply Hsolver. reflexivity. }
  apply get_Some_In in Hi. apply get_Some_In in Hl.
  pose proof (optimum_is_requirement _ _ Hwi Hwp (wf_required_items w) p Hm
                i info l line Hi Hl vals Hcost Hopt) as Hv.
  assert (Hq : allocated_to (allocations s) i l
               = Z.max 0 (requirement_of line i)).
  { unfold allocated_to. rewrite Hx.
    rewrite (get_map_entries
               (fun e => extracted_row vals (snd e)
                                       (_get_production_requirements w) (fst e))
               _ i info Hwi Hi).
    cbn [fst snd].
    rewrite (get_extracted_row vals info i _ l line Hwp Hl).
    destruct (PyNum.Qlt_bool 0 (vals (alloc_ i l))) eqn:E.
    - cbn [allocated_quantity]. apply int_inject_Z. exact Hv.
    - assert (Hn : ~ (0 < vals (alloc_ i l))%Q).
      { intros Hlt. apply Qlt_bool_iff in Hlt. congruence. }
      rewrite Hv in Hn. change 0%Q with (inject_Z 0) in Hn.
      rewrite <- Zlt_Qlt in Hn. lia. }
  split; [exact Hq|].
  intros H1 H2. rewrite Hq. unfold requirement_of.
  destruct (get (required_items line) i) as [m|] eqn:E; [|reflexivity].
  apply get_Some_In in E.
  destruct (required_items_keys w l line i m Hl E); contradiction.
Qed.

(** The sample world: line 7 requires 30 units of item 1 and gets 30. *)
Lemma optimum_allocates_exactly_the_requirement_witness :
  exists s w',
    optimize_inventory_allocation cbc_thirty world_one_item = (Ok (success s), w')
    /\ allocated_to (allocations s) 1 7 = 30.
Proof.
  eexists. eexists. split.
  - vm_compute. reflexivity.
  - refine (proj1 (optimum_allocates_exactly_the_requirement
                     cbc_thirty world_one_item _ _ _ _
                     1 {| ii_part_number := "SEAT-001"; ii_current_stock := 100;
                          ii_unit_cost := 10%Q; ii_reorder_point := 50 |}
                     7 {| lr_name := "Assembly Line 1";
                          lr_capacity_per_hour := 200;
                          required_items := [(1, 30); (2, 22)] |}
                     _ _ _)).
    + intros p vars Hm. apply (cbc_thirty_sound p vars Hm).
    + vm_compute. reflexivity.
    + vm_compute. reflexivity.
    + vm_compute. reflexivity.
    + reflexivity.
Defined.

(** ** The reported objective of a schedule *)

Section OneHot.

Lemma sumQ_flat_map {A B} (g : B -> Q) (h : A -> list B) (l : list A) :
  (PyNum.sumQ (map g (flat_map h l))
   == PyNum.sumQ (map (fun a => PyNum.sumQ (map g (h a))) l))%Q.
Proof.
  induction l as [|a l IH]; [reflexivity|].
  cbn [flat_map map]. rewrite map_app, sumQ_app, sumQ_cons, IH. reflexivity.
Qed.

Lemma sumQ_zero_members {A} (f : A -> Q) (l : list A) :
  (forall x, In x l -> (0 <= f x)%Q) ->
  (PyNum.sumQ (map f l) == 0)%Q ->
  forall x, In x l -> (f x == 0)%Q.
Proof.
  intros Hpos Hsum x Hx. apply Qle_antisym; [|apply Hpos; exact Hx].
  rewrite <- Hsum. apply sumQ_member; assumption.
Qed.

(** A weighted sum over values that are non-negative, sum to one and are one
    at [a] is the weight of [a]. *)
Lemma one_hot_weighted {A} (c f : A -> Q) (l : list A) (a : A) :
  (forall x, In x l -> (0 <= f x)%Q) ->
  (PyNum.sumQ (map f l) == 1)%Q ->
  In a l -> (f a == 1)%Q ->
  (PyNum.sumQ (map (fun x => c x * f x) l) == c a)%Q.
Proof.
  induction l as [|x l IH]; intros Hpos Hsum Hin Ha; [destruct Hin|].
  cbn [map] in *. rewrite sumQ_cons in *.
  assert (Hposl : forall y, In y l -> (0 <= f y)%Q).
  { intros y Hy. apply Hpos. right; exact Hy. }
  assert (Hx : (0 <= f x)%Q) by (apply Hpos; left; reflexivity).
  assert (Hl : (0 <= PyNum.sumQ (map f l))%Q).
  { apply sumQ_nonneg. apply Forall_forall. intros q Hq.
    apply in_map_iff in Hq. destruct Hq as [y [<- Hy]]. apply Hposl. exact Hy. }
  destruct Hin as [->|Hin].
  - assert (Hzero : (PyNum.sumQ (map f l) == 0)%Q) by lra.
    rewrite (sumQ_all_zero (fun y => c y * f y)%Q l).
    + rewrite Ha. ring.
    + intros y Hy. rewrite (sumQ_zero_members f l Hposl Hzero y Hy). ring.
  - assert (H1 : (f a <= PyNum.sumQ (map f l))%Q).
    { apply sumQ_member; assumption. }
    assert (Hx0 : (f x == 0)%Q) by lra.
    rewrite IH; [rewrite Hx0; ring | exact Hposl | lra | exact Hin | exact Ha].
Qed.

End OneHot.

Section ScheduleObjective.

Variable jobs_data : dict JobInfo.
Variable lines_data : dict LineInfo.
Hypothesis wf_jobs : wf jobs_data.
Hypothesis wf_lines : wf lines_data.

Lemma schedule_objective_ok :
  exists obj,
    schedule_objective jobs_data lines_data
      (schedule_variables jobs_data lines_data) = Ok obj
    /\ forall vals,
         (value vals obj == schedule_cost jobs_data lines_data vals)%Q.
Proof.
  unfold schedule_objective, schedule_cost.
  match goal with
  | |- exists obj, foldM ?f ?l ?acc = Ok obj /\ _ =>
      assert (H : forall a acc0, In a l ->
                exists r, f acc0 a = Ok r
                          /\ forall vals,
                               (value vals r
                                == value vals acc0
                                   + PyNum.sumQ
                                       (map (fun line : Z * LineInfo =>
                                               PyNum.sumQ
                                                 (map (fun slot =>
                                                         (inject_Z
                                                            (slot * (2 - priority (snd a))
                                                             + setup_cost (snd line))
                                                          * vals (sched_ (fst a) (fst line) slot))%Q)
                                                      time_slots))
                                            lines_data))%Q);
      [ | destruct (foldM_value f
                      (fun vals (job : Z * JobInfo) =>
                         PyNum.sumQ
                           (map (fun line : Z * LineInfo =>
                                   PyNum.sumQ
                                     (map (fun slot =>
                                             (inject_Z
                                                (slot * (2 - priority (snd job))
                                                 + setup_cost (snd line))
                                              * vals (sched_ (fst job) (fst line) slot))%Q)
                                          time_slots))
                                lines_data))
                      l H acc) as [obj [E V]] ]
  end.
  - intros [j job] acc Hj. cbn [fst snd].
    apply (foldM_value _
             (fun vals (line : Z * LineInfo) =>
                PyNum.sumQ
                  (map (fun slot =>
                          (inject_Z (slot * (2 - priority job)
                                     + setup_cost (snd line))
                           * vals (sched_ j (fst line) slot))%Q)
                       time_slots))).
    intros [l line] acc' Hl. cbn [fst snd].
    apply (foldM_value _
             (fun vals slot =>
                (inject_Z (slot * (2 - priority job) + setup_cost line)
                 * vals (sched_ j l slot))%Q)).
    intros s acc'' Hs.
    rewrite (getitem3_sched jobs_data lines_data wf_jobs wf_lines j l s
               (In_fst_keys _ _ _ Hj) (In_fst_keys _ _ _ Hl) Hs).
    cbn [res_bind]. eexists. split; [reflexivity|].
    intros vals. rewrite value_expr_add, value_var_scale. reflexivity.
  - exists obj. split; [exact E|].
    intros vals. rewrite V, value_expr_zero. ring.
Qed.

Lemma schedule_model_objective (p : LpProblem)
      (vars : dict (dict (dict LpVariable))) (vals : Valuation) :
  production_schedule_model jobs_data lines_data = Ok (p, vars) ->
  (value vals (objective p) == schedule_cost jobs_data lines_data vals)%Q.
Proof.
  destruct schedule_objective_ok as [obj [E V]].
  unfold production_schedule_model. rewrite E. cbn [res_bind].
  rewrite (assignment_constraints_ok jobs_data lines_data wf_jobs wf_lines).
  cbn [res_bind].
  rewrite (exclusivity_constraints_ok jobs_data lines_data wf_jobs wf_lines).
  cbn [res_bind].
  rewrite (capacity_constraints_ok jobs_data lines_data wf_jobs wf_lines).
  cbn [res_bind].
  intros [= <- _]. rewrite !objective_add_constraints.
  cbn [set_objective objective]. apply V.
Qed.

End ScheduleObjective.

Section ScheduleCost.

Variable jobs_data : dict JobInfo.
Variable lines_data : dict LineInfo.
Hypothesis wf_jobs : wf jobs_data.
Hypothesis wf_lines : wf lines_data.
Variable p : LpProblem.
Hypothesis Hmodel :
  production_schedule_model jobs_data lines_data
  = Ok (p, schedule_variables jobs_data lines_data).
Variable vals : Valuation.
Hypothesis Hfeasible : feasible p vals.

Lemma line_slot_pairs_entries (entries : dict LineInfo) :
  line_slot_pairs entries
  = map (fun t : Z * LineInfo * Z => (fst (fst t), snd t))
        (flat_map (fun line : Z * LineInfo =>
                     map (fun slot => (line, slot)) time_slots)
                  entries).
Proof.
  unfold line_slot_pairs.
  induction entries as [|[l line] entries IH]; [reflexivity|].
  cbn [keys map fst flat_map]. rewrite map_app, map_map. cbn [fst snd].
  fold (keys entries). rewrite IH. reflexivity.
Qed.

(** The part of the objective that belongs to a job is the cost of the line
    and slot the job was put on. *)
Lemma job_cost_one_hot (j : Z) (job : JobInfo) (l : Z) (line : LineInfo) (s : Z) :
  In (j, job) jobs_data ->
  job_assignment vals lines_data j = Some (l, line, s) ->
  (PyNum.sumQ
     (map (fun line' : Z * LineInfo =>
             PyNum.sumQ
               (map (fun slot =>
                       inject_Z (slot * (2 - priority job) + setup_cost (snd line'))
                       * vals (sched_ j (fst line') slot))
                    time_slots))
          lines_data)
   == inject_Z (s * (2 - priority job) + setup_cost line))%Q.
Proof.
  intros Hjob Ha.
  apply job_assignment_sound in Ha. destruct Ha as [Hline [Hs Has]].
  pose proof (In_fst_keys _ _ _ Hjob) as Hj.
  set (c := fun t : Z * LineInfo * Z =>
              inject_Z (snd t * (2 - priority job) + setup_cost (snd (fst t)))).
  set (f := fun t : Z * LineInfo * Z => vals (sched_ j (fst (fst t)) (snd t))).
  set (T := flat_map (fun line' : Z * LineInfo =>
                        map (fun slot => (line', slot)) time_slots)
                     lines_data).
  transitivity (PyNum.sumQ (map (fun t => c t * f t)%Q T)).
  - unfold T. rewrite sumQ_flat_map.
    apply sumQ_ext. intros line' _. rewrite map_map. reflexivity.
  - apply (one_hot_weighted c f T (l, line, s)).
    + intros [[l' line'] s'] Ht. unfold T in Ht. apply in_flat_map in Ht.
      destruct Ht as [[l2 line2] [He Ht]]. apply in_map_iff in Ht.
      destruct Ht as [s'' [Heq Hs']]. injection Heq as -> -> ->.
      unfold f. cbn [fst snd].
      apply (feasible_sched_nonneg _ _ wf_jobs wf_lines p Hmodel vals Hfeasible
               j l' s' Hj (In_fst_keys _ _ _ He) Hs').
    + pose proof (feasible_assignment _ _ wf_jobs wf_lines p Hmodel vals
                    Hfeasible j Hj) as H1.
      rewrite line_slot_pairs_entries, map_map in H1. exact H1.
    + unfold T. apply in_flat_map. exists (l, line). split; [exact Hline|].
      apply in_map. exact Hs.
    + unfold f. cbn [fst snd]. unfold assigned in Has.
      apply Qeq_bool_iff. exact Has.
Qed.

Lemma schedule_cost_of_extracted (now : Z) :
  (schedule_cost jobs_data lines_data vals
   == schedule_value (extracted_schedule vals jobs_data lines_data now))%Q.
Proof.
  unfold schedule_cost, schedule_value, extracted_schedule.
  rewrite sumQ_flat_map.
  apply sumQ_ext. intros [j job] Hjob. cbn [fst snd].
  pose proof (In_fst_keys _ _ _ Hjob) as Hj.
  destruct (feasible_job_assigned _ _ wf_jobs wf_lines p Hmodel vals Hfeasible
              j Hj) as [l [s [Hl [Hs Has]]]].
  destruct (job_assignment_complete vals lines_data j l s Hl Hs Has)
    as [[[l' line'] s'] Hja].
  rewrite Hja. cbn [map fst snd schedule_entry assigned_slot job_info
                      se_line_info].
  rewrite sumQ_cons, sumQ_nil, Qplus_0_r.
  apply (job_cost_one_hot j job l' line' s' Hjob Hja).
Qed.

End ScheduleCost.

(** X17.  The objective value a successful [optimize_production_schedule]
    reports is the cost of the schedule it returns: for every scheduled job
    its slot times [2 - priority], plus the setup cost of its line.  Of the
    solver it is only assumed that status [Optimal] comes with feasible
    values of the model that was built. *)
Theorem reported_objective_is_schedule_cost
        (cbc : Solver) (w w' : World) (s : ScheduleSuccess) :
  (forall p vars,
     production_schedule_model (_get_pending_jobs_data w)
                               (_get_production_lines_data w) = Ok (p, vars) ->
     solver_feasible_on cbc p) ->
  optimize_production_schedule cbc w = (Ok (success s), w') ->
  (ss_objective_value s == schedule_value (schedule s))%Q.
Proof.
  intros Hsolver Hrun.
  destruct (optimize_production_schedule_success cbc w w' s Hrun)
    as [p [vals [Hm [Hs Hx]]]].
  destruct (optimize_production_schedule_success_full cbc w w' s Hrun)
    as [p' [vars' [vals' [_ [Hm' [Hs' [_ Hobj]]]]]]].
  rewrite Hm in Hm'. injection Hm' as <- _.
  rewrite Hs in Hs'. injection Hs' as <-.
  pose proof (wf_jobs_data w) as Hwj.
  pose proof (wf_lines_data w) as Hwl.
  assert (Hf : feasible p vals).
  { specialize (Hsolver _ _ Hm). unfold solver_feasible_on in Hsolver.
    rewrite Hs in Hsolver. apply Hsolver. reflexivity. }
  rewrite Hobj, Hx.
  rewrite (schedule_model_objective _ _ Hwj Hwl p _ vals Hm).
  apply (schedule_cost_of_extracted _ _ Hwj Hwl p Hm vals Hf).
Qed.

(** The sample world: the three jobs at slots 0, 1 and 2 of line 7 cost
    10 + 10 + 12. *)
Lemma reported_objective_is_schedule_cost_witness :
  exists s w',
    optimize_production_schedule cbc_three_slots world_one_item
    = (Ok (success s), w')
    /\ (ss_objective_value s == 32)%Q.
Proof.
  eexists. eexists. split.
  - vm_compute. reflexivity.
  - eapply Qeq_trans.
    + eapply reported_objective_is_schedule_cost
        with (cbc := cbc_three_slots) (w := world_one_item).
      * intros p vars Hm. vm_compute in Hm. injection Hm as <- _.
        intros _. apply feasibleb_sound. vm_compute. reflexivity.
      * vm_compute. reflexivity.
    + vm_compute. reflexivity.
Defined.

(** ** The requirements estimated for a line *)

Section RequirementEstimates.

Lemma production_requirements_get (w : World) (l : Z) :
  get (_get_production_requirements w) l
  = match find (fun line => Z.eqb (line_id line) l)
               (rev (filter line_is_active (production_lines w))) with
    | Some line =>
        Some {| lr_name := line_name line;
                lr_capacity_per_hour := capacity_per_hour line;
                required_items :=
                  match recent_records_of w line 7 with
                  | [] => []
                  | _ :: _ =>
                      [(1, PyNum.int_float
                             (PyNum.truediv
                                (PyNum.sumZ
                                   (map actual_quantity
                                        (recent_records_of w line 7)))
                                (Z.of_nat
                                   (List.length (recent_records_of w line 7)))
                              * PyNum.lit_0_8)%float);
                       (2, PyNum.int_float
                             (PyNum.truediv
                                (PyNum.sumZ
                                   (map actual_quantity
                                        (recent_records_of w line 7)))
                                (Z.of_nat
                                   (List.length (recent_records_of w line 7)))
                              * PyNum.lit_0_6)%float)]
                  end |}
    | None => None
    end.
Proof.
  unfold _get_production_requirements. cbv zeta.
  match goal with
  | |- get (fold_left (fun d x => setitem d (line_id x) (@?v x)) _ _) _ = _ =>
      rewrite (get_fold_setitem line_id v)
  end.
  destruct (find _ _) as [line|]; [|reflexivity].
  cbn [get]. destruct (recent_records_of w line 7); reflexivity.
Qed.

End RequirementEstimates.

(** X18.  [_get_production_requirements] estimates the requirements of an
    active line (one whose id no other active line has) from its production
    records of the last seven days only: without such a record the line
    requires nothing; otherwise it requires of item 1 the integer part of
    0.8 times, and of item 2 the integer part of 0.6 times, the average
    produced quantity of those records, and nothing of any other item.  The
    average is the quotient of the two integers rounded to binary64, and
    each product is rounded to binary64 before [int] truncates it. *)
Theorem production_requirements_lookup (w : World) (line : ProductionLine) :
  In line (production_lines w) -> line_is_active line = true ->
  (forall other, In other (production_lines w) ->
                 line_is_active other = true ->
                 line_id other = line_id line -> other = line) ->
  exists entry,
    get (_get_production_requirements w) (line_id line) = Some entry
    /\ lr_name entry = line_name line
    /\ lr_capacity_per_hour entry = capacity_per_hour line
    /\ (forall i, i <> 1 -> i <> 2 -> requirement_of entry i = 0)
    /\ (recent_records_of w line 7 = [] ->
        required_items entry = [])
    /\ (recent_records_of w line 7 <> [] ->
        let avg_production :=
          PyNum.truediv
            (PyNum.sumZ (map actual_quantity (recent_records_of w line 7)))
            (Z.of_nat (List.length (recent_records_of w line 7))) in
        requirement_of entry 1
        = PyNum.int_float (avg_production * PyNum.lit_0_8)%float
        /\ requirement_of entry 2
           = PyNum.int_float (avg_production * PyNum.lit_0_6)%float).
Proof.
  intros Hin Hact Huniq. rewrite production_requirements_get.
  destruct (find _ _) as [x|] eqn:E.
  - apply find_some in E. destruct E as [Hx Hk].
    apply in_rev in Hx. apply filter_In in Hx. destruct Hx as [Hx Hax].
    apply Z.eqb_eq in Hk. rewrite (Huniq x Hx Hax Hk).
    eexists. split; [reflexivity|]. cbn [lr_name lr_capacity_per_hour].
    split; [reflexivity|]. split; [reflexivity|].
    unfold requirement_of. cbn [required_items].
    destruct (recent_records_of w line 7) as [|r rs].
    + split; [reflexivity|]. split; [reflexivity|].
      intros H. contradiction H. reflexivity.
    + split; [|split; [discriminate|]].
      * intros i H1 H2. cbn [get].
        destruct (Z.eqb_spec i 1); [contradiction|].
        destruct (Z.eqb_spec i 2); [contradiction|]. reflexivity.
      * intros _. cbv zeta. split; reflexivity.
  - exfalso.
    pose proof (find_none _ _ E line) as Hn. cbv beta in Hn.
    rewrite Z.eqb_refl in Hn. discriminate Hn.
    apply in_rev. rewrite rev_involutive. apply filter_In. auto.
Qed.

(** Records of 10, 12 and 13 units: the average is 35/3 rounded, its
    product with 0.8 rounds to 9.333333333333334 and its product with 0.6
    to 6.999999999999999, so the line requires 9 units of item 1 and 6 of
    item 2. *)
Lemma production_requirements_lookup_witness :
  exists entry,
    get (_get_production_requirements world_uneven_records) 7 = Some entry
    /\ requirement_of entry 1 = 9 /\ requirement_of entry 2 = 6.
Proof.
  destruct (production_requirements_lookup world_uneven_records assembly_line)
    as [entry [Hget [_ [_ [_ [_ Hreq]]]]]].
  - left. reflexivity.
  - reflexivity.
  - intros other [<-|[]] _ _. reflexivity.
  - exists entry. split; [exact Hget|].
    destruct Hreq as [H1 H2]; [discriminate|].
    split; [rewrite H1 | rewrite H2]; reflexivity.
Defined.

Section SessionBlock.

Lemma get_db_session_eq {A} (body : M A) (w : World) :
  get_db_session body w
  = match body (set_pending [] w) with
    | (Ok a, w1) =>
        match session_commit w1 with
        | (Ok _, w2) => (Ok a, set_pending [] w2)
        | (Raise e, w2) => (Raise e, set_pending [] w2)
        end
    | (Raise e, w1) => (Raise e, set_pending [] w1)
    end.
Proof.
  unfold get_db_session, try_finally, try_except, session_close,
         session_rollback.
  unfold bind at 1. unfold modify at 1. cbn beta iota.
  unfold bind at 1.
  destruct (body (set_pending [] w)) as [[a|e] w1].
  - unfold bind at 1. destruct (session_commit w1) as [[[]|e] w2]; reflexivity.
  - reflexivity.
Qed.

End SessionBlock.

(** X19.  The session block of [get_db_session] commits when its body
    returns and rolls back when the body or the commit raises, and closes
    the session in every case.  If the body raises, the same exception
    leaves the block and the tables are as the body left them; if the body
    returns, either everything pending is written and the block returns the
    body's value, or the commit fails, nothing pending is written and the
    database error leaves the block.  No object stays pending. *)
Theorem get_db_session_commits_or_rolls_back
        {A : Type} (body : M A) (w : World) :
  let inner := body (set_pending [] w) in
  let out := get_db_session body w in
  pending (snd out) = []
  /\ match fst inner with
     | Raise e => fst out = Raise e /\ same_tables (snd inner) (snd out)
     | Ok a =>
         (fst out = Ok a
          /\ resource_allocations (snd out)
             = resource_allocations (snd inner)
               ++ pending_allocations (pending (snd inner))
          /\ optimization_results (snd out)
             = optimization_results (snd inner)
               ++ pending_optimizations (pending (snd inner)))
         \/ (fst out = Raise SQLAlchemyError
             /\ same_tables (snd inner) (snd out))
     end.
Proof.
  cbv zeta. rewrite get_db_session_eq.
  destruct (body (set_pending [] w)) as [[a|e] w1]; cbn [fst snd].
  - destruct (session_commit_cases w1) as [[E _]|[E _]]; rewrite E;
      cbn [fst snd].
    + split; [reflexivity|]. left. auto.
    + split; [reflexivity|]. right. repeat split.
  - repeat split.
Qed.

(** ** The entries of a schedule *)

Section ScheduleEntries.

Lemma time_slots_range (s : Z) : In s time_slots -> 0 <= s <= 23.
Proof.
  unfold time_slots. intros H. apply in_map_iff in H.
  destruct H as [n [<- Hn]]. apply in_seq in Hn. lia.
Qed.

Lemma setitem_not_empty {V} (d : dict V) (k : Z) (v : V) :
  is_empty (setitem d k v) = false.
Proof. destruct d as [|[k' v'] d]; cbn; [|destruct (Z.eqb k k')]; reflexivity. Qed.

Lemma fold_setitem_not_empty {V X} (key : X -> Z) (val : X -> V) (l : list X) :
  forall d, is_empty d = false ->
            is_empty (fold_left (fun d x => setitem d (key x) (val x)) l d) = false.
Proof.
  induction l as [|x l IH]; intros d Hd; [exact Hd|].
  cbn [fold_left]. apply IH. apply setitem_not_empty.
Qed.

Lemma lines_data_empty (w : World) :
  is_empty (_get_production_lines_data w) = true
  <-> filter line_is_active (production_lines w) = [].
Proof.
  unfold _get_production_lines_data. cbv zeta.
  destruct (filter line_is_active (production_lines w)) as [|x l].
  - split; reflexivity.
  - split; [|discriminate]. cbn [fold_left].
    match goal with
    | |- is_empty (fold_left (fun d x => setitem d (line_id x) (@?v x)) _ _) = _
         -> _ =>
        rewrite (fold_setitem_not_empty line_id v)
    end.
    + discriminate.
    + reflexivity.
Qed.

End ScheduleEntries.

(** X20.  Every entry of the schedule returned by a successful
    [optimize_production_schedule] carries the data of its job and of the
    line it names, both as read for the model, has a slot between 0 and 23,
    and is scheduled at the current time plus that many hours. *)
Theorem schedule_entries_carry_their_data
        (cbc : Solver) (w w' : World) (s : ScheduleSuccess) :
  optimize_production_schedule cbc w = (Ok (success s), w') ->
  forall job_id e,
    In (job_id, e) (schedule s) ->
    get (_get_pending_jobs_data w) job_id = Some (job_info e)
    /\ get (_get_production_lines_data w) (assigned_line e)
       = Some (se_line_info e)
    /\ 0 <= assigned_slot e <= 23
    /\ scheduled_time e = utcnow w + assigned_slot e * seconds_per_hour.
Proof.
  intros Hrun j e Hin.
  destruct (optimize_production_schedule_success cbc w w' s Hrun)
    as [p [vals [_ [_ Hx]]]].
  rewrite Hx in Hin. apply In_extracted_schedule in Hin.
  destruct Hin as [job [[[l line] sl] [Hjob [Ha ->]]]].
  apply job_assignment_sound in Ha. destruct Ha as [Hl [Hsl _]].
  cbn [schedule_entry job_info assigned_line se_line_info assigned_slot
         scheduled_time fst snd].
  split; [apply (In_get _ _ _ (wf_jobs_data w) Hjob)|].
  split; [apply (In_get _ _ _ (wf_lines_data w) Hl)|].
  split; [apply time_slots_range; exact Hsl | reflexivity].
Qed.

(** The sample world: job 2 sits on line 7 at slot 1, one hour from now. *)
Lemma schedule_entries_carry_their_data_witness :
  exists s w' e,
    optimize_production_schedule cbc_three_slots world_one_item
    = (Ok (success s), w')
    /\ get (schedule s) 2 = Some e
    /\ scheduled_time e = 2000 + 1 * seconds_per_hour.
Proof.
  eexists. eexists. eexists. split; [vm_compute; reflexivity|].
  split; [vm_compute; reflexivity|].
  refine (proj2 (proj2 (proj2
            (schedule_entries_carry_their_data
               cbc_three_slots world_one_item _ _ _ 2 _ _)))).
  - vm_compute. reflexivity.
  - right. left. reflexivity.
Defined.

(** X21.  [optimize_production_schedule] answers [insufficient_data] exactly
    when there is no active production line (the pending jobs are never
    missing): without an active line it returns that answer, unless the
    closing commit fails, without calling the solver and without writing
    anything; and whenever it returns that answer there is no active
    line. *)
Theorem schedule_insufficient_data_iff_no_active_line
        (cbc : Solver) (w : World) :
  (filter line_is_active (production_lines w) = [] ->
   exists w',
     optimize_production_schedule cbc w
     = ((if hd false (faults w)
         then Raise SQLAlchemyError
         else Ok (failed insufficient_data)), w')
     /\ solver_calls w' = solver_calls w
     /\ same_tables w w')
  /\ (forall w',
        optimize_production_schedule cbc w = (Ok (failed insufficient_data), w') ->
        filter line_is_active (production_lines w) = []).
Proof.
  split.
  - intros Hdata. apply lines_data_empty in Hdata.
    unfold optimize_production_schedule. rewrite try_except_reraise.
    match goal with
    | |- exists w', get_db_session ?body w = _ /\ _ =>
        destruct (get_db_session_idle body w (set_pending [] w)
                                      (failed insufficient_data))
          as [w' [E [Ht [Hs _]]]]
    end.
    + unfold bind, gets.
      change (_get_production_lines_data (set_pending [] w))
        with (_get_production_lines_data w).
      rewrite Hdata. reflexivity.
    + reflexivity.
    + split; reflexivity.
    + reflexivity.
    + exists w'. split; [exact E|]. split; [exact Hs | exact Ht].
  - intros w' Hrun. apply lines_data_empty.
    revert Hrun.
    unfold optimize_production_schedule. rewrite try_except_reraise.
    intros H. apply get_db_session_ok_inv in H.
    destruct H as [w1 [w2 [Hbody _]]]. revert Hbody.
    unfold bind at 1. unfold gets at 1. unfold bind at 1. unfold gets at 1.
    change (_get_production_lines_data (set_pending [] w))
      with (_get_production_lines_data w).
    change (_get_pending_jobs_data (set_pending [] w))
      with (_get_pending_jobs_data w).
    destruct (is_empty (_get_production_lines_data w)) eqn:El; [reflexivity|].
    change (is_empty (_get_pending_jobs_data w)) with false. cbn [orb].
    unfold bind at 1. unfold lift at 1.
    destruct (production_schedule_model _ _) as [[p vars]|e]; [|discriminate].
    unfold bind at 1. unfold solve at 1. unfold bind at 1.
    unfold modify at 1. unfold ret at 1.
    destruct (cbc p) as [st vals].
    destruct (is_optimal st); [|unfold ret; discriminate].
    unfold bind at 1. unfold gets at 1.
    unfold bind at 1. unfold lift at 1.
    destruct (_extract_schedule_results _ _ _ _ _) as [sched|e]; [|discriminate].
    unfold bind at 1.
    destruct (_save_optimization_result _ _ _ _) as [[[]|e] ws]; [|discriminate].
    unfold bind at 1.
    destruct (_apply_production_schedule sched ws) as [[[]|e] wa];
      [|discriminate].
    unfold ret. discriminate.
Qed.

(** The sample world without its production line. *)
Lemma schedule_insufficient_data_iff_no_active_line_witness :
  fst (optimize_production_schedule cbc_three_slots
         {| inventory_items := [seat_frame];
            production_lines := [];
            production_records := [];
            resource_allocations := [];
            optimization_results := [];
            pending := [];
            faults := [];
            utcnow := 2000;
            solver_calls := [] |})
  = Ok (failed insufficient_data).
Proof.
  destruct (proj1 (schedule_insufficient_data_iff_no_active_line
                     cbc_three_slots
                     {| inventory_items := [seat_frame];
                        production_lines := [];
                        production_records := [];
                        resource_allocations := [];
                        optimization_results := [];
                        pending := [];
                        faults := [];
                        utcnow := 2000;
                        solver_calls := [] |})
              eq_refl) as [w' [E _]].
  rewrite E. reflexivity.
Defined.

(** ** The failed outcomes of the inventory optimization *)

Section InventoryFailures.

Lemma inventory_data_empty (w : World) :
  is_empty (_get_inventory_data w) = true
  <-> filter item_is_active (inventory_items w) = [].
Proof.
  unfold _get_inventory_data. cbv zeta.
  destruct (filter item_is_active (inventory_items w)) as [|x l].
  - split; reflexivity.
  - split; [|discriminate]. cbn [fold_left].
    match goal with
    | |- is_empty (fold_left (fun d x => setitem d (item_id x) (@?v x)) _ _) = _
         -> _ =>
        rewrite (fold_setitem_not_empty item_id v)
    end.
    + discriminate.
    + reflexivity.
Qed.

Lemma production_requirements_empty (w : World) :
  is_empty (_get_production_requirements w) = true
  <-> filter line_is_active (production_lines w) = [].
Proof.
  unfold _get_production_requirements. cbv zeta.
  destruct (filter line_is_active (production_lines w)) as [|x l].
  - split; reflexivity.
  - split; [|discriminate]. cbn [fold_left].
    match goal with
    | |- is_empty (fold_left (fun d x => setitem d (line_id x) (@?v x)) _ _) = _
         -> _ =>
        rewrite (fold_setitem_not_empty line_id v)
    end.
    + discriminate.
    + apply setitem_not_empty.
Qed.

End InventoryFailures.

(** X22.  The failed answers of [optimize_inventory_allocation] tell what
    happened: [insufficient_data] is returned only when there is no active
    inventory item or no active production line, [no_optimal_solution] only
    when there is data and the solver reported a status other than
    [Optimal] on the model built from it, and [no_data] never. *)
Theorem inventory_failures_classified
        (cbc : Solver) (w w' : World) (reason : FailReason) :
  optimize_inventory_allocation cbc w = (Ok (failed reason), w') ->
  (reason = insufficient_data
   /\ (filter item_is_active (inventory_items w) = []
       \/ filter line_is_active (production_lines w) = []))
  \/ (reason = no_optimal_solution
      /\ filter item_is_active (inventory_items w) <> []
      /\ filter line_is_active (production_lines w) <> []
      /\ exists p vars,
           inventory_allocation_model (_get_inventory_data w)
                                      (_get_production_requirements w)
           = Ok (p, vars)
           /\ is_optimal (fst (cbc p)) = false).
Proof.
  unfold optimize_inventory_allocation. rewrite try_except_reraise.
  intros H. apply get_db_session_ok_inv in H.
  destruct H as [w1 [w2 [Hbody _]]]. revert Hbody.
  unfold bind at 1. unfold gets at 1. unfold bind at 1. unfold gets at 1.
  change (_get_inventory_data (set_pending [] w)) with (_get_inventory_data w).
  change (_get_production_requirements (set_pending [] w))
    with (_get_production_requirements w).
  destruct (is_empty (_get_inventory_data w)) eqn:Ei.
  { cbn [orb]. unfold ret. intros [= <- _]. left. split; [reflexivity|].
    left. apply inventory_data_empty. exact Ei. }
  destruct (is_empty (_get_production_requirements w)) eqn:Ep.
  { cbn [orb]. unfold ret. intros [= <- _]. left. split; [reflexivity|].
    right. apply production_requirements_empty. exact Ep. }
  cbn [orb].
  unfold bind at 1. unfold lift at 1.
  destruct (inventory_allocation_model _ _) as [[p vars]|e] eqn:Hm;
    [|discriminate].
  unfold bind at 1. unfold solve at 1. unfold bind at 1.
  unfold modify at 1. unfold ret at 1.
  destruct (cbc p) as [st vals] eqn:Hs.
  destruct (is_optimal st) eqn:Eo.
  - unfold bind at 1. unfold lift at 1.
    destruct (_extract_allocation_results _ _ _ _) as [allocs|e]; [|discriminate].
    unfold bind at 1.
    destruct (_save_optimization_result _ _ _ _) as [[[]|e] ws]; [|discriminate].
    unfold bind at 1.
    destruct (_apply_inventory_allocations allocs ws) as [[[]|e] wa];
      [|discriminate].
    unfold ret. discriminate.
  - unfold ret. intros [= <- _]. right. split; [reflexivity|].
    split.
    { intros H. apply inventory_data_empty in H. congruence. }
    split.
    { intros H. apply production_requirements_empty in H. congruence. }
    exists p, vars. split; [reflexivity|]. rewrite Hs. exact Eo.
Qed.

(** The short-stock world with a solver that reports infeasibility. *)
Lemma inventory_failures_classified_witness :
  exists p vars,
    inventory_allocation_model (_get_inventory_data world_short_stock)
                               (_get_production_requirements world_short_stock)
    = Ok (p, vars)
    /\ is_optimal (fst (cbc_infeasible p)) = false.
Proof.
  edestruct (inventory_failures_classified cbc_infeasible world_short_stock)
    as [[H _]|[_ [_ [_ H]]]].
  - vm_compute. reflexivity.
  - discriminate H.
  - exact H.
Defined.

(** ** The rows of the returned allocations *)

Section AllocationRows.

Lemma keys_extracted_row (vals : Valuation) (item : ItemInfo)
      (entries : dict LineReq) (i : Z) :
  keys (extracted_row vals item entries i)
  = filter (fun l => PyNum.Qlt_bool 0 (vals (alloc_ i l))) (keys entries).
Proof.
  unfold extracted_row, keys.
  induction entries as [|[l line] entries IH]; [reflexivity|].
  cbn [flat_map map filter fst]. rewrite map_app, IH.
  destruct (PyNum.Qlt_bool 0 (vals (alloc_ i l))); reflexivity.
Qed.

End AllocationRows.

(** X23.  The allocations returned by a successful
    [optimize_inventory_allocation] hold one row for every item of the
    inventory snapshot, in the order of the snapshot and also for an item
    that gets nothing; a row names only lines of the requirements snapshot,
    and none of them twice. *)
Theorem allocations_have_a_row_per_item
        (cbc : Solver) (w w' : World) (s : AllocationSuccess) :
  optimize_inventory_allocation cbc w = (Ok (success s), w') ->
  keys (allocations s) = keys (_get_inventory_data w)
  /\ forall item_id row,
       In (item_id, row) (allocations s) ->
       wf row
       /\ forall line_id, In line_id (keys row) ->
                          In line_id (keys (_get_production_requirements w)).
Proof.
  intros Hrun.
  destruct (inventory_success_shape cbc w w' s Hrun) as [p [vals [_ [_ Hx]]]].
  rewrite Hx. split.
  - apply (keys_map_entries
             (fun e => extracted_row vals (snd e)
                                     (_get_production_requirements w) (fst e))).
  - intros i row Hin. apply in_map_iff in Hin.
    destruct Hin as [[i' info] [[= -> <-] _]]. cbn [fst snd].
    split.
    + unfold wf. rewrite keys_extracted_row. apply NoDup_filter.
      apply wf_production_requirements.
    + intros l Hl. rewrite keys_extracted_row in Hl.
      apply filter_In in Hl. apply Hl.
Qed.

(** The sample world: the one row is that of item 1. *)
Lemma allocations_have_a_row_per_item_witness :
  exists s w',
    optimize_inventory_allocation cbc_thirty world_one_item = (Ok (success s), w')
    /\ keys (allocations s) = [1].
Proof.
  eexists. eexists. split; [vm_compute; reflexivity|].
  refine (proj1 (allocations_have_a_row_per_item
                   cbc_thirty world_one_item _ _ _)).
  vm_compute. reflexivity.
Defined.

(** ** Tables that only grow *)

Section AppendOnly.

Variable cbc : Solver.

Lemma inventory_appends (w w' : World) (r : res (Outcome AllocationSuccess)) :
  optimize_inventory_allocation cbc w = (r, w') ->
  exists rows runs,
    resource_allocations w' = resource_allocations w ++ rows
    /\ optimization_results w' = optimization_results w ++ runs
    /\ (List.length runs <= 1)%nat.
Proof.
  intros E. apply optimize_inventory_outcome in E.
  destruct E as [_ [[[Hra Hor] _]|[p [vars [vals [allocs H]]]]]].
  - exists [], []. rewrite !app_nil_r. auto.
  - destruct H as [_ [_ [_ [_ [_ [_ [Hra Hor]]]]]]].
    destruct Hra as [Hra|Hra]; destruct Hor as [Hor|Hor];
      rewrite Hra, Hor;
      eexists; eexists;
      (split; [first [reflexivity | symmetry; apply app_nil_r]|]);
      (split; [first [reflexivity | symmetry; apply app_nil_r]|]);
      cbn [List.length]; lia.
Qed.

Lemma schedule_appends (w w' : World) (r : res (Outcome ScheduleSuccess)) :
  optimize_production_schedule cbc w = (r, w') ->
  exists rows runs,
    resource_allocations w' = resource_allocations w ++ rows
    /\ optimization_results w' = optimization_results w ++ runs
    /\ (List.length runs <= 1)%nat.
Proof.
  intros E. apply optimize_schedule_outcome in E.
  destruct E as [_ [[[Hra Hor] _]|[p [vars [vals [sched H]]]]]].
  - exists [], []. rewrite !app_nil_r. auto.
  - destruct H as [_ [_ [_ [_ [_ [Hra Hor]]]]]].
    destruct Hra as [Hra|Hra]; destruct Hor as [Hor|Hor];
      rewrite Hra, Hor;
      eexists; eexists;
      (split; [first [reflexivity | symmetry; apply app_nil_r]|]);
      (split; [first [reflexivity | symmetry; apply app_nil_r]|]);
      cbn [List.length]; lia.
Qed.

Lemma pass_appends (interval : Z) (w : World) :
  exists rows runs,
    resource_allocations (snd (optimization_pass cbc interval w))
    = resource_allocations w ++ rows
    /\ optimization_results (snd (optimization_pass cbc interval w))
       = optimization_results w ++ runs
    /\ (List.length runs <= 2)%nat.
Proof.
  unfold optimization_pass, try_except, bind, sleep, modify.
  destruct (optimize_inventory_allocation cbc w) as [[o|e] w1] eqn:E1;
    apply inventory_appends in E1;
    destruct E1 as [rows1 [runs1 [Hra1 [Hor1 Hn1]]]].
  - destruct (optimize_production_schedule cbc w1) as [[o2|e2] w2] eqn:E2;
      apply schedule_appends in E2;
      destruct E2 as [rows2 [runs2 [Hra2 [Hor2 Hn2]]]];
      exists (rows1 ++ rows2), (runs1 ++ runs2); cbn;
      rewrite Hra2, Hor2, Hra1, Hor1, !app_assoc, length_app;
      (split; [reflexivity|]); (split; [reflexivity | lia]).
  - exists rows1, runs1. cbn. rewrite Hra1, Hor1.
    split; [reflexivity|]. split; [reflexivity | lia].
Qed.

Lemma loop_appends (interval : Z) (readings : list bool) :
  forall w,
  exists rows runs,
    resource_allocations (snd (_optimization_loop cbc interval readings w))
    = resource_allocations w ++ rows
    /\ optimization_results (snd (_optimization_loop cbc interval readings w))
       = optimization_results w ++ runs
    /\ (List.length runs <= 2 * passes readings)%nat.
Proof.
  induction readings as [|[|] rest IH]; intros w.
  - exists [], []. cbn. rewrite !app_nil_r. auto.
  - cbn [_optimization_loop passes]. unfold bind.
    destruct (optimization_pass_returns cbc interval w) as [w1 [E1 _]].
    destruct (pass_appends interval w) as [rows1 [runs1 [Hra1 [Hor1 Hn1]]]].
    rewrite E1 in *. cbn [snd] in Hra1, Hor1.
    destruct (IH w1) as [rows2 [runs2 [Hra2 [Hor2 Hn2]]]].
    exists (rows1 ++ rows2), (runs1 ++ runs2).
    rewrite Hra2, Hor2, Hra1, Hor1, !app_assoc, length_app.
    split; [reflexivity|]. split; [reflexivity | lia].
  - exists [], []. cbn. rewrite !app_nil_r. auto.
Qed.

End AppendOnly.

(** X24.  The engine only ever appends to the tables it writes: after a call
    of [optimize_inventory_allocation] or [optimize_production_schedule],
    and after any run of the periodic loop, whatever the solver and the
    database do, the rows that were in the resource allocations and in the
    optimization runs are still there, unchanged and in place, followed by
    what was added; a call adds at most one optimization run, and the loop
    at most two for each pass. *)
Theorem tables_only_grow (cbc : Solver) (w : World) :
  (let w' := snd (optimize_inventory_allocation cbc w) in
   exists rows runs,
     resource_allocations w' = resource_allocations w ++ rows
     /\ optimization_results w' = optimization_results w ++ runs
     /\ (List.length runs <= 1)%nat)
  /\ (let w' := snd (optimize_production_schedule cbc w) in
      exists rows runs,
        resource_allocations w' = resource_allocations w ++ rows
        /\ optimization_results w' = optimization_results w ++ runs
        /\ (List.length runs <= 1)%nat)
  /\ (forall interval readings,
        let w' := snd (_optimization_loop cbc interval readings w) in
        exists rows runs,
          resource_allocations w' = resource_allocations w ++ rows
          /\ optimization_results w' = optimization_results w ++ runs
          /\ (List.length runs <= 2 * passes readings)%nat).
Proof.
  cbv zeta. split; [|split].
  - destruct (optimize_inventory_allocation cbc w) as [r w'] eqn:E.
    apply (inventory_appends cbc w w' r E).
  - destruct (optimize_production_schedule cbc w) as [r w'] eqn:E.
    apply (schedule_appends cbc w w' r E).
  - intros interval readings. apply loop_appends.
Qed.
